(** * PMW3901 / PAA5100 optical flow driver: a shallow embedding

    The driver of [pmw3901/__init__.py] talks to the sensor through three
    collaborators: the SPI bus ([spidev]), an optional GPIO line used as a
    software chip select ([gpiod]) and the clock ([time]).  They are kept
    abstract behind the [Platform] class; the driver code itself is
    translated function by function into a state-and-exception monad over
    a world made of the platform state and a chronological log of what the
    driver did to it. *)

From Stdlib Require Import ZArith QArith Lia Lqa String HexString.
From stdpp Require Import base option list gmap pretty.

Local Open Scope Z_scope.

(** ** Python values and exceptions *)

(** Exceptions the driver raises itself ([RuntimeError], and [TypeError]
    in [set_rotation]) and the ones Python raises on its behalf. *)
Inductive exn : Type :=
| RuntimeError (msg : string)
| TypeError (msg : string)
| ValueError (msg : string)
| IndexError (msg : string)
| StructError (msg : string).

(** [_read] returns an [int] for [length == 1] and a [list] otherwise. *)
Inductive pyval : Type :=
| PyInt (n : Z)
| PyList (l : list Z).

(** Outcome of running a piece of driver code: a value, an exception, or
    the fuel given to a polling loop ran out. *)
Inductive outcome (A : Type) : Type :=
| Ret (a : A)
| Raise (e : exn)
| OutOfFuel.
Arguments Ret {A} a.
Arguments Raise {A} e.
Arguments OutOfFuel {A}.

(** ** What the driver does to the outside world *)

Inductive line_value : Type := INACTIVE | ACTIVE.

Inductive event : Type :=
| GetPin (gpio : Z) (label : string)
| SpiOpen (port cs : Z)
| SpiMaxSpeedHz (hz : Z)
| SpiNoCs
| SetValue (pin : Z) (v : line_value)
| Xfer2 (tx rx : list Z)
| TimeRead (t : Q)
| Sleep (seconds : Q).

(** The collaborators.  [bus_xfer2] is [spidev.SpiDev.xfer2]: it clocks
    out [tx] and returns as many bytes as it sent.  [clock_time] is
    [time.time()], in seconds; the time read may differ at every call. *)
Class Platform (Env : Type) : Type := {
  bus_xfer2 : Env -> list Z -> list Z * Env;
  line_set_value : Env -> Z -> line_value -> Env;
  clock_time : Env -> Q * Env;
  clock_sleep : Env -> Q -> Env;
  bus_xfer2_length : forall e tx, length (bus_xfer2 e tx).1 = length tx;
  bus_xfer2_bytes : forall e tx, Forall (fun b => 0 <= b < 256) (bus_xfer2 e tx).1
}.

(** ** Module constants *)

Definition WAIT : Z := -1.

Definition BG_CS_FRONT_BCM : Z := 1.
Definition BG_CS_BACK_BCM : Z := 0.

Definition REG_ID : Z := 0x00.
Definition REG_DATA_READY : Z := 0x02.
Definition REG_MOTION_BURST : Z := 0x16.
Definition REG_POWER_UP_RESET : Z := 0x3A.
Definition REG_ORIENTATION : Z := 0x5B.
Definition REG_RESOLUTION : Z := 0x4E.

Definition REG_RAWDATA_GRAB : Z := 0x58.
Definition REG_RAWDATA_GRAB_STATUS : Z := 0x59.

(** The two classes: [PAA5100] subclasses [PMW3901] and overrides
    [_secret_sauce] only. *)
Inductive variant : Type := PMW3901 | PAA5100.

(** The instance attributes the methods read. *)
Record sensor : Type := Sensor {
  cls : variant;
  _spi_cs_gpio : option Z
}.

Definition _device_name (c : variant) : string :=
  match c with
  | PMW3901 => "PMW3901"
  | PAA5100 => "PAA5100"
  end.

(** ** Pure helpers standing for Python built-ins *)

Definition Qltb (a b : Q) : bool := negb (Qle_bool b a).

(** [range(n)] *)
Definition range (n : Z) : list Z := Z.of_nat <$> seq 0 (Z.to_nat n).

(** [range(0, n, 2)] *)
Definition range_by2 (n : nat) : list nat :=
  (fun i => 2 * i)%nat <$> seq 0 (Nat.div2 (S n)).

(** [int.from_bytes([lo, hi], "little", signed=True)], the [h] of
    [struct.unpack] under [<]. *)
Definition int16_le (lo hi : Z) : Z :=
  let u := Z.lor lo (Z.shiftl hi 8) in
  if u <? 0x8000 then u else u - 0x10000.

Definition is_byte (b : Z) : bool := (0 <=? b) && (b <? 256).

(** [f"{n:02x}"] *)
Definition format_02x (n : Z) : string :=
  match n with
  | Z0 => "00"
  | Zpos p =>
      let s := HexString.Raw.of_pos p "" in
      if (String.length s <? 2)%nat then "0" +:+ s else s
  | Zneg p => "-" +:+ HexString.Raw.of_pos p ""
  end.

(** Lines 226-230 (and 423-427): the adjustment of [c1]. *)
Definition calibrate_c1 (c1 : Z) : Z :=
  let c1 := if c1 <=? 28 then c1 + 14 else c1 in
  let c1 := if c1 >? 28 then c1 + 11 else c1 in
  Z.max 0 (Z.min 0x3F c1).

(** Line 231 (and 428): the adjustment of [c2]; [//] is floor division. *)
Definition calibrate_c2 (c2 : Z) : Z := (c2 * 45) / 100.

(** The fields [struct.unpack("<BBBhhBBBBBB", ...)] yields in [get_motion]. *)
Record burst : Type := Burst {
  burst_pad : Z;
  burst_dr : Z;
  burst_obs : Z;
  burst_x : Z;
  burst_y : Z;
  burst_quality : Z;
  burst_raw_sum : Z;
  burst_raw_max : Z;
  burst_raw_min : Z;
  burst_shutter_upper : Z;
  burst_shutter_lower : Z
}.

(** [RAW_DATA_LEN] of [frame_capture] *)
Definition RAW_DATA_LEN : nat := 1225.

(** ** The register tables, as they stand in the source *)

Definition sauce_prologue : list Z := [
    0x7F; 0x00;  0x55; 0x01;  0x50; 0x07;  0x7F; 0x0E;
    0x43; 0x10 ].

Definition sauce_middle : list Z := [
    0x7F; 0x00;  0x51; 0x7B;  0x50; 0x00;  0x55; 0x00;
    0x7F; 0x0E ].

Definition sauce_calibration : list Z := [
    0x7F; 0x00;  0x61; 0xAD;  0x51; 0x70;  0x7F; 0x0E ].

Definition PMW3901_sauce_tail : list Z := [
    0x7F; 0x00;  0x61; 0xAD;  0x7F; 0x03;  0x40; 0x00;
    0x7F; 0x05;  0x41; 0xB3;  0x43; 0xF1;  0x45; 0x14;
    0x5B; 0x32;  0x5F; 0x34;  0x7B; 0x08;  0x7F; 0x06;
    0x44; 0x1B;  0x40; 0xBF;  0x4E; 0x3F;  0x7F; 0x08;
    0x65; 0x20;  0x6A; 0x18;  0x7F; 0x09;  0x4F; 0xAF;
    0x5F; 0x40;  0x48; 0x80;  0x49; 0x80;  0x57; 0x77;
    0x60; 0x78;  0x61; 0x78;  0x62; 0x08;  0x63; 0x50;
    0x7F; 0x0A;  0x45; 0x60;  0x7F; 0x00;  0x4D; 0x11;
    0x55; 0x80;  0x74; 0x21;  0x75; 0x1F;  0x4A; 0x78;
    0x4B; 0x78;  0x44; 0x08;  0x45; 0x50;  0x64; 0xFF;
    0x65; 0x1F;  0x7F; 0x14;  0x65; 0x67;  0x66; 0x08;
    0x63; 0x70;  0x7F; 0x15;  0x48; 0x48;  0x7F; 0x07;
    0x41; 0x0D;  0x43; 0x14;  0x4B; 0x0E;  0x45; 0x0F;
    0x44; 0x42;  0x4C; 0x80;  0x7F; 0x10;  0x5B; 0x02;
    0x7F; 0x07;  0x40; 0x41;  0x70; 0x00;  WAIT; 0x0A;
    0x32; 0x44;  0x7F; 0x07;  0x40; 0x40;  0x7F; 0x06;
    0x62; 0xF0;  0x63; 0x00;  0x7F; 0x0D;  0x48; 0xC0;
    0x6F; 0xD5;  0x7F; 0x00;  0x5B; 0xA0;  0x4E; 0xA8;
    0x5A; 0x50;  0x40; 0x80;  WAIT; 0xF0;  0x7F; 0x14;
    0x6F; 0x1C;  0x7F; 0x00 ].

Definition PAA5100_sauce_tail : list Z := [
    0x7F; 0x00;  0x61; 0xAD;  0x7F; 0x03;  0x40; 0x00;
    0x7F; 0x05;  0x41; 0xB3;  0x43; 0xF1;  0x45; 0x14;
    0x5F; 0x34;  0x7B; 0x08;  0x5E; 0x34;  0x5B; 0x11;
    0x6D; 0x11;  0x45; 0x17;  0x70; 0xE5;  0x71; 0xE5;
    0x7F; 0x06;  0x44; 0x1B;  0x40; 0xBF;  0x4E; 0x3F;
    0x7F; 0x08;  0x66; 0x44;  0x65; 0x20;  0x6A; 0x3A;
    0x61; 0x05;  0x62; 0x05;  0x7F; 0x09;  0x4F; 0xAF;
    0x5F; 0x40;  0x48; 0x80;  0x49; 0x80;  0x57; 0x77;
    0x60; 0x78;  0x61; 0x78;  0x62; 0x08;  0x63; 0x50;
    0x7F; 0x0A;  0x45; 0x60;  0x7F; 0x00;  0x4D; 0x11;
    0x55; 0x80;  0x74; 0x21;  0x75; 0x1F;  0x4A; 0x78;
    0x4B; 0x78;  0x44; 0x08;  0x45; 0x50;  0x64; 0xFF;
    0x65; 0x1F;  0x7F; 0x14;  0x65; 0x67;  0x66; 0x08;
    0x63; 0x70;  0x6F; 0x1C;  0x7F; 0x15;  0x48; 0x48;
    0x7F; 0x07;  0x41; 0x0D;  0x43; 0x14;  0x4B; 0x0E;
    0x45; 0x0F;  0x44; 0x42;  0x4C; 0x80;  0x7F; 0x10;
    0x5B; 0x02;  0x7F; 0x07;  0x40; 0x41;  WAIT; 0x0A;
    0x7F; 0x00;  0x32; 0x00;  0x7F; 0x07;  0x40; 0x40;
    0x7F; 0x06;  0x68; 0xF0;  0x69; 0x00;  0x7F; 0x0D;
    0x48; 0xC0;  0x6F; 0xD5;  0x7F; 0x00;  0x5B; 0xA0;
    0x4E; 0xA8;  0x5A; 0x90;  0x40; 0x80;  0x73; 0x1F;
    WAIT; 0x0A;  0x73; 0x00 ].

Definition frame_capture_setup : list Z := [
    0x7F; 0x07;  0x4C; 0x00;  0x7F; 0x08;  0x6A; 0x38;
    0x7F; 0x00;  0x55; 0x04;  0x40; 0x80;  0x4D; 0x11;
    WAIT; 0x0A;  0x7F; 0x00;  0x58; 0xFF ].

(** The last table [_secret_sauce] plays, per class. *)
Definition sauce_tail (c : variant) : list Z :=
  match c with
  | PMW3901 => PMW3901_sauce_tail
  | PAA5100 => PAA5100_sauce_tail
  end.

(** ** The monad *)

Section Driver.
Context {Env : Type} `{Platform Env}.

Record world : Type := World { env : Env; log : list event }.

Definition M (A : Type) : Type := world -> outcome A * world.

#[global] Instance M_ret : MRet M := fun A a w => (Ret a, w).

#[global] Instance M_bind : MBind M := fun A B f m w =>
  match m w with
  | (Ret a, w') => f a w'
  | (Raise e, w') => (Raise e, w')
  | (OutOfFuel, w') => (OutOfFuel, w')
  end.

Definition raise {A : Type} (e : exn) : M A := fun w => (Raise e, w).

Definition out_of_fuel {A : Type} : M A := fun w => (OutOfFuel, w).

Definition emit (ev : event) : M unit :=
  fun w => (Ret tt, World (env w) (log w ++ [ev])).

(** [self.spi_dev.xfer2(tx)] *)
Definition xfer2 (tx : list Z) : M (list Z) := fun w =>
  let r := bus_xfer2 (env w) tx in
  (Ret r.1, World r.2 (log w ++ [Xfer2 tx r.1])).

(** [time.time()] *)
Definition time_time : M Q := fun w =>
  let r := clock_time (env w) in
  (Ret r.1, World r.2 (log w ++ [TimeRead r.1])).

(** [time.sleep(s)]; Python refuses a negative duration. *)
Definition time_sleep (s : Q) : M unit := fun w =>
  if Qltb s 0 then (Raise (ValueError "sleep length must be non-negative"), w)
  else (Ret tt, World (clock_sleep (env w) s) (log w ++ [Sleep s])).

(** [value[i]] on a list *)
Definition getitem (l : list Z) (i : nat) : M Z :=
  match l !! i with
  | Some v => mret v
  | None => raise (IndexError "list index out of range")
  end.

(** Using the result of [_read] where an [int] is needed. *)
Definition as_int (v : pyval) : M Z :=
  match v with
  | PyInt n => mret n
  | PyList _ => raise (TypeError "unsupported operand type(s): 'list' and 'int'")
  end.

(** [a, b = v] *)
Definition unpack2 (l : list Z) : M (Z * Z) :=
  match l with
  | [a; b] => mret (a, b)
  | [] => raise (ValueError "not enough values to unpack (expected 2, got 0)")
  | [_] => raise (ValueError "not enough values to unpack (expected 2, got 1)")
  | _ => raise (ValueError "too many values to unpack (expected 2)")
  end.

(** ** Transport layer *)

(** [set_pin]: [lines.set_value(offset, Value.ACTIVE if state else Value.INACTIVE)] *)
Definition set_pin (pin : Z) (state : Z) : M unit := fun w =>
  let v := if state =? 0 then INACTIVE else ACTIVE in
  (Ret tt, World (line_set_value (env w) pin v) (log w ++ [SetValue pin v])).

(** The idiom [if self._spi_cs_gpio: self.set_pin(self._spi_cs_gpio, state)]. *)
Definition cs_pin (self : sensor) (state : Z) : M unit :=
  match _spi_cs_gpio self with
  | Some pin => set_pin pin state
  | None => mret tt
  end.

Definition _write (self : sensor) (register value : Z) : M unit :=
  cs_pin self 0 ;;
  xfer2 [Z.lor register 0x80; value] ;;
  cs_pin self 1.

(** The [for x in range(length)] loop of [_read], [result] being the
    list built so far. *)
Fixpoint _read_loop (self : sensor) (register : Z) (xs : list Z)
    (result : list Z) : M (list Z) :=
  match xs with
  | [] => mret result
  | x :: xs' =>
      cs_pin self 0 ;;
      value ← xfer2 [register + x; 0];
      cs_pin self 1 ;;
      v ← getitem value 1;
      _read_loop self register xs' (result ++ [v])
  end.

Definition _read (self : sensor) (register : Z) (length : Z) : M pyval :=
  result ← _read_loop self register (range length) [];
  if length =? 1 then v ← getitem result 0; mret (PyInt v)
  else mret (PyList result).

(** The [for x in range(0, len(data), 2)] loop of [_bulk_write]. *)
Fixpoint _bulk_write_loop (self : sensor) (data : list Z) (xs : list nat)
    : M unit :=
  match xs with
  | [] => mret tt
  | x :: xs' =>
      '(register, value) ← unpack2 (take 2 (drop x data));
      (if register =? WAIT then time_sleep (inject_Z value / 1000)
       else _write self register value) ;;
      _bulk_write_loop self data xs'
  end.

Definition _bulk_write (self : sensor) (data : list Z) : M unit :=
  _bulk_write_loop self data (range_by2 (length data)).

(** ** Calibration *)

(** Lines 223-239 and 420-436: the branch on register [0x73], the same
    text in both classes. *)
Definition sauce_calibrate (self : sensor) : M unit :=
  status ← _read self 0x73 1 ≫= as_int;
  if status =? 0x00 then
    c1 ← _read self 0x70 1 ≫= as_int;
    c2 ← _read self 0x71 1 ≫= as_int;
    let c1 := calibrate_c1 c1 in
    let c2 := calibrate_c2 c2 in
    _bulk_write self sauce_calibration ;;
    _write self 0x70 c1 ;;
    _write self 0x71 c2
  else mret tt.

(** Lines 203-222 and 401-419, again the same text in both classes. *)
Definition sauce_begin (self : sensor) : M unit :=
  _bulk_write self sauce_prologue ;;
  diag ← _read self 0x67 1 ≫= as_int;
  (if negb (Z.land diag 0x80 =? 0) then _write self 0x48 0x04
   else _write self 0x48 0x02) ;;
  _bulk_write self sauce_middle.

Definition PMW3901_secret_sauce (self : sensor) : M unit :=
  sauce_begin self ;;
  sauce_calibrate self ;;
  _bulk_write self PMW3901_sauce_tail.

Definition PAA5100_secret_sauce (self : sensor) : M unit :=
  sauce_begin self ;;
  sauce_calibrate self ;;
  _bulk_write self PAA5100_sauce_tail.

(** Method dispatch on the class of [self]. *)
Definition _secret_sauce (self : sensor) : M unit :=
  match cls self with
  | PMW3901 => PMW3901_secret_sauce self
  | PAA5100 => PAA5100_secret_sauce self
  end.

Definition get_id (self : sensor) : M pyval := _read self REG_ID 2.

(** [product_id, revision = self.get_id()] *)
Definition unpack_pair (v : pyval) : M (Z * Z) :=
  match v with
  | PyInt _ => raise (TypeError "cannot unpack non-iterable int object")
  | PyList l => unpack2 l
  end.

Fixpoint for_each {A : Type} (l : list A) (body : A -> M unit) : M unit :=
  match l with
  | [] => mret tt
  | a :: l' => body a ;; for_each l' body
  end.

(** Lines 33-60 of [__init__]: acquire the transport, reset the chip,
    flush five registers and run the calibration; [self] is what the
    rest of the constructor, and every later method, works on. *)
Definition bring_up (c : variant) (spi_port spi_cs : Z)
    (spi_cs_gpio : option Z) : M sensor :=
  '(spi_cs, pin) ←
    match spi_cs_gpio with
    | Some gpio =>
        emit (GetPin gpio (_device_name c +:+ "_cs")) ;; mret (0, Some gpio)
    | None => mret (spi_cs, None)
    end;
  let self := Sensor c pin in
  emit (SpiOpen spi_port spi_cs) ;;
  emit (SpiMaxSpeedHz 400000) ;;
  (if spi_cs_gpio is Some _ then emit SpiNoCs else mret tt) ;;
  match _spi_cs_gpio self with
  | Some p => set_pin p 0 ;; time_sleep (5 # 100) ;; set_pin p 1
  | None => mret tt
  end ;;
  _write self REG_POWER_UP_RESET 0x5A ;;
  time_sleep (2 # 100) ;;
  for_each (range 5) (fun offset => _read self (REG_DATA_READY + offset) 1 ;; mret tt) ;;
  _secret_sauce self ;;
  mret self.

(** [__init__]: lines 33-60, then the identity check of lines 62-64. *)
Definition __init__ (c : variant) (spi_port spi_cs : Z)
    (spi_cs_gpio : option Z) : M sensor :=
  self ← bring_up c spi_port spi_cs spi_cs_gpio;
  '(product_id, revision) ← get_id self ≫= unpack_pair;
  if negb (product_id =? 0x49) || negb ((revision =? 0x00) || (revision =? 0x01)) then
    raise (RuntimeError ("Invalid Product ID or Revision for PMW3901: 0x"
                         +:+ format_02x product_id +:+ "/0x"
                         +:+ format_02x revision))
  else mret self.

(** ** Orientation *)

Definition set_orientation (self : sensor) (invert_x invert_y swap_xy : bool)
    : M unit :=
  let value := 0 in
  let value := if swap_xy then Z.lor value 0x80 else value in
  let value := if invert_y then Z.lor value 0x40 else value in
  let value := if invert_x then Z.lor value 0x20 else value in
  _write self REG_ORIENTATION value.

Definition set_rotation (self : sensor) (degrees : Z) : M unit :=
  if degrees =? 0 then set_orientation self true true true
  else if degrees =? 90 then set_orientation self false true false
  else if degrees =? 180 then set_orientation self false false true
  else if degrees =? 270 then set_orientation self true false false
  else raise (TypeError "Degrees must be one of 0, 90, 180 or 270").

(** ** Motion reads *)

(** [bytearray(data)] on a list of ints *)
Definition bytearray (l : list Z) : M (list Z) :=
  if forallb is_byte l then mret l
  else raise (ValueError "byte must be in range(0, 256)").

(** [bytearray(data)] on what [_read] returned: an int asks for that
    many zero bytes. *)
Definition bytearray_of (v : pyval) : M (list Z) :=
  match v with
  | PyList l => bytearray l
  | PyInt n =>
      if n <? 0 then raise (ValueError "negative count")
      else mret (replicate (Z.to_nat n) 0)
  end.

(** [struct.unpack("<BBBhhBBBBBB", buf)] *)
Definition unpack_burst (buf : list Z) : M burst :=
  match buf with
  | [b0; b1; b2; b3; b4; b5; b6; b7; b8; b9; b10; b11; b12] =>
      mret (Burst b0 b1 b2 (int16_le b3 b4) (int16_le b5 b6)
                  b7 b8 b9 b10 b11 b12)
  | _ => raise (StructError "unpack requires a buffer of 13 bytes")
  end.

(** [struct.unpack("<Bhh", buf)] *)
Definition unpack_slow (buf : list Z) : M (Z * Z * Z) :=
  match buf with
  | [b0; b1; b2; b3; b4] => mret (b0, int16_le b1 b2, int16_le b3 b4)
  | _ => raise (StructError "unpack requires a buffer of 5 bytes")
  end.

(** Lines 126-130: the bracketed burst transaction of [get_motion]. *)
Definition burst_transfer (self : sensor) : M (list Z) :=
  cs_pin self 0 ;;
  data ← xfer2 (REG_MOTION_BURST :: replicate 12 0);
  cs_pin self 1 ;;
  mret data.

(** The [while time.time() - t_start < timeout] loop of [get_motion]. *)
Fixpoint get_motion_loop (fuel : nat) (self : sensor) (t_start timeout : Q)
    : M (Z * Z) :=
  match fuel with
  | O => out_of_fuel
  | S fuel' =>
      now ← time_time;
      if Qltb (now - t_start) timeout then
        data ← burst_transfer self;
        b ← bytearray data ≫= unpack_burst;
        if negb (Z.land (burst_dr b) 0x80 =? 0)
           && negb ((burst_quality b <? 0x19) && (burst_shutter_upper b =? 0x1F))
        then mret (burst_x b, burst_y b)
        else time_sleep (1 # 1000) ;;
             get_motion_loop fuel' self t_start timeout
      else raise (RuntimeError "Timed out waiting for motion data.")
  end.

Definition get_motion (fuel : nat) (self : sensor) (timeout : Q) : M (Z * Z) :=
  t_start ← time_time;
  get_motion_loop fuel self t_start timeout.

Fixpoint get_motion_slow_loop (fuel : nat) (self : sensor) (t_start timeout : Q)
    : M (Z * Z) :=
  match fuel with
  | O => out_of_fuel
  | S fuel' =>
      now ← time_time;
      if Qltb (now - t_start) timeout then
        data ← _read self REG_DATA_READY 5;
        '(dr, x, y) ← bytearray_of data ≫= unpack_slow;
        if negb (Z.land dr 0x80 =? 0) then mret (x, y)
        else time_sleep (1 # 1000) ;;
             get_motion_slow_loop fuel' self t_start timeout
      else raise (RuntimeError "Timed out waiting for motion data.")
  end.

Definition get_motion_slow (fuel : nat) (self : sensor) (timeout : Q)
    : M (Z * Z) :=
  t_start ← time_time;
  get_motion_slow_loop fuel self t_start timeout.

(** ** Frame capture *)

(** [raw_data[x] = f(raw_data[x])], the shape of [&=] and [|=] on a
    list element. *)
Definition update_item (raw_data : list Z) (x : nat) (f : Z -> Z) : M (list Z) :=
  r ← getitem raw_data x;
  mret (<[x := f r]> raw_data).

(** Lines 373-379: what one byte read from the grab register does to
    [raw_data] and to the pixel index [x]. *)
Definition grab_fragment (data : Z) (raw_data : list Z) (x : nat)
    : M (list Z * nat) :=
  raw_data ←
    (if Z.land data 0xC0 =? 0x40 then
       raw_data ← update_item raw_data x (fun r => Z.land r (Z.lnot 0xFC));
       update_item raw_data x (fun r => Z.lor r (Z.shiftl (Z.land data 0x3F) 2))
     else mret raw_data);
  if Z.land data 0xC0 =? 0x80 then
    raw_data ← update_item raw_data x (fun r => Z.land r (Z.lnot 0x03));
    raw_data ← update_item raw_data x
                 (fun r => Z.lor r (Z.shiftr (Z.land data 0x0C) 2));
    mret (raw_data, S x)
  else mret (raw_data, x).

(** The first [while True] of [frame_capture]: wait for the grab status. *)
Fixpoint grab_status_loop (fuel : nat) (self : sensor) (t_start timeout : Q)
    : M unit :=
  match fuel with
  | O => out_of_fuel
  | S fuel' =>
      status ← _read self REG_RAWDATA_GRAB_STATUS 1 ≫= as_int;
      if negb (Z.land status 0xC0 =? 0) then mret tt
      else
        now ← time_time;
        if Qltb timeout (now - t_start) then
          raise (RuntimeError "Frame capture init timed out")
        else grab_status_loop fuel' self t_start timeout
  end.

(** The second [while True]: assemble the pixels. *)
Fixpoint grab_loop (fuel : nat) (self : sensor) (t_start timeout : Q)
    (raw_data : list Z) (x : nat) : M (list Z) :=
  match fuel with
  | O => out_of_fuel
  | S fuel' =>
      data ← _read self REG_RAWDATA_GRAB 1 ≫= as_int;
      '(raw_data, x) ← grab_fragment data raw_data x;
      if (x =? RAW_DATA_LEN)%nat then mret raw_data
      else
        now ← time_time;
        if Qltb timeout (now - t_start) then
          raise (RuntimeError ("Raw data capture timeout, got "
                               +:+ pretty x +:+ " values"))
        else grab_loop fuel' self t_start timeout raw_data x
  end.

(** Lines 337-363 of [frame_capture]: configure the chip for raw data,
    wait for the grab status and start the stream. *)
Definition frame_capture_init (fuel : nat) (self : sensor) (timeout : Q)
    : M unit :=
  _bulk_write self frame_capture_setup ;;
  t_start ← time_time;
  grab_status_loop fuel self t_start timeout ;;
  _write self REG_RAWDATA_GRAB 0x00.

(** Lines 365-383 of [frame_capture]: read the stream. *)
Definition frame_capture_stream (fuel : nat) (self : sensor) (timeout : Q)
    : M (list Z) :=
  t_start ← time_time;
  grab_loop fuel self t_start timeout (replicate RAW_DATA_LEN 0) 0%nat.

Definition frame_capture (fuel : nat) (self : sensor) (timeout : Q)
    : M (list Z) :=
  frame_capture_init fuel self timeout ;;
  frame_capture_stream fuel self timeout.

End Driver.

(** ** Reading the log *)

(** What reached the outside: a frame clocked out on the bus, or a pause.
    Chip-select toggles, clock reads and received bytes are left out. *)
Inductive action : Type :=
| Transmit (tx : list Z)
| Pause (seconds : Q).

Definition action_of (ev : event) : option action :=
  match ev with
  | Xfer2 tx _ => Some (Transmit tx)
  | Sleep s => Some (Pause s)
  | _ => None
  end.

Definition actions (evs : list event) : list action := omap action_of evs.

(** The bus transactions of a log, each with what came back. *)
Definition xfer_of (ev : event) : option (list Z * list Z) :=
  match ev with
  | Xfer2 tx rx => Some (tx, rx)
  | _ => None
  end.

Definition xfers (evs : list event) : list (list Z * list Z) := omap xfer_of evs.

Definition is_transmit (a : action) : bool :=
  match a with
  | Transmit _ => true
  | Pause _ => false
  end.

(** The times the clock was read at. *)
Definition clock_read_of (ev : event) : option Q :=
  match ev with
  | TimeRead t => Some t
  | _ => None
  end.

Definition clock_reads (evs : list event) : list Q := omap clock_read_of evs.

(** The chip-select toggle around a transaction, when a GPIO line is used. *)
Definition cs_events (self : sensor) (state : Z) : list event :=
  match _spi_cs_gpio self with
  | Some pin => [SetValue pin (if state =? 0 then INACTIVE else ACTIVE)]
  | None => []
  end.

(** One bracketed bus transaction. *)
Definition transaction (self : sensor) (tx rx : list Z) : list event :=
  cs_events self 0 ++ [Xfer2 tx rx] ++ cs_events self 1.

(** The transactions of a multi-register read: one per offset in [xs],
    each answered by a first byte and the byte that is kept. *)
Definition read_events (self : sensor) (register : Z) (xs : list Z)
    (rs : list (Z * Z)) : list event :=
  mjoin (zip_with (fun x r => transaction self [register + x; 0] [r.1; r.2]) xs rs).

(** The events of one step of the list played by [_bulk_write]. *)
Definition step_action (p : Z * Z) : action :=
  if p.1 =? WAIT then Pause (inject_Z p.2 / 1000) else Transmit [Z.lor p.1 0x80; p.2].

(** A flat list made of (register, value) pairs. *)
Definition flatten_pairs (ps : list (Z * Z)) : list Z :=
  ps ≫= (fun p => [p.1; p.2]).

(** The pairs of a flat list, a trailing odd element being dropped. *)
Fixpoint pairs_of (data : list Z) : list (Z * Z) :=
  match data with
  | r :: v :: rest => (r, v) :: pairs_of rest
  | _ => []
  end.

(** A table the player runs to its end: made of pairs, no negative wait. *)
Definition table_ok (data : list Z) : bool :=
  bool_decide (flatten_pairs (pairs_of data) = data)
  && forallb (fun p => negb (p.1 =? WAIT) || (0 <=? p.2)) (pairs_of data).

(** The frame of a burst read: the command and twelve zero bytes. *)
Definition burst_tx : list Z := REG_MOTION_BURST :: replicate 12 0.

(** One clock read followed by one burst transaction. *)
Definition burst_round (self : sensor) (now : Q) (rx : list Z) : list event :=
  TimeRead now :: transaction self burst_tx rx.

(** One clock read followed by the five transactions of a slow read, when
    [rs] holds the five answers; [polling_shape] is used with samples of
    exactly that length. *)
Definition slow_round (self : sensor) (now : Q) (rs : list (Z * Z)) : list event :=
  TimeRead now :: read_events self REG_DATA_READY (range 5) rs.

(** The events of the rounds of a polling read whose sample was
    rejected: each round is followed by the 1 ms sleep. *)
Definition rejected_rounds {S : Type} (round_events : Q -> S -> list event)
    (rounds : list (Q * S)) : list event :=
  rounds ≫= (fun r => round_events r.1 r.2 ++ [Sleep (1 # 1000)]).

(** The shape of a run of a polling read from the clock read that follows
    the read of [t_start] on: a number of rounds, each before the deadline,
    each with a whole sample ([well_formed]: all the bytes of the read, no
    more and no fewer) and each rejected, and then
    - a round before the deadline whose whole sample is accepted, the
      deltas of that sample being returned; or
    - a clock read at or past the deadline, and the timeout error; or
    - nothing more, the fuel being spent. *)
Definition polling_shape {S : Type} (round_events : Q -> S -> list event)
    (well_formed : S -> Prop) (accepts : S -> bool) (deltas : S -> Z * Z)
    (fuel : nat) (t_start timeout : Q) (out : outcome (Z * Z))
    (evs : list event) : Prop :=
  exists rounds : list (Q * S),
    Forall (fun r => well_formed r.2
                     /\ Qltb (r.1 - t_start) timeout = true
                     /\ accepts r.2 = false)
           rounds
    /\ match out with
       | Ret xy =>
           exists now s,
             well_formed s
             /\ Qltb (now - t_start) timeout = true
             /\ accepts s = true
             /\ xy = deltas s
             /\ evs = rejected_rounds round_events rounds ++ round_events now s
       | Raise e =>
           e = RuntimeError "Timed out waiting for motion data."
           /\ exists now,
                Qltb (now - t_start) timeout = false
                /\ evs = rejected_rounds round_events rounds ++ [TimeRead now]
       | OutOfFuel =>
           length rounds = fuel
           /\ evs = rejected_rounds round_events rounds
       end.

(** ** The statements of the specification, in its own words *)

(** "if c1 <= 28, c1 += 14; then (on the possibly-updated value) if
    c1 > 28, c1 += 11; clamp c1 to [0, 0x3F]" *)
Definition spec_adjust_c1 (c1 : Z) : Z :=
  let a := if decide (c1 <= 28) then c1 + 14 else c1 in
  let b := if decide (a > 28) then a + 11 else a in
  if decide (b < 0) then 0 else if decide (0x3F < b) then 0x3F else b.

(** "c2 = (c2 x 45) integer-divided by 100" *)
Definition spec_adjust_c2 (c2 : Z) : Z := (c2 * 45) ÷ 100.

(** "A BurstSample is valid only if dataReady is set AND
    NOT(quality < 0x19 AND shutterUpper == 0x1F)." *)
Definition spec_sample_valid (dataReady : bool) (quality shutterUpper : Z) : bool :=
  dataReady && negb (bool_decide (quality < 0x19) && bool_decide (shutterUpper = 0x1F)).

(** Two's complement reading of a 16-bit little-endian field. *)
Definition spec_int16 (lo hi : Z) : Z :=
  let u := lo + 256 * hi in
  if decide (u < 32768) then u else u - 65536.

(** The verdict of the burst filter on the thirteen bytes received, the
    fields taken where [struct.unpack] finds them. *)
Definition burst_accepts (rx : list Z) : bool :=
  match rx with
  | [_; dr; _; _; _; _; _; quality; _; _; _; shutter_upper; _] =>
      spec_sample_valid (Z.testbit dr 7) quality shutter_upper
  | _ => false
  end.

Definition burst_deltas (rx : list Z) : Z * Z :=
  match rx with
  | [_; _; _; xl; xh; yl; yh; _; _; _; _; _; _] =>
      (spec_int16 xl xh, spec_int16 yl yh)
  | _ => (0, 0)
  end.

(** The slow read keeps the five bytes read from the data-ready register
    on: "return deltas if the top bit of dataReadyByte is set". *)
Definition slow_accepts (bs : list Z) : bool :=
  match bs with
  | [dr; _; _; _; _] => Z.testbit dr 7
  | _ => false
  end.

Definition slow_deltas (bs : list Z) : Z * Z :=
  match bs with
  | [_; xl; xh; yl; yh] => (spec_int16 xl xh, spec_int16 yl yh)
  | _ => (0, 0)
  end.

(** The fragment patterns of the frame stream: top two bits [01] and [10]. *)
Definition is_upper_fragment (data : Z) : bool :=
  negb (Z.testbit data 7) && Z.testbit data 6.

Definition is_lower_fragment (data : Z) : bool :=
  Z.testbit data 7 && negb (Z.testbit data 6).

(** What a byte of the stream does to the value [r] of the pixel being
    assembled: an upper fragment replaces bits 7:2 by its bits 5:0, a lower
    fragment replaces bits 1:0 by its bits 3:2, anything else is ignored. *)
Definition pixel_after (data r : Z) : Z :=
  if is_upper_fragment data then
    Z.lor (Z.land r (Z.lnot 0xFC)) (Z.shiftl (Z.land data 0x3F) 2)
  else if is_lower_fragment data then
    Z.lor (Z.land r (Z.lnot 0x03)) (Z.shiftr (Z.land data 0x0C) 2)
  else r.

(** What a byte of the stream does to the frame and to the pixel index:
    "the pixel index advances only on receipt of a lower fragment". *)
Definition frame_step (st : list Z * nat) (data : Z) : list Z * nat :=
  (match st.1 !! st.2 with
   | Some r => <[st.2 := pixel_after data r]> st.1
   | None => st.1
   end,
   if is_lower_fragment data then S st.2 else st.2).

(** One turn of the streaming loop that goes on: a read of the grab
    register, answered by [t.1.1] and the byte [t.1.2], and a clock read. *)
Definition grab_turn (self : sensor) (t : Z * Z * Q) : list event :=
  transaction self [REG_RAWDATA_GRAB; 0] [t.1.1; t.1.2] ++ [TimeRead t.2].

(** The shape of a run of the streaming loop entered with the frame [raw0]
    and the index [x0]: a number of turns that go on, none of them past the
    deadline and the index staying below 1225, and then
    - a byte that takes the index to 1225: the frame is returned; or
    - a byte that leaves it below, followed by a clock read past the
      deadline: the error reports the index; or
    - nothing more, the fuel being spent. *)
Definition stream_shape (self : sensor) (fuel : nat) (t_start timeout : Q)
    (raw0 : list Z) (x0 : nat) (out : outcome (list Z)) (evs : list event)
    : Prop :=
  exists turns : list (Z * Z * Q),
    let st := fold_left frame_step ((fun t => t.1.2) <$> turns) (raw0, x0) in
    Forall (fun t => Qltb timeout (t.2 - t_start) = false /\ 0 <= t.1.2 < 256)
           turns
    /\ (st.2 < RAW_DATA_LEN)%nat
    /\ match out with
       | Ret frame =>
           exists r0 data,
             0 <= data < 256
             /\ frame_step st data = (frame, RAW_DATA_LEN)
             /\ evs = (turns ≫= grab_turn self)
                      ++ transaction self [REG_RAWDATA_GRAB; 0] [r0; data]
       | Raise e =>
           exists r0 data now,
             0 <= data < 256
             /\ ((frame_step st data).2 < RAW_DATA_LEN)%nat
             /\ Qltb timeout (now - t_start) = true
             /\ e = RuntimeError ("Raw data capture timeout, got "
                                  +:+ pretty (frame_step st data).2
                                  +:+ " values")
             /\ evs = (turns ≫= grab_turn self) ++ grab_turn self (r0, data, now)
       | OutOfFuel =>
           length turns = fuel /\ evs = turns ≫= grab_turn self
       end.

(** "productId == 0x49 and revisionId in {0x00, 0x01}" *)
Definition spec_identity_ok (productId revisionId : Z) : bool :=
  bool_decide (productId = 0x49 ∧ (revisionId = 0x00 ∨ revisionId = 0x01)).

(** ** A simulated chip *)

(** Modelled from the spec: the simulated transport of the testable
    properties, which "stores on write and echoes on read".  It is not
    part of the driver: a register file addressed by the low seven bits of
    the first byte of a frame, written when bit 7 of that byte is set and
    read back otherwise; a queue of bytes served by the raw-data grab
    register before the register file is; and a clock that advances by
    [sim_tick] on every transaction and by the duration of every sleep. *)
(** The time one bus transaction takes on the simulated chip: 50
    microseconds. *)
Definition sim_tick : Q := 1 # 20000.

Record sim : Type := Sim {
  sim_regs : gmap Z Z;
  sim_fifo : list Z;
  sim_clock : Q
}.

Definition sim_reg (s : sim) (a : Z) : Z := default 0 (sim_regs s !! a) `mod` 256.

Definition sim_advance (s : sim) (d : Q) : sim :=
  Sim (sim_regs s) (sim_fifo s) (Qred (sim_clock s + d)).

Definition sim_xfer2 (s : sim) (tx : list Z) : list Z * sim :=
  let s' := sim_advance s sim_tick in
  match tx with
  | [] => ([], s')
  | a :: payload =>
      if negb (Z.land a 0x80 =? 0) then
        (replicate (length tx) 0,
         match payload with
         | v :: _ => Sim (<[Z.land a 0x7F := v]> (sim_regs s')) (sim_fifo s')
                         (sim_clock s')
         | [] => s'
         end)
      else
        match decide (a = REG_RAWDATA_GRAB), sim_fifo s with
        | left _, b :: fifo =>
            (0 :: ((fun _ => b `mod` 256) <$> payload),
             Sim (sim_regs s') fifo (sim_clock s'))
        | _, _ =>
            (0 :: ((fun i => sim_reg s (a + Z.of_nat i)) <$> seq 0 (length payload)), s')
        end
  end.

Definition sim_set_value (s : sim) (pin : Z) (v : line_value) : sim := s.

Definition sim_time (s : sim) : Q * sim := (sim_clock s, s).

Definition sim_sleep (s : sim) (d : Q) : sim := sim_advance s d.

(** A chip whose registers hold [regs], with [fifo] queued on the grab
    register, at time 0. *)
Definition sim_chip (regs : list (Z * Z)) (fifo : list Z) : sim :=
  Sim (list_to_map regs) fifo 0.

(** ** The chip's side of a frame capture *)

(** The two bytes by which a chip sends the pixel [p], as the comments of
    lines 375 and 378 of the driver describe them: bits 7:2 of the pixel
    held in bits 5:0 of a byte tagged 01, then bits 1:0 of the pixel held
    in bits 3:2 of a byte tagged 10. *)
Definition encode_pixel (p : Z) : list Z :=
  [Z.lor 0x40 (Z.shiftr p 2); Z.lor 0x80 (Z.shiftl (Z.land p 0x03) 2)].

Definition encode_frame (img : list Z) : list Z := img ≫= encode_pixel.

(** ** The shape of the wait for the grab status *)

(** One turn of the first loop of [frame_capture] that goes on: a read of
    the grab status register, answered by [t.1.1] and the byte [t.1.2], and
    a clock read. *)
Definition status_turn (self : sensor) (t : Z * Z * Q) : list event :=
  transaction self [REG_RAWDATA_GRAB_STATUS; 0] [t.1.1; t.1.2] ++ [TimeRead t.2].

(** The shape of a run of that loop: a number of turns that go on, each
    with a status whose bits 7 and 6 are clear and a clock read that is not
    past the deadline, and then
    - a status with bit 7 or bit 6 set: the loop is left; or
    - a status with both clear, followed by a clock read past the
      deadline: the error; or
    - nothing more, the fuel being spent. *)
Definition status_shape (self : sensor) (fuel : nat) (t_start timeout : Q)
    (out : outcome unit) (evs : list event) : Prop :=
  exists turns : list (Z * Z * Q),
    Forall (fun t => Z.land t.1.2 0xC0 = 0 /\ Qltb timeout (t.2 - t_start) = false)
           turns
    /\ match out with
       | Ret _ =>
           exists r0 status,
             0 <= status < 256
             /\ Z.land status 0xC0 <> 0
             /\ evs = (turns ≫= status_turn self)
                      ++ transaction self [REG_RAWDATA_GRAB_STATUS; 0] [r0; status]
       | Raise e =>
           exists r0 status now,
             Z.land status 0xC0 = 0
             /\ Qltb timeout (now - t_start) = true
             /\ e = RuntimeError "Frame capture init timed out"
             /\ evs = (turns ≫= status_turn self) ++ status_turn self (r0, status, now)
       | OutOfFuel =>
           length turns = fuel /\ evs = turns ≫= status_turn self
       end.

(** A step of the sequence player that runs through and keeps clear of
    register [k]: a wait that is not negative, or a write to another
    register. *)
Definition step_keeps (k : Z) (p : Z * Z) : bool :=
  ((p.1 =? WAIT) && (0 <=? p.2))
  || ((0 <=? p.1) && (p.1 <=? 0x7F) && negb (p.1 =? k)).

(** ** The chip's side of a motion read *)

(** The two bytes of a signed 16-bit value, low byte first, two's
    complement: what [struct.unpack] reads back as an [h] field under [<]. *)
Definition int16_bytes (v : Z) : list Z := [v `mod` 256; (v / 256) `mod` 256].

(** ** The chip-select discipline *)



(** * Proofs *)

(** ** The simulated chip is a platform *)

Lemma sim_xfer2_length s tx : length (sim_xfer2 s tx).1 = length tx.
Proof.
  unfold sim_xfer2. destruct tx as [|a payload]; [done|].
  destruct (negb _); simpl.
  - by rewrite length_replicate.
  - destruct (decide _), (sim_fifo s); simpl;
      by rewrite ?length_fmap, ?length_seq.
Qed.

Lemma sim_xfer2_bytes s tx : Forall (fun b => 0 <= b < 256) (sim_xfer2 s tx).1.
Proof.
  unfold sim_xfer2. destruct tx as [|a payload]; [by constructor|].
  destruct (negb _); simpl.
  - constructor; [lia|]. apply Forall_forall. intros b Hb.
    apply elem_of_replicate in Hb as [-> _]. lia.
  - assert (Hmod : forall z, 0 <= z `mod` 256 < 256)
      by (intros z; apply Z.mod_pos_bound; lia).
    destruct (decide _), (sim_fifo s); simpl; constructor; try lia;
      apply Forall_fmap, Forall_forall; intros; simpl; apply Hmod.
Qed.

#[global] Instance sim_platform : Platform sim := {|
  bus_xfer2 := sim_xfer2;
  line_set_value := sim_set_value;
  clock_time := sim_time;
  clock_sleep := sim_sleep;
  bus_xfer2_length := sim_xfer2_length;
  bus_xfer2_bytes := sim_xfer2_bytes
|}.

(** What the calibration branch clocks out on a chip whose status
    register 0x73 reads zero and whose registers 0x70 and 0x71 read [c1] and
    [c2]: the frames that follow the three reads. *)
Definition calibration_written (c : variant) (c1 c2 : Z) : list action :=
  drop 3 (actions (log (sauce_calibrate (Sensor c None)
                          (World (sim_chip [(0x73, 0x00); (0x70, c1); (0x71, c2)] [])
                                 [])).2)).

(** ** Running the monad *)

Section DriverFacts.
Context {Env : Type} `{Platform Env}.

Local Abbreviation M := (M (Env := Env)).
Local Abbreviation world := (world (Env := Env)).

Lemma bind_ret {A B : Type} (m : M A) (f : A -> M B) w a w' :
  m w = (Ret a, w') -> (m ≫= f) w = f a w'.
Proof. intros Hm. unfold mbind, M_bind. by rewrite Hm. Qed.

Lemma bind_raise {A B : Type} (m : M A) (f : A -> M B) w e w' :
  m w = (Raise e, w') -> (m ≫= f) w = (Raise e, w').
Proof. intros Hm. unfold mbind, M_bind. by rewrite Hm. Qed.

Lemma bind_out_of_fuel {A B : Type} (m : M A) (f : A -> M B) w w' :
  m w = (OutOfFuel, w') -> (m ≫= f) w = (OutOfFuel, w').
Proof. intros Hm. unfold mbind, M_bind. by rewrite Hm. Qed.

Lemma bind_assoc {A B C : Type} (m : M A) (f : A -> M B) (g : B -> M C) w :
  ((m ≫= f) ≫= g) w = (m ≫= (fun a => f a ≫= g)) w.
Proof. unfold mbind, M_bind. by destruct (m w) as [[a|e|] w']. Qed.

Lemma actions_app evs1 evs2 : actions (evs1 ++ evs2) = actions evs1 ++ actions evs2.
Proof. apply omap_app. Qed.

Lemma xfers_app evs1 evs2 : xfers (evs1 ++ evs2) = xfers evs1 ++ xfers evs2.
Proof. apply omap_app. Qed.

Lemma actions_cs_events self state : actions (cs_events self state) = [].
Proof. unfold cs_events. by destruct (_spi_cs_gpio self). Qed.

Lemma xfers_cs_events self state : xfers (cs_events self state) = [].
Proof. unfold cs_events. by destruct (_spi_cs_gpio self). Qed.

Lemma actions_transaction self tx rx :
  actions (transaction self tx rx) = [Transmit tx].
Proof.
  unfold transaction. by rewrite !actions_app, !actions_cs_events.
Qed.

Lemma xfers_transaction self tx rx :
  xfers (transaction self tx rx) = [(tx, rx)].
Proof.
  unfold transaction. by rewrite !xfers_app, !xfers_cs_events.
Qed.

(** *** Transport layer *)

Lemma cs_pin_run self state w :
  exists w', cs_pin self state w = (Ret tt, w')
             /\ log w' = log w ++ cs_events self state.
Proof.
  unfold cs_pin, cs_events. destruct (_spi_cs_gpio self) as [pin|].
  - eexists. split; [reflexivity|]. done.
  - exists w. split; [done|]. by rewrite app_nil_r.
Qed.

Lemma xfer2_run tx w :
  exists rx w', xfer2 tx w = (Ret rx, w')
                /\ log w' = log w ++ [Xfer2 tx rx]
                /\ length rx = length tx
                /\ Forall (fun b => 0 <= b < 256) rx.
Proof.
  unfold xfer2. eexists _, _. split; [reflexivity|]. simpl.
  split; [done|]. split; [apply bus_xfer2_length|apply bus_xfer2_bytes].
Qed.

(** One bracketed transaction: chip select low, transfer, chip select high. *)
Lemma bracketed_run {B : Type} self tx (k : list Z -> M B) w :
  exists rx w',
    (cs_pin self 0 ;; value ← xfer2 tx; cs_pin self 1 ;; k value) w = k rx w'
    /\ log w' = log w ++ transaction self tx rx
    /\ length rx = length tx
    /\ Forall (fun b => 0 <= b < 256) rx.
Proof.
  destruct (cs_pin_run self 0 w) as (w1 & Hcs0 & Hlog1).
  destruct (xfer2_run tx w1) as (rx & w2 & Hx & Hlog2 & Hlen & Hbytes).
  destruct (cs_pin_run self 1 w2) as (w3 & Hcs1 & Hlog3).
  exists rx, w3. split; [|split; [|done]].
  - rewrite (bind_ret _ _ _ _ _ Hcs0), (bind_ret _ _ _ _ _ Hx).
    by rewrite (bind_ret _ _ _ _ _ Hcs1).
  - unfold transaction. by rewrite Hlog3, Hlog2, Hlog1, <- !app_assoc.
Qed.

Lemma _write_run self register value w :
  exists rx w',
    _write self register value w = (Ret tt, w')
    /\ log w' = log w ++ transaction self [Z.lor register 0x80; value] rx.
Proof.
  destruct (cs_pin_run self 0 w) as (w1 & Hcs0 & Hlog1).
  destruct (xfer2_run [Z.lor register 0x80; value] w1)
    as (rx & w2 & Hx & Hlog2 & _).
  destruct (cs_pin_run self 1 w2) as (w3 & Hcs1 & Hlog3).
  exists rx, w3. split.
  - unfold _write.
    by rewrite (bind_ret _ _ _ _ _ Hcs0), (bind_ret _ _ _ _ _ Hx).
  - unfold transaction. by rewrite Hlog3, Hlog2, Hlog1, <- !app_assoc.
Qed.

Lemma _read_loop_run self register xs : forall result w,
  exists rs w',
    _read_loop self register xs result w = (Ret (result ++ rs.*2), w')
    /\ log w' = log w ++ read_events self register xs rs
    /\ length rs = length xs
    /\ Forall (fun r => 0 <= r.2 < 256) rs.
Proof.
  induction xs as [|x xs IH]; intros result w.
  - exists [], w. simpl. by rewrite !app_nil_r.
  - simpl.
    destruct (bracketed_run self [register + x; 0]
                (fun value => v ← getitem value 1;
                              _read_loop self register xs (result ++ [v])) w)
      as (rx & w1 & Hrun & Hlog1 & Hlen & Hbytes).
    rewrite Hrun. clear Hrun.
    destruct rx as [|r0 [|v [|? ?]]]; try discriminate Hlen.
    unfold getitem; simpl.
    destruct (IH (result ++ [v]) w1) as (rs & w' & Hloop & Hlog & Hlen' & Hrs).
    exists ((r0, v) :: rs), w'. split; [|split; [|split]].
    + rewrite (bind_ret _ _ w1 v w1) by done.
      rewrite Hloop. simpl. by rewrite <- app_assoc.
    + rewrite Hlog, Hlog1. unfold read_events. simpl.
      by rewrite <- !app_assoc.
    + simpl. by rewrite Hlen'.
    + constructor; [|done]. simpl.
      by inversion Hbytes as [|? ? _ Hv]; inversion Hv.
Qed.

(** [_read(register)]: one transaction, the byte itself is returned. *)
Lemma _read_one_run self register w :
  exists r0 v w',
    _read self register 1 w = (Ret (PyInt v), w')
    /\ log w' = log w ++ transaction self [register; 0] [r0; v]
    /\ 0 <= v < 256.
Proof.
  destruct (_read_loop_run self register (range 1) [] w)
    as (rs & w' & Hloop & Hlog & Hlen & Hrs).
  destruct rs as [|[r0 v] [|? ?]]; try discriminate Hlen.
  exists r0, v, w'. split; [|split].
  - unfold _read. rewrite (bind_ret _ _ _ _ _ Hloop). done.
  - rewrite Hlog. unfold read_events. simpl.
    by rewrite Z.add_0_r, app_nil_r.
  - by inversion Hrs.
Qed.

(** [_read(register, length)] for any other length: a list comes back. *)
Lemma _read_many_run self register length w :
  length ≠ 1 ->
  exists rs w',
    _read self register length w = (Ret (PyList rs.*2), w')
    /\ log w' = log w ++ read_events self register (range length) rs
    /\ List.length rs = Z.to_nat length
    /\ Forall (fun r => 0 <= r.2 < 256) rs.
Proof.
  intros Hne.
  destruct (_read_loop_run self register (range length) [] w)
    as (rs & w' & Hloop & Hlog & Hlen & Hrs).
  exists rs, w'. split; [|split; [done|split; [|done]]].
  - unfold _read. rewrite (bind_ret _ _ _ _ _ Hloop).
    by destruct (Z.eqb_spec length 1).
  - rewrite Hlen. unfold range. by rewrite length_fmap, length_seq.
Qed.

Lemma xfers_read_events self register xs : forall rs,
  length rs = length xs ->
  xfers (read_events self register xs rs)
  = zip_with (fun x r => ([register + x; 0], [r.1; r.2])) xs rs.
Proof.
  unfold read_events.
  induction xs as [|x xs IH]; intros [|r rs] Hlen; try done.
  cbn [zip_with mjoin list_join]. rewrite xfers_app, xfers_transaction.
  simpl. f_equal. apply IH. by injection Hlen.
Qed.

Lemma actions_read_events self register xs : forall rs,
  length rs = length xs ->
  actions (read_events self register xs rs)
  = (fun x => Transmit [register + x; 0]) <$> xs.
Proof.
  unfold read_events.
  induction xs as [|x xs IH]; intros [|r rs] Hlen; try done.
  cbn [zip_with mjoin list_join]. rewrite actions_app, actions_transaction.
  simpl. f_equal. apply IH. by injection Hlen.
Qed.

(** *** Sequence player *)

Lemma range_by2_SS n :
  range_by2 (S (S n)) = 0%nat :: ((fun i => S (S i)) <$> range_by2 n).
Proof.
  unfold range_by2.
  change (Nat.div2 (S (S (S n)))) with (S (Nat.div2 (S n))).
  cbn [seq fmap list_fmap]. f_equal.
  rewrite <- fmap_S_seq, <- !list_fmap_compose.
  apply list_fmap_ext. intros _ i _. simpl. lia.
Qed.

Lemma _bulk_write_loop_shift self r v rest xs : forall w,
  _bulk_write_loop self (r :: v :: rest) ((fun i => S (S i)) <$> xs) w
  = _bulk_write_loop self rest xs w.
Proof.
  induction xs as [|x xs IH]; intros w; [done|].
  cbn [fmap list_fmap _bulk_write_loop drop].
  unfold mbind, M_bind.
  destruct (unpack2 (take 2 (drop x rest)) w) as [[[register value]|e|] w1];
    [|done|done].
  destruct ((if register =? WAIT then time_sleep (inject_Z value / 1000)
             else _write self register value) w1) as [[[]|e|] w2];
    [apply IH|done|done].
Qed.

(** [_bulk_write] takes its list two elements at a time, from the front. *)
Lemma _bulk_write_cons2 self r v rest w :
  _bulk_write self (r :: v :: rest) w
  = ((if r =? WAIT then time_sleep (inject_Z v / 1000) else _write self r v) ;;
     _bulk_write self rest) w.
Proof.
  unfold _bulk_write. cbn [length]. rewrite range_by2_SS.
  cbn [_bulk_write_loop].
  change (take 2 (drop 0 (r :: v :: rest))) with [r; v]. cbn [unpack2].
  unfold mbind at 1, M_bind at 1, mret, M_ret. cbn beta iota.
  unfold mbind, M_bind.
  destruct ((if r =? WAIT then time_sleep (inject_Z v / 1000)
             else _write self r v) w) as [[[]|e|] w1]; [|done|done].
  apply _bulk_write_loop_shift.
Qed.

Lemma _bulk_write_nil self w : _bulk_write self [] w = (Ret tt, w).
Proof. done. Qed.

(** A list of odd length makes the last unpacking fail. *)
Lemma _bulk_write_single self r w :
  _bulk_write self [r] w
  = (Raise (ValueError "not enough values to unpack (expected 2, got 1)"), w).
Proof. done. Qed.

Lemma Qltb_ms_nonneg (v : Z) : 0 <= v -> Qltb (inject_Z v / 1000) 0 = false.
Proof.
  intros Hv. unfold Qltb. apply negb_false_iff, Qle_bool_iff.
  unfold Qle. simpl. lia.
Qed.

Lemma time_sleep_run s w :
  Qltb s 0 = false ->
  exists w', time_sleep s w = (Ret tt, w') /\ log w' = log w ++ [Sleep s].
Proof. intros Hs. unfold time_sleep. rewrite Hs. by eexists. Qed.

(** One step of the player: a pause for a WAIT pair, one write otherwise. *)
Lemma bulk_step_run self (p : Z * Z) w :
  (p.1 = WAIT -> 0 <= p.2) ->
  exists w',
    (if p.1 =? WAIT then time_sleep (inject_Z p.2 / 1000)
     else _write self p.1 p.2) w = (Ret tt, w')
    /\ actions (log w') = actions (log w) ++ [step_action p].
Proof.
  intros Hp. unfold step_action. destruct (Z.eqb_spec p.1 WAIT) as [Heq|Hne].
  - destruct (time_sleep_run (inject_Z p.2 / 1000) w) as (w' & Hrun & Hlog);
      [by apply Qltb_ms_nonneg, Hp|].
    exists w'. split; [done|]. by rewrite Hlog, actions_app.
  - destruct (_write_run self p.1 p.2 w) as (rx & w' & Hrun & Hlog).
    exists w'. split; [done|].
    by rewrite Hlog, actions_app, actions_transaction.
Qed.

Lemma _bulk_write_pairs_run self ps : forall w,
  Forall (fun p => p.1 = WAIT -> 0 <= p.2) ps ->
  exists w',
    _bulk_write self (flatten_pairs ps) w = (Ret tt, w')
    /\ actions (log w') = actions (log w) ++ (step_action <$> ps).
Proof.
  induction ps as [|p ps IH]; intros w Hps.
  - exists w. split; [done|]. by rewrite app_nil_r.
  - inversion Hps as [|? ? Hp Hps']; subst.
    destruct (bulk_step_run self p w Hp) as (w1 & Hstep & Hlog1).
    destruct (IH w1 Hps') as (w' & Hrun & Hlog).
    exists w'. split.
    + change (flatten_pairs (p :: ps)) with (p.1 :: p.2 :: flatten_pairs ps).
      rewrite _bulk_write_cons2. by rewrite (bind_ret _ _ _ _ _ Hstep).
    + rewrite Hlog, Hlog1. by rewrite <- app_assoc.
Qed.

(** *** Calibration *)

Lemma _bulk_write_table_run self data w :
  table_ok data = true ->
  exists w',
    _bulk_write self data w = (Ret tt, w')
    /\ actions (log w') = actions (log w) ++ (step_action <$> pairs_of data).
Proof.
  intros Hok. apply andb_prop in Hok as [Hflat Hwaits].
  apply bool_decide_eq_true in Hflat.
  destruct (_bulk_write_pairs_run self (pairs_of data) w) as (w' & Hrun & Hlog).
  - apply Forall_forall. intros p Hp Hw.
    rewrite forallb_forall in Hwaits.
    apply list_elem_of_In, Hwaits in Hp.
    apply orb_prop in Hp as [Hp|Hp].
    + apply negb_true_iff, Z.eqb_neq in Hp. done.
    + by apply Z.leb_le.
  - exists w'. by rewrite <- Hflat at 1.
Qed.

Lemma read_int_run self register w v w' :
  _read self register 1 w = (Ret (PyInt v), w') ->
  (_read self register 1 ≫= as_int) w = (Ret v, w').
Proof. intros Hr. by rewrite (bind_ret _ _ _ _ _ Hr). Qed.

(** Reading one register as an int always succeeds and yields a byte. *)
Lemma read_int_total self register w :
  exists r0 v w',
    (_read self register 1 ≫= as_int) w = (Ret v, w')
    /\ log w' = log w ++ transaction self [register; 0] [r0; v]
    /\ 0 <= v < 256.
Proof.
  destruct (_read_one_run self register w) as (r0 & v & w' & Hrun & Hlog & Hv).
  exists r0, v, w'. split; [by apply read_int_run|done].
Qed.

(** The branch taken when register 0x73 reads zero. *)
Lemma sauce_calibrate_run self w w1 w2 w3 c1 c2 :
  _read self 0x73 1 w = (Ret (PyInt 0x00), w1) ->
  _read self 0x70 1 w1 = (Ret (PyInt c1), w2) ->
  _read self 0x71 1 w2 = (Ret (PyInt c2), w3) ->
  exists w',
    sauce_calibrate self w = (Ret tt, w')
    /\ actions (log w')
       = actions (log w3)
         ++ [Transmit [0xFF; 0x00]; Transmit [0xE1; 0xAD];
             Transmit [0xD1; 0x70]; Transmit [0xFF; 0x0E];
             Transmit [0xF0; calibrate_c1 c1];
             Transmit [0xF1; calibrate_c2 c2]].
Proof.
  intros H0 H1 H2.
  destruct (_bulk_write_table_run self sauce_calibration w3 eq_refl)
    as (w4 & Hb & Hlog4).
  destruct (_write_run self 0x70 (calibrate_c1 c1) w4) as (rx5 & w5 & Hw5 & Hlog5).
  destruct (_write_run self 0x71 (calibrate_c2 c2) w5) as (rx6 & w6 & Hw6 & Hlog6).
  exists w6. split.
  - unfold sauce_calibrate.
    rewrite (bind_ret _ _ _ _ _ (read_int_run _ _ _ _ _ H0)).
    change (0x00 =? 0x00) with true. cbv iota.
    rewrite (bind_ret _ _ _ _ _ (read_int_run _ _ _ _ _ H1)).
    rewrite (bind_ret _ _ _ _ _ (read_int_run _ _ _ _ _ H2)).
    cbv zeta.
    by rewrite (bind_ret _ _ _ _ _ Hb), (bind_ret _ _ _ _ _ Hw5).
  - rewrite Hlog6, actions_app, actions_transaction.
    rewrite Hlog5, actions_app, actions_transaction.
    rewrite Hlog4, <- !app_assoc. reflexivity.
Qed.

(** The branch is skipped when register 0x73 reads anything else. *)
Lemma sauce_calibrate_skip self w w1 status :
  _read self 0x73 1 w = (Ret (PyInt status), w1) ->
  status ≠ 0x00 ->
  sauce_calibrate self w = (Ret tt, w1).
Proof.
  intros H0 Hne. unfold sauce_calibrate.
  rewrite (bind_ret _ _ _ _ _ (read_int_run _ _ _ _ _ H0)).
  by destruct (Z.eqb_spec status 0x00).
Qed.

Lemma sauce_calibrate_total self w :
  exists w', sauce_calibrate self w = (Ret tt, w').
Proof.
  destruct (_read_one_run self 0x73 w) as (? & status & w1 & H0 & _).
  destruct (decide (status = 0x00)) as [->|Hne].
  - destruct (_read_one_run self 0x70 w1) as (? & c1 & w2 & H1 & _).
    destruct (_read_one_run self 0x71 w2) as (? & c2 & w3 & H2 & _).
    destruct (sauce_calibrate_run self w w1 w2 w3 c1 c2 H0 H1 H2) as (w' & Hrun & _).
    by exists w'.
  - exists w1. by apply sauce_calibrate_skip with status.
Qed.

Lemma sauce_begin_total self w :
  exists w', sauce_begin self w = (Ret tt, w').
Proof.
  destruct (_bulk_write_table_run self sauce_prologue w eq_refl) as (w1 & Hb1 & _).
  destruct (read_int_total self 0x67 w1) as (? & diag & w2 & Hr & _).
  assert (Hwr : exists w3,
             (if negb (Z.land diag 0x80 =? 0) then _write self 0x48 0x04
              else _write self 0x48 0x02) w2 = (Ret tt, w3)).
  { destruct (negb _);
      [destruct (_write_run self 0x48 0x04 w2) as (? & w3 & Hw & _)
      |destruct (_write_run self 0x48 0x02 w2) as (? & w3 & Hw & _)];
      by exists w3. }
  destruct Hwr as (w3 & Hwr).
  destruct (_bulk_write_table_run self sauce_middle w3 eq_refl) as (w4 & Hb4 & _).
  exists w4. unfold sauce_begin.
  by rewrite (bind_ret _ _ _ _ _ Hb1), (bind_ret _ _ _ _ _ Hr),
    (bind_ret _ _ _ _ _ Hwr).
Qed.

Lemma _secret_sauce_unfold self w :
  _secret_sauce self w
  = (sauce_begin self ;; sauce_calibrate self ;;
     _bulk_write self (sauce_tail (cls self))) w.
Proof. unfold _secret_sauce, sauce_tail. by destruct (cls self). Qed.

Lemma _secret_sauce_total self w :
  exists w', _secret_sauce self w = (Ret tt, w').
Proof.
  destruct (sauce_begin_total self w) as (w1 & H1).
  destruct (sauce_calibrate_total self w1) as (w2 & H2).
  assert (Hok : table_ok (sauce_tail (cls self)) = true)
    by (by destruct (cls self)).
  destruct (_bulk_write_table_run self _ w2 Hok) as (w3 & H3 & _).
  exists w3. rewrite _secret_sauce_unfold.
  by rewrite (bind_ret _ _ _ _ _ H1), (bind_ret _ _ _ _ _ H2).
Qed.

End DriverFacts.

(** ** Checking a property on every byte *)

Lemma forallb_range (P : Z -> bool) (n : Z) :
  forallb P (range n) = true -> forall a, 0 <= a < n -> P a = true.
Proof.
  intros Hall a Ha. rewrite forallb_forall in Hall. apply Hall.
  unfold range. apply in_map_iff. exists (Z.to_nat a). split; [lia|].
  apply in_seq. lia.
Qed.

Lemma register_address_bits (addr : Z) :
  0 <= addr <= 0x7F ->
  Z.land (Z.lor addr 0x80) 0x80 = 0x80
  /\ Z.land (Z.lor addr 0x80) 0x7F = addr
  /\ Z.land addr 0x80 = 0.
Proof.
  intros Ha.
  pose (P := fun a => (Z.land (Z.lor a 0x80) 0x80 =? 0x80)
                      && (Z.land (Z.lor a 0x80) 0x7F =? a)
                      && (Z.land a 0x80 =? 0)).
  assert (HP : P addr = true) by (apply (forallb_range P 0x80); [done|lia]).
  unfold P in HP. apply andb_prop in HP as [HP H3]. apply andb_prop in HP as [H1 H2].
  repeat split; by apply Z.eqb_eq.
Qed.

(** ** Transport layer: the claims *)

Lemma sim_write_world self (w : world) register value :
  let r := sim_xfer2 (env w) [Z.lor register 0x80; value] in
  _write self register value w
  = (Ret tt, World r.2 (log w ++ transaction self [Z.lor register 0x80; value] r.1)).
Proof.
  destruct self as [c [pin|]];
    unfold _write, cs_pin, set_pin, xfer2, transaction, cs_events,
      mbind, M_bind, mret, M_ret;
    cbn [env log _spi_cs_gpio bus_xfer2 line_set_value sim_platform];
    unfold sim_set_value; by rewrite <- ?app_assoc, ?app_nil_r.
Qed.

Lemma sim_read_one_world self (w : world) register :
  let r := sim_xfer2 (env w) [register; 0] in
  _read self register 1 w
  = (Ret (PyInt (default 0 (r.1 !! 1%nat))),
     World r.2 (log w ++ transaction self [register; 0] r.1)).
Proof.
  intros r.
  assert (Hlen : length r.1 = 2%nat) by apply sim_xfer2_length.
  destruct r.1 as [|r0 [|v [|? ?]]] eqn:Hrx; try discriminate Hlen.
  subst r.
  destruct self as [c [pin|]];
    unfold _read; change (range 1) with [0]; cbn [_read_loop];
    unfold cs_pin, set_pin, xfer2, transaction, cs_events,
      mbind, M_bind, mret, M_ret;
    cbn [env log _spi_cs_gpio bus_xfer2 line_set_value sim_platform sim_set_value];
    unfold sim_set_value; rewrite Z.add_0_r, Hrx; cbn;
    by rewrite <- ?app_assoc, ?app_nil_r.
Qed.

Lemma sim_xfer2_write (s : sim) addr value :
  0 <= addr <= 0x7F ->
  sim_xfer2 s [Z.lor addr 0x80; value]
  = ([0; 0], Sim (<[addr := value]> (sim_regs s)) (sim_fifo s)
                 (Qred (sim_clock s + sim_tick))).
Proof.
  intros Ha. destruct (register_address_bits addr Ha) as (Hb1 & Hb2 & _).
  unfold sim_xfer2. by rewrite Hb1, Hb2.
Qed.

Lemma sim_xfer2_read (s : sim) addr :
  0 <= addr <= 0x7F -> sim_fifo s = [] ->
  sim_xfer2 s [addr; 0] = ([0; sim_reg s addr], sim_advance s sim_tick).
Proof.
  intros Ha Hfifo. destruct (register_address_bits addr Ha) as (_ & _ & Hb3).
  unfold sim_xfer2. rewrite Hb3, Hfifo. cbn [Z.eqb negb length seq fmap list_fmap].
  rewrite Z.add_0_r. by destruct (decide _).
Qed.

Lemma sim_write_then_read self (s : sim) evs addr value :
  0 <= addr <= 0x7F -> 0 <= value <= 255 -> sim_fifo s = [] ->
  exists w1 w2,
    _write self addr value (World s evs) = (Ret tt, w1)
    /\ _read self addr 1 w1 = (Ret (PyInt value), w2).
Proof.
  intros Ha Hv Hfifo. eexists _, _. split; [apply sim_write_world|].
  rewrite sim_read_one_world. cbn [env log].
  rewrite (sim_xfer2_write s addr value Ha). cbn [fst snd].
  rewrite sim_xfer2_read by done. cbn [fst snd lookup list_lookup default].
  unfold sim_reg. cbn [sim_regs]. rewrite lookup_insert_eq. cbn [default].
  unfold id. rewrite Z.mod_small by lia. reflexivity.
Qed.

(** C6: for a register address in [0,0x7F] and a byte value, [_write]
    performs exactly one bracketed transaction that clocks out
    [addr | 0x80, value]; [_read] performs exactly one that clocks out
    [addr, 0x00] and returns the second byte received; and on the simulated
    chip, which stores on write and echoes on read, writing then reading
    the same address returns the value written. *)
Theorem C6_write_read_frames (addr value : Z) :
  0 <= addr <= 0x7F -> 0 <= value <= 255 ->
  (forall (Env : Type) (P : Platform Env) self (w : world),
      exists rx w', _write self addr value w = (Ret tt, w')
                    /\ log w' = log w ++ transaction self [Z.lor addr 0x80; value] rx)
  /\ (forall (Env : Type) (P : Platform Env) self (w : world),
         exists r0 v w', _read self addr 1 w = (Ret (PyInt v), w')
                         /\ log w' = log w ++ transaction self [addr; 0x00] [r0; v])
  /\ (forall self (s : sim) evs,
         sim_fifo s = [] ->
         exists w1 w2, _write self addr value (World s evs) = (Ret tt, w1)
                       /\ _read self addr 1 w1 = (Ret (PyInt value), w2)).
Proof.
  intros Ha Hv. split; [|split].
  - intros Env P self w. apply _write_run.
  - intros Env P self w.
    destruct (_read_one_run self addr w) as (r0 & v & w' & Hrun & Hlog & _).
    by exists r0, v, w'.
  - intros self s evs Hfifo. by apply sim_write_then_read.
Qed.

Lemma C6_write_read_frames_witness :
  0 <= 0x22 <= 0x7F /\ 0 <= 0xAB <= 255
  /\ exists w1 w2,
       _write (Sensor PMW3901 (Some 7)) 0x22 0xAB (World (sim_chip [] []) [])
       = (Ret tt, w1)
       /\ _read (Sensor PMW3901 (Some 7)) 0x22 1 w1 = (Ret (PyInt 0xAB), w2).
Proof.
  split; [lia|]. split; [lia|].
  apply (proj2 (proj2 (C6_write_read_frames 0x22 0xAB ltac:(lia) ltac:(lia)))).
  reflexivity.
Defined.

(** C10: the shape of what [_read] returns depends on the count.  For
    every count of at least 2 it returns a list of exactly that many
    bytes, the second bytes received in single-byte transactions at addr,
    addr+1, ..., addr+count-1, in that order; for a count of 1 it returns
    the byte itself, not a one-element list. *)
Theorem C10_read_result_shape (Env : Type) (P : Platform Env) self (addr : Z)
    (w : world) :
  (forall count, 2 <= count ->
     exists (rs : list (Z * Z)) w',
       _read self addr count w = (Ret (PyList rs.*2), w')
       /\ length rs.*2 = Z.to_nat count
       /\ xfers (log w')
          = xfers (log w)
            ++ zip_with (fun i r => ([addr + i; 0x00], [r.1; r.2])) (range count) rs)
  /\ (exists r0 v w',
        _read self addr 1 w = (Ret (PyInt v), w')
        /\ xfers (log w') = xfers (log w) ++ [([addr; 0x00], [r0; v])]).
Proof.
  split.
  - intros count Hcount.
    destruct (_read_many_run self addr count w) as (rs & w' & Hrun & Hlog & Hlen & _);
      [lia|].
    exists rs, w'. split; [done|]. split; [by rewrite length_fmap|].
    rewrite Hlog, xfers_app, xfers_read_events; [done|].
    rewrite Hlen. unfold range. by rewrite length_fmap, length_seq.
  - destruct (_read_one_run self addr w) as (r0 & v & w' & Hrun & Hlog & _).
    exists r0, v, w'. split; [done|].
    by rewrite Hlog, xfers_app, xfers_transaction.
Qed.

Lemma C10_read_result_shape_witness :
  2 <= 3
  /\ exists (rs : list (Z * Z)) w',
       _read (Sensor PMW3901 None) REG_DATA_READY 3
             (World (sim_chip [(2, 0x80); (3, 0x11); (4, 0x22)] []) [])
       = (Ret (PyList rs.*2), w')
       /\ length rs.*2 = Z.to_nat 3
       /\ xfers (log w')
          = xfers []
            ++ zip_with (fun i r => ([REG_DATA_READY + i; 0x00], [r.1; r.2]))
                        (range 3) rs.
Proof.
  split; [lia|].
  apply (proj1 (C10_read_result_shape sim sim_platform (Sensor PMW3901 None)
                  REG_DATA_READY
                  (World (sim_chip [(2, 0x80); (3, 0x11); (4, 0x22)] []) [])) 3).
  lia.
Defined.

(** ** Sequence player: the claim *)

(** C7: [_bulk_write] consumes its flat list in order, two elements at a
    time.  On a list made of pairs whose WAIT durations are not negative it
    returns normally, and what it did is one action per pair, in the order
    of the list: for a pair whose first element is WAIT (-1), a sleep of the
    second element taken as milliseconds and no transmission; for any other
    pair, the one transmission of [_write] for that register and value. *)
Theorem C7_sequence_player (Env : Type) (P : Platform Env) self
    (ps : list (Z * Z)) (w : world) :
  Forall (fun p => p.1 = WAIT -> 0 <= p.2) ps ->
  exists w',
    _bulk_write self (flatten_pairs ps) w = (Ret tt, w')
    /\ actions (log w')
       = actions (log w)
         ++ ((fun p => if decide (p.1 = -1) then Pause (inject_Z p.2 / 1000)
                       else Transmit [Z.lor p.1 0x80; p.2]) <$> ps).
Proof.
  intros Hps.
  destruct (_bulk_write_pairs_run self ps w Hps) as (w' & Hrun & Hlog).
  exists w'. split; [done|]. rewrite Hlog. f_equal.
  apply list_fmap_ext. intros _ p _. unfold step_action, WAIT.
  destruct (Z.eqb_spec p.1 (-1)), (decide (p.1 = -1)); done.
Qed.

Lemma C7_sequence_player_witness :
  Forall (fun p => p.1 = WAIT -> 0 <= p.2) [(0x7F, 0x00); (WAIT, 0x0A); (0x58, 0xFF)]
  /\ exists w',
       _bulk_write (Sensor PMW3901 None) [0x7F; 0x00; WAIT; 0x0A; 0x58; 0xFF]
                   (World (sim_chip [] []) [])
       = (Ret tt, w')
       /\ actions (log w')
          = [Transmit [0xFF; 0x00]; Pause (10 # 1000); Transmit [0xD8; 0xFF]].
Proof.
  assert (Hps : Forall (fun p : Z * Z => p.1 = WAIT -> 0 <= p.2)
                       [(0x7F, 0x00); (WAIT, 0x0A); (0x58, 0xFF)])
    by (repeat constructor; simpl; lia).
  split; [exact Hps|].
  exact (C7_sequence_player sim sim_platform (Sensor PMW3901 None)
           [(0x7F, 0x00); (WAIT, 0x0A); (0x58, 0xFF)]
           (World (sim_chip [] []) []) Hps).
Defined.

(** ** Calibration: the claims *)

Lemma calibrate_c1_spec c1 : calibrate_c1 c1 = spec_adjust_c1 c1.
Proof.
  unfold calibrate_c1, spec_adjust_c1. cbv zeta.
  rewrite !Z.gtb_ltb.
  destruct (Z.leb_spec c1 28);
    repeat match goal with
           | |- context [Z.ltb ?a ?b] => destruct (Z.ltb_spec a b)
           end;
    repeat case_decide; lia.
Qed.

Lemma calibrate_c2_spec c2 : 0 <= c2 -> calibrate_c2 c2 = spec_adjust_c2 c2.
Proof.
  intros Hc2. unfold calibrate_c2, spec_adjust_c2.
  symmetry. apply Z.quot_div_nonneg; lia.
Qed.

(** C1: when register 0x73 reads 0x00, the values read from 0x70 and 0x71
    are bytes, and after the fixed intermediate writes the calibration
    clocks out exactly a write of the adjusted c1 to 0x70 and a write of the
    adjusted c2 to 0x71, the adjustment being the one the specification
    words: +14 if c1 <= 28, then +11 if the result exceeds 28, clamped to
    [0, 0x3F]; and c2 * 45 integer-divided by 100.  Both classes run this
    same branch between their prologue and their own tail table. *)
Theorem C1_calibration_adjustment (Env : Type) (P : Platform Env) self
    (w w0 w1 w2 w3 : world) (c1 c2 : Z) :
  sauce_begin self w = (Ret tt, w0) ->
  _read self 0x73 1 w0 = (Ret (PyInt 0x00), w1) ->
  _read self 0x70 1 w1 = (Ret (PyInt c1), w2) ->
  _read self 0x71 1 w2 = (Ret (PyInt c2), w3) ->
  (0 <= c1 < 256 /\ 0 <= c2 < 256)
  /\ 0 <= spec_adjust_c1 c1 <= 0x3F
  /\ exists w',
       actions (log w')
       = actions (log w3)
         ++ [Transmit [0xFF; 0x00]; Transmit [0xE1; 0xAD];
             Transmit [0xD1; 0x70]; Transmit [0xFF; 0x0E];
             Transmit [0x70 + 0x80; spec_adjust_c1 c1];
             Transmit [0x71 + 0x80; spec_adjust_c2 c2]]
       /\ _secret_sauce self w = _bulk_write self (sauce_tail (cls self)) w'.
Proof.
  intros Hbegin H0 H1 H2.
  assert (Hc1 : 0 <= c1 < 256).
  { destruct (_read_one_run self 0x70 w1) as (? & v & ? & Hr & _ & Hv). congruence. }
  assert (Hc2 : 0 <= c2 < 256).
  { destruct (_read_one_run self 0x71 w2) as (? & v & ? & Hr & _ & Hv). congruence. }
  split; [done|]. split.
  { unfold spec_adjust_c1. repeat destruct (decide _); lia. }
  destruct (sauce_calibrate_run self w0 w1 w2 w3 c1 c2 H0 H1 H2)
    as (w' & Hrun & Hlog).
  exists w'. split.
  - rewrite Hlog, calibrate_c1_spec, calibrate_c2_spec by lia. reflexivity.
  - rewrite _secret_sauce_unfold.
    by rewrite (bind_ret _ _ _ _ _ Hbegin), (bind_ret _ _ _ _ _ Hrun).
Qed.

Lemma C1_calibration_adjustment_witness :
  let self := Sensor PAA5100 (Some 7) in
  let w : world :=
    World (sim_chip [(0x73, 0x00); (0x70, 0x50); (0x71, 0xFF)] []) [] in
  let w0 := (sauce_begin self w).2 in
  let w1 := (_read self 0x73 1 w0).2 in
  let w2 := (_read self 0x70 1 w1).2 in
  let w3 := (_read self 0x71 1 w2).2 in
  exists w',
    actions (log w')
    = actions (log w3)
      ++ [Transmit [0xFF; 0x00]; Transmit [0xE1; 0xAD];
          Transmit [0xD1; 0x70]; Transmit [0xFF; 0x0E];
          Transmit [0xF0; 0x3F]; Transmit [0xF1; 114]]
    /\ _secret_sauce self w = _bulk_write self PAA5100_sauce_tail w'.
Proof.
  intros self w w0 w1 w2 w3.
  exact (proj2 (proj2 (C1_calibration_adjustment sim sim_platform self
                         w w0 w1 w2 w3 0x50 0xFF
                         ltac:(vm_compute; reflexivity)
                         ltac:(vm_compute; reflexivity)
                         ltac:(vm_compute; reflexivity)
                         ltac:(vm_compute; reflexivity)))).
Defined.

(** C2, as stated, fails at c1 = 28: the +14 step gives 42, which exceeds
    28, so the +11 step applies as well and the code yields 53, not 42. *)
Lemma C2_calibration_values_counterexample :
  calibrate_c1 28 <> 42
  /\ drop 4 (calibration_written PMW3901 28 100)
     <> [Transmit [0xF0; 42]; Transmit [0xF1; 45]].
Proof. split; by vm_compute. Qed.

(** C2, amended: the calibration arithmetic on the values read from
    registers 0x70 and 0x71 gives 53 for c1 = 28 (28 + 14 = 42 exceeds 28,
    so 11 is added too), 40 for c1 = 29, 0x3F for c1 = 0x50 (the clamp
    coming after the +11 step: 0x50 + 11 exceeds 0x3F), 45 for c2 = 100 and
    114 for c2 = 255; and these are the values both classes write back to
    0x70 and 0x71 on a chip that reads them. *)
Theorem C2_calibration_values :
  calibrate_c1 28 = 53
  /\ calibrate_c1 29 = 40
  /\ (calibrate_c1 0x50 = 0x3F /\ 0x50 + 11 > 0x3F)
  /\ calibrate_c2 100 = 45
  /\ calibrate_c2 255 = 114
  /\ (forall c,
        drop 4 (calibration_written c 28 100)
        = [Transmit [0xF0; 53]; Transmit [0xF1; 45]]
        /\ drop 4 (calibration_written c 29 255)
           = [Transmit [0xF0; 40]; Transmit [0xF1; 114]]
        /\ drop 4 (calibration_written c 0x50 100)
           = [Transmit [0xF0; 0x3F]; Transmit [0xF1; 45]]).
Proof.
  split; [by vm_compute|]. split; [by vm_compute|].
  split; [split; [by vm_compute|lia]|].
  split; [by vm_compute|]. split; [by vm_compute|].
  intros c. destruct c; repeat split; vm_compute; reflexivity.
Qed.

(** ** Motion reads *)

Lemma byte_top_bit (b : Z) :
  0 <= b < 256 -> negb (Z.land b 0x80 =? 0) = Z.testbit b 7.
Proof.
  intros Hb.
  pose (P := fun b => Bool.eqb (negb (Z.land b 0x80 =? 0)) (Z.testbit b 7)).
  assert (HP : P b = true) by (apply (forallb_range P 256); [by vm_compute|lia]).
  by apply Bool.eqb_prop.
Qed.

Lemma int16_le_spec (lo hi : Z) :
  0 <= lo < 256 -> 0 <= hi < 256 -> int16_le lo hi = spec_int16 lo hi.
Proof.
  intros Hlo Hhi.
  pose (P := fun lo => forallb (fun hi => int16_le lo hi =? spec_int16 lo hi)
                               (range 256)).
  assert (HP : P lo = true) by (apply (forallb_range P 256); [by vm_compute|lia]).
  apply Z.eqb_eq.
  by apply (forallb_range (fun hi => int16_le lo hi =? spec_int16 lo hi) 256).
Qed.

Lemma spec_int16_range (lo hi : Z) :
  0 <= lo < 256 -> 0 <= hi < 256 -> -32768 <= spec_int16 lo hi < 32768.
Proof. intros Hlo Hhi. unfold spec_int16. cbv zeta. case_decide; lia. Qed.

Lemma bytes_forallb (l : list Z) :
  Forall (fun b => 0 <= b < 256) l -> forallb is_byte l = true.
Proof.
  intros Hl. apply forallb_forall. intros b Hb.
  rewrite Forall_forall in Hl. apply list_elem_of_In, Hl in Hb.
  unfold is_byte. apply andb_true_intro. split; [apply Z.leb_le|apply Z.ltb_lt]; lia.
Qed.

Section MotionFacts.
Context {Env : Type} `{Platform Env}.

Local Abbreviation M := (M (Env := Env)).
Local Abbreviation world := (world (Env := Env)).

Lemma time_time_run (w : world) :
  exists t w', time_time w = (Ret t, w') /\ log w' = log w ++ [TimeRead t].
Proof. unfold time_time. by eexists _, _. Qed.

Lemma burst_transfer_run self (w : world) :
  exists rx w',
    burst_transfer self w = (Ret rx, w')
    /\ log w' = log w ++ transaction self burst_tx rx
    /\ length rx = 13%nat
    /\ Forall (fun b => 0 <= b < 256) rx.
Proof.
  destruct (bracketed_run self burst_tx (fun data => mret data) w)
    as (rx & w' & Hrun & Hlog & Hlen & Hbytes).
  by exists rx, w'.
Qed.

Lemma bytearray_run (l : list Z) (w : world) :
  Forall (fun b => 0 <= b < 256) l -> bytearray l w = (Ret l, w).
Proof. intros Hl. unfold bytearray. by rewrite bytes_forallb. Qed.

(** What the burst filter of the code decides on thirteen bytes, and
    what it returns, in the words of the specification. *)
Lemma burst_filter_spec (rx : list Z) (w : world) :
  length rx = 13%nat -> Forall (fun b => 0 <= b < 256) rx ->
  exists b,
    (bytearray rx ≫= unpack_burst) w = (Ret b, w)
    /\ negb (Z.land (burst_dr b) 0x80 =? 0)
       && negb ((burst_quality b <? 0x19) && (burst_shutter_upper b =? 0x1F))
       = burst_accepts rx
    /\ (burst_x b, burst_y b) = burst_deltas rx.
Proof.
  intros Hlen Hbytes.
  do 14 (destruct rx as [|? rx]; try discriminate Hlen).
  eexists. split; [|split].
  - by rewrite (bind_ret _ _ _ _ _ (bytearray_run _ w Hbytes)).
  - cbn [burst_dr burst_quality burst_shutter_upper burst_accepts].
    unfold spec_sample_valid.
    rewrite byte_top_bit by (by inversion Hbytes as [|? ? _ Hb]; inversion Hb).
    f_equal. f_equal. f_equal.
    + destruct (Z.ltb_spec z6 0x19); symmetry;
        [by apply bool_decide_eq_true|by apply bool_decide_eq_false; lia].
    + destruct (Z.eqb_spec z10 0x1F); symmetry;
        [by apply bool_decide_eq_true|by apply bool_decide_eq_false].
  - cbn [burst_x burst_y burst_deltas].
    repeat match goal with
           | Hf : Forall _ (_ :: _) |- _ => inversion Hf; clear Hf; subst
           end.
    by rewrite !int16_le_spec.
Qed.

(** One turn of the loop of [get_motion] before the deadline. *)
Lemma get_motion_loop_round fuel self t_start timeout (w wa wd : world) now rx :
  time_time w = (Ret now, wa) ->
  Qltb (now - t_start) timeout = true ->
  burst_transfer self wa = (Ret rx, wd) ->
  get_motion_loop (S fuel) self t_start timeout w
  = if burst_accepts rx then (Ret (burst_deltas rx), wd)
    else (time_sleep (1 # 1000) ;; get_motion_loop fuel self t_start timeout) wd.
Proof.
  intros Ht Hlt Hx.
  destruct (burst_transfer_run self wa) as (rx' & wd' & Hx' & _ & Hlen & Hbytes).
  rewrite Hx in Hx'. injection Hx' as <- <-.
  destruct (burst_filter_spec rx wd Hlen Hbytes) as (b & Hb & Hacc & Hdel).
  cbn [get_motion_loop].
  rewrite (bind_ret _ _ _ _ _ Ht), Hlt.
  rewrite (bind_ret _ _ _ _ _ Hx), (bind_ret _ _ _ _ _ Hb), Hacc, <- Hdel.
  by destruct (burst_accepts rx).
Qed.

(** One turn of the loop of [get_motion] at or past the deadline. *)
Lemma get_motion_loop_deadline fuel self t_start timeout (w wa : world) now :
  time_time w = (Ret now, wa) ->
  Qltb (now - t_start) timeout = false ->
  get_motion_loop (S fuel) self t_start timeout w
  = (Raise (RuntimeError "Timed out waiting for motion data."), wa).
Proof.
  intros Ht Hlt. cbn [get_motion_loop]. by rewrite (bind_ret _ _ _ _ _ Ht), Hlt.
Qed.

End MotionFacts.

(** *** A polling loop, in general

    Both motion reads are the same loop around a different way of taking
    a sample; the shape of their runs is established once. *)

Section PollingLoop.
Context {Env : Type} `{Platform Env}.
Context {S V : Type}.

Variable loop : nat -> M (Env := Env) (Z * Z).
Variable sample : M (Env := Env) V.
Variable value_of : S -> V.
Variable sample_events : S -> list event.
Variable well_formed : S -> Prop.
Variable accepts : S -> bool.
Variable deltas : S -> Z * Z.
Variables t_start timeout : Q.

Hypothesis loop_O : forall w, loop 0 w = (OutOfFuel, w).

Hypothesis loop_deadline : forall fuel w wa now,
  time_time w = (Ret now, wa) ->
  Qltb (now - t_start) timeout = false ->
  loop (Datatypes.S fuel) w
  = (Raise (RuntimeError "Timed out waiting for motion data."), wa).

Hypothesis loop_round : forall fuel w wa wd now s,
  time_time w = (Ret now, wa) ->
  Qltb (now - t_start) timeout = true ->
  sample wa = (Ret (value_of s), wd) ->
  loop (Datatypes.S fuel) w
  = if accepts s then (Ret (deltas s), wd)
    else (time_sleep (1 # 1000) ;; loop fuel) wd.

Hypothesis sample_run : forall w,
  exists s w',
    sample w = (Ret (value_of s), w')
    /\ log w' = log w ++ sample_events s
    /\ well_formed s.

Lemma polling_loop_shape fuel : forall w,
  exists out w' evs,
    loop fuel w = (out, w')
    /\ log w' = log w ++ evs
    /\ polling_shape (fun now s => TimeRead now :: sample_events s)
                     well_formed accepts deltas fuel t_start timeout out evs.
Proof.
  induction fuel as [|fuel IH]; intros w.
  - exists OutOfFuel, w, []. split; [apply loop_O|]. split; [by rewrite app_nil_r|].
    exists []. by split.
  - destruct (time_time_run w) as (now & wa & Ht & Hloga).
    destruct (Qltb (now - t_start) timeout) eqn:Hlt.
    + destruct (sample_run wa) as (s & wd & Hs & Hlogd & Hwf).
      rewrite (loop_round fuel w wa wd now s Ht Hlt Hs).
      destruct (accepts s) eqn:Hacc.
      * exists (Ret (deltas s)), wd, (TimeRead now :: sample_events s).
        split; [done|]. split; [by rewrite Hlogd, Hloga, <- app_assoc|].
        exists []. split; [done|]. by exists now, s.
      * destruct (time_sleep_run (1 # 1000) wd eq_refl) as (ws & Hsl & Hlogs).
        destruct (IH ws) as (out & w' & evs & Hrun & Hlog & rounds & Hrounds & Hout).
        exists out, w', ((TimeRead now :: sample_events s) ++ [Sleep (1 # 1000)] ++ evs).
        split; [by rewrite (bind_ret _ _ _ _ _ Hsl)|].
        split; [by rewrite Hlog, Hlogs, Hlogd, Hloga, <- !app_assoc|].
        exists ((now, s) :: rounds). split; [by constructor|].
        unfold rejected_rounds in *. cbn [mbind list_bind fst snd].
        destruct out as [xy|e|].
        -- destruct Hout as (now' & s' & ? & ? & ? & ? & ->).
           exists now', s'. by rewrite <- !app_assoc.
        -- destruct Hout as (? & now' & ? & ->).
           split; [done|]. exists now'. by rewrite <- !app_assoc.
        -- destruct Hout as (<- & ->). by rewrite <- !app_assoc.
    + exists (Raise (RuntimeError "Timed out waiting for motion data.")), wa,
        [TimeRead now].
      split; [by apply loop_deadline with now|]. split; [done|].
      exists []. split; [done|]. split; [done|]. by exists now.
Qed.

Lemma polling_loop_fuel_mono fuel : forall k w out w',
  loop fuel w = (out, w') -> out ≠ OutOfFuel ->
  loop (fuel + k) w = (out, w').
Proof.
  induction fuel as [|fuel IH]; intros k w out w' Hrun Hout.
  - rewrite loop_O in Hrun. by injection Hrun as <- <-.
  - cbn [Nat.add].
    destruct (time_time_run w) as (now & wa & Ht & _).
    destruct (Qltb (now - t_start) timeout) eqn:Hlt.
    + destruct (sample_run wa) as (s & wd & Hs & _).
      rewrite (loop_round fuel w wa wd now s Ht Hlt Hs) in Hrun.
      rewrite (loop_round (fuel + k) w wa wd now s Ht Hlt Hs).
      destruct (accepts s); [done|].
      destruct (time_sleep_run (1 # 1000) wd eq_refl) as (ws & Hsl & _).
      rewrite (bind_ret _ (fun _ => loop fuel) _ _ _ Hsl) in Hrun.
      rewrite (bind_ret _ (fun _ => loop (fuel + k)) _ _ _ Hsl). by apply IH.
    + rewrite (loop_deadline fuel w wa now Ht Hlt) in Hrun.
      by rewrite (loop_deadline (fuel + k) w wa now Ht Hlt).
Qed.

Hypothesis sample_no_clock : forall s, clock_reads (sample_events s) = [].

Lemma clock_reads_app evs1 evs2 :
  clock_reads (evs1 ++ evs2) = clock_reads evs1 ++ clock_reads evs2.
Proof. apply omap_app. Qed.

Lemma clock_reads_rejected_rounds (rounds : list (Q * S)) :
  clock_reads (rejected_rounds (fun now s => TimeRead now :: sample_events s) rounds)
  = rounds.*1.
Proof.
  unfold rejected_rounds.
  induction rounds as [|r rounds IH]; [done|].
  cbn [mbind list_bind fmap list_fmap].
  rewrite clock_reads_app, IH, clock_reads_app.
  cbn [clock_reads omap list_omap clock_read_of app].
  fold (clock_reads (sample_events r.2)). by rewrite sample_no_clock.
Qed.

(** The timeout is raised exactly when a clock read of the run found the
    deadline reached. *)
Lemma polling_shape_deadline fuel out evs :
  polling_shape (fun now s => TimeRead now :: sample_events s)
                well_formed accepts deltas fuel t_start timeout out evs ->
  out = Raise (RuntimeError "Timed out waiting for motion data.")
  <-> Exists (fun now => Qltb (now - t_start) timeout = false) (clock_reads evs).
Proof.
  intros (rounds & Hrounds & Hout).
  assert (Hbefore : ¬ Exists (fun now => Qltb (now - t_start) timeout = false)
                      rounds.*1).
  { rewrite Exists_exists. intros (now & Hin & Hnow).
    apply list_elem_of_fmap in Hin as (r & -> & Hr).
    rewrite Forall_forall in Hrounds. destruct (Hrounds r Hr) as (_ & ? & _).
    congruence. }
  destruct out as [xy|e|].
  - destruct Hout as (now & s & _ & Hnow & _ & _ & ->). split; [done|].
    rewrite clock_reads_app, clock_reads_rejected_rounds.
    cbn [clock_reads omap list_omap clock_read_of].
    fold (clock_reads (sample_events s)). rewrite sample_no_clock.
    rewrite Exists_app. intros [?|Hex]; [done|].
    apply Exists_cons in Hex as [?|Hex]; [congruence|by apply Exists_nil in Hex].
  - destruct Hout as (-> & now & Hnow & ->). split; [|done]. intros _.
    rewrite clock_reads_app, clock_reads_rejected_rounds.
    apply Exists_app. right. by constructor.
  - destruct Hout as (_ & ->). split; [done|].
    by rewrite clock_reads_rejected_rounds.
Qed.

End PollingLoop.

(** *** The two motion reads *)

Section MotionRuns.
Context {Env : Type} `{Platform Env}.

Local Abbreviation world := (world (Env := Env)).

Lemma clock_reads_cs_events self state : clock_reads (cs_events self state) = [].
Proof. unfold cs_events. by destruct (_spi_cs_gpio self). Qed.

Lemma clock_reads_transaction self tx rx : clock_reads (transaction self tx rx) = [].
Proof.
  unfold transaction. by rewrite !clock_reads_app, !clock_reads_cs_events.
Qed.

Lemma clock_reads_read_events self register xs : forall rs,
  clock_reads (read_events self register xs rs) = [].
Proof.
  unfold read_events.
  induction xs as [|x xs IH]; intros [|r rs]; try done.
  cbn [zip_with mjoin list_join].
  by rewrite clock_reads_app, clock_reads_transaction, IH.
Qed.

Lemma burst_sample_run self (w : world) :
  exists rx w',
    burst_transfer self w = (Ret rx, w')
    /\ log w' = log w ++ transaction self burst_tx rx
    /\ (length rx = 13%nat /\ Forall (fun b => 0 <= b < 256) rx).
Proof.
  destruct (burst_transfer_run self w) as (rx & w' & Hrun & Hlog & Hlen & Hbytes).
  by exists rx, w'.
Qed.

(** What the slow filter of the code decides on five bytes. *)
Lemma slow_filter_spec (bs : list Z) (w : world) :
  length bs = 5%nat -> Forall (fun b => 0 <= b < 256) bs ->
  exists dr x y,
    (bytearray_of (PyList bs) ≫= unpack_slow) w = (Ret (dr, x, y), w)
    /\ negb (Z.land dr 0x80 =? 0) = slow_accepts bs
    /\ (x, y) = slow_deltas bs.
Proof.
  intros Hlen Hbytes.
  do 6 (destruct bs as [|? bs]; try discriminate Hlen).
  eexists _, _, _. split; [|split].
  - cbn [bytearray_of].
    by rewrite (bind_ret _ _ _ _ _ (bytearray_run _ w Hbytes)).
  - cbn [slow_accepts]. apply byte_top_bit. by inversion Hbytes.
  - cbn [slow_deltas].
    repeat match goal with
           | Hf : Forall _ (_ :: _) |- _ => inversion Hf; clear Hf; subst
           end.
    by rewrite !int16_le_spec.
Qed.

Lemma slow_sample_run self (w : world) :
  exists (rs : list (Z * Z)) w',
    _read self REG_DATA_READY 5 w = (Ret (PyList rs.*2), w')
    /\ log w' = log w ++ read_events self REG_DATA_READY (range 5) rs
    /\ (length rs = 5%nat /\ Forall (fun r => 0 <= r.2 < 256) rs).
Proof.
  destruct (_read_many_run self REG_DATA_READY 5 w)
    as (rs & w' & Hrun & Hlog & Hlen & Hbytes); [done|].
  by exists rs, w'.
Qed.

Lemma get_motion_slow_loop_round fuel self t_start timeout (w wa wd : world) now
    (rs : list (Z * Z)) :
  time_time w = (Ret now, wa) ->
  Qltb (now - t_start) timeout = true ->
  _read self REG_DATA_READY 5 wa = (Ret (PyList rs.*2), wd) ->
  get_motion_slow_loop (S fuel) self t_start timeout w
  = if slow_accepts rs.*2 then (Ret (slow_deltas rs.*2), wd)
    else (time_sleep (1 # 1000) ;; get_motion_slow_loop fuel self t_start timeout) wd.
Proof.
  intros Ht Hlt Hx.
  destruct (_read_many_run self REG_DATA_READY 5 wa)
    as (rs' & wd' & Hx' & _ & Hlen & Hbytes); [done|].
  rewrite Hx in Hx'. injection Hx' as Hrs <-.
  assert (Hlen2 : length rs.*2 = 5%nat) by (by rewrite Hrs, length_fmap).
  assert (Hbytes2 : Forall (fun b => 0 <= b < 256) rs.*2)
    by (rewrite Hrs; by apply Forall_fmap).
  destruct (slow_filter_spec rs.*2 wd Hlen2 Hbytes2) as (dr & x & y & Hb & Hacc & Hdel).
  cbn [get_motion_slow_loop].
  rewrite (bind_ret _ _ _ _ _ Ht), Hlt.
  rewrite (bind_ret _ _ _ _ _ Hx), (bind_ret _ _ _ _ _ Hb), Hacc, <- Hdel.
  by destruct (slow_accepts rs.*2).
Qed.

Lemma get_motion_slow_loop_deadline fuel self t_start timeout (w wa : world) now :
  time_time w = (Ret now, wa) ->
  Qltb (now - t_start) timeout = false ->
  get_motion_slow_loop (S fuel) self t_start timeout w
  = (Raise (RuntimeError "Timed out waiting for motion data."), wa).
Proof.
  intros Ht Hlt. cbn [get_motion_slow_loop].
  by rewrite (bind_ret _ _ _ _ _ Ht), Hlt.
Qed.

(** The shape of every run of the burst read. *)
Lemma get_motion_shape fuel self timeout (w : world) :
  exists t_start out w' evs,
    get_motion fuel self timeout w = (out, w')
    /\ log w' = log w ++ TimeRead t_start :: evs
    /\ polling_shape (burst_round self)
                     (fun rx => length rx = 13%nat
                                /\ Forall (fun b => 0 <= b < 256) rx)
                     burst_accepts burst_deltas
                     fuel t_start timeout out evs
    /\ (out = Raise (RuntimeError "Timed out waiting for motion data.")
        <-> Exists (fun now => Qltb (now - t_start) timeout = false)
                   (clock_reads evs)).
Proof.
  destruct (time_time_run w) as (t_start & w0 & Ht & Hlog0).
  destruct (polling_loop_shape
              (fun fuel => get_motion_loop fuel self t_start timeout)
              (burst_transfer self) (fun rx => rx) (transaction self burst_tx)
              (fun rx => length rx = 13%nat /\ Forall (fun b => 0 <= b < 256) rx)
              burst_accepts burst_deltas t_start timeout
              (fun w => eq_refl)
              (fun fuel => get_motion_loop_deadline fuel self t_start timeout)
              (fun fuel w wa wd now rx =>
                 get_motion_loop_round fuel self t_start timeout w wa wd now rx)
              (burst_sample_run self) fuel w0)
    as (out & w' & evs & Hrun & Hlog & Hshape).
  exists t_start, out, w', evs. split; [|split; [|split]].
  - unfold get_motion. by rewrite (bind_ret _ _ _ _ _ Ht).
  - by rewrite Hlog, Hlog0, <- app_assoc.
  - exact Hshape.
  - apply (polling_shape_deadline (transaction self burst_tx)
             (fun rx => length rx = 13%nat /\ Forall (fun b => 0 <= b < 256) rx)
             burst_accepts burst_deltas t_start timeout
             (clock_reads_transaction self burst_tx) fuel out evs Hshape).
Qed.

(** The shape of every run of the slow read. *)
Lemma get_motion_slow_shape fuel self timeout (w : world) :
  exists t_start out w' evs,
    get_motion_slow fuel self timeout w = (out, w')
    /\ log w' = log w ++ TimeRead t_start :: evs
    /\ polling_shape (slow_round self)
                     (fun rs : list (Z * Z) =>
                        length rs = 5%nat /\ Forall (fun r => 0 <= r.2 < 256) rs)
                     (fun rs : list (Z * Z) => slow_accepts rs.*2)
                     (fun rs : list (Z * Z) => slow_deltas rs.*2)
                     fuel t_start timeout out evs
    /\ (out = Raise (RuntimeError "Timed out waiting for motion data.")
        <-> Exists (fun now => Qltb (now - t_start) timeout = false)
                   (clock_reads evs)).
Proof.
  destruct (time_time_run w) as (t_start & w0 & Ht & Hlog0).
  destruct (polling_loop_shape
              (fun fuel => get_motion_slow_loop fuel self t_start timeout)
              (_read self REG_DATA_READY 5)
              (fun rs : list (Z * Z) => PyList rs.*2)
              (read_events self REG_DATA_READY (range 5))
              (fun rs : list (Z * Z) =>
                 length rs = 5%nat /\ Forall (fun r => 0 <= r.2 < 256) rs)
              (fun rs : list (Z * Z) => slow_accepts rs.*2)
              (fun rs : list (Z * Z) => slow_deltas rs.*2) t_start timeout
              (fun w => eq_refl)
              (fun fuel => get_motion_slow_loop_deadline fuel self t_start timeout)
              (fun fuel w wa wd now rs =>
                 get_motion_slow_loop_round fuel self t_start timeout w wa wd now rs)
              (slow_sample_run self) fuel w0)
    as (out & w' & evs & Hrun & Hlog & Hshape).
  exists t_start, out, w', evs. split; [|split; [|split]].
  - unfold get_motion_slow. by rewrite (bind_ret _ _ _ _ _ Ht).
  - by rewrite Hlog, Hlog0, <- app_assoc.
  - exact Hshape.
  - apply (polling_shape_deadline (read_events self REG_DATA_READY (range 5))
             (fun rs : list (Z * Z) =>
                length rs = 5%nat /\ Forall (fun r => 0 <= r.2 < 256) rs)
             (fun rs : list (Z * Z) => slow_accepts rs.*2)
             (fun rs : list (Z * Z) => slow_deltas rs.*2) t_start timeout
             (clock_reads_read_events self REG_DATA_READY (range 5)) fuel out evs
             Hshape).
Qed.

End MotionRuns.

(** ** Motion reads: the claims *)

(** ** Enough fuel on the simulated chip

    On the simulated chip time passes: every transaction and every sleep
    moves the clock on.  So the polling loops end there, and a bound on the
    fuel they need follows from the timeout. *)

Lemma Qltb_false (a b : Q) : Qltb a b = false <-> (b <= a)%Q.
Proof. unfold Qltb. rewrite negb_false_iff. apply Qle_bool_iff. Qed.

Lemma Qltb_true (a b : Q) : Qltb a b = true <-> (a < b)%Q.
Proof.
  unfold Qltb. rewrite negb_true_iff. split.
  - intros Hb. apply Qnot_le_lt. intros Hle.
    apply Qle_bool_iff in Hle. congruence.
  - intros Hlt. destruct (Qle_bool b a) eqn:Hb; [|done].
    apply Qle_bool_iff in Hb. exfalso. by apply (Qlt_not_le a b).
Qed.

Lemma sim_xfer2_clock (s : sim) tx :
  sim_clock (sim_xfer2 s tx).2 = Qred (sim_clock s + sim_tick).
Proof.
  unfold sim_xfer2. destruct tx as [|a payload]; [done|].
  destruct (negb _); [by destruct payload|].
  by destruct (decide _), (sim_fifo s).
Qed.

Lemma sim_bracketed {B : Type} self tx (k : list Z -> M (Env := sim) B) w :
  (cs_pin self 0 ;; value ← xfer2 tx; cs_pin self 1 ;; k value) w
  = k (sim_xfer2 (env w) tx).1
      (World (sim_xfer2 (env w) tx).2
             (log w ++ transaction self tx (sim_xfer2 (env w) tx).1)).
Proof.
  destruct self as [c [pin|]];
    unfold cs_pin, set_pin, xfer2, transaction, cs_events, mbind, M_bind, mret, M_ret;
    cbn [env log _spi_cs_gpio bus_xfer2 line_set_value sim_platform];
    unfold sim_set_value; by rewrite <- ?app_assoc, ?app_nil_r.
Qed.

Lemma sim_burst_transfer_clock self (w : world) rx w' :
  burst_transfer self w = (Ret rx, w') ->
  (sim_clock (env w') == sim_clock (env w) + sim_tick)%Q.
Proof.
  unfold burst_transfer. rewrite sim_bracketed. intros [= _ <-].
  cbn [env sim_advance sim_clock]. apply Qred_correct.
Qed.

Lemma sim_read_loop_clock self register xs : forall result (w : world) out w',
  _read_loop self register xs result w = (out, w') ->
  (sim_clock (env w) <= sim_clock (env w'))%Q.
Proof.
  induction xs as [|x xs IH]; intros result w out w' Hrun.
  - injection Hrun as _ <-. apply Qle_refl.
  - cbn [_read_loop] in Hrun. rewrite sim_bracketed in Hrun.
    assert (Hstep : (sim_clock (env w)
                     <= sim_clock (sim_xfer2 (env w) [(register + x)%Z; 0%Z]).2)%Q).
    { rewrite sim_xfer2_clock.
      pose proof (Qred_correct (sim_clock (env w) + sim_tick)) as Hred.
      unfold sim_tick in *. lra. }
    unfold getitem in Hrun.
    destruct ((sim_xfer2 (env w) [register + x; 0]).1 !! 1%nat) as [v|].
    + unfold mbind at 1, M_bind at 1, mret at 1, M_ret at 1 in Hrun.
      cbn beta iota in Hrun. apply IH in Hrun. cbn [env] in Hrun.
      by apply Qle_trans with (sim_clock (sim_xfer2 (env w) [register + x; 0]).2).
    + injection Hrun as _ <-. done.
Qed.

Lemma sim_read_clock self register length (w : world) v w' :
  _read self register length w = (Ret v, w') ->
  (sim_clock (env w) <= sim_clock (env w'))%Q.
Proof.
  unfold _read, mbind, M_bind. intros Hrun.
  destruct (_read_loop self register (range length) [] w) as [[result|e|] w1] eqn:Hloop;
    try discriminate Hrun.
  apply sim_read_loop_clock in Hloop.
  destruct (length =? 1).
  - unfold getitem in Hrun. destruct (result !! 0%nat); [|discriminate Hrun].
    unfold mret, M_ret in Hrun. by injection Hrun as _ <-.
  - unfold mret, M_ret in Hrun. by injection Hrun as _ <-.
Qed.

Lemma sim_time_time (w : world (Env := sim)) :
  time_time w = (Ret (sim_clock (env w)),
                 World (env w) (log w ++ [TimeRead (sim_clock (env w))])).
Proof. done. Qed.

Section SimPolling.
Context {S V : Type}.

Variable loop : nat -> M (Env := sim) (Z * Z).
Variable sample : M (Env := sim) V.
Variable value_of : S -> V.
Variable accepts : S -> bool.
Variable deltas : S -> Z * Z.
Variables t_start timeout : Q.

Hypothesis loop_deadline : forall fuel w wa now,
  time_time w = (Ret now, wa) ->
  Qltb (now - t_start) timeout = false ->
  loop (Datatypes.S fuel) w
  = (Raise (RuntimeError "Timed out waiting for motion data."), wa).

Hypothesis loop_round : forall fuel w wa wd now s,
  time_time w = (Ret now, wa) ->
  Qltb (now - t_start) timeout = true ->
  sample wa = (Ret (value_of s), wd) ->
  loop (Datatypes.S fuel) w
  = if accepts s then (Ret (deltas s), wd)
    else (time_sleep (1 # 1000) ;; loop fuel) wd.

Hypothesis sample_run : forall w,
  exists s w',
    sample w = (Ret (value_of s), w')
    /\ (sim_clock (env w) <= sim_clock (env w'))%Q.

(** A round that goes on takes at least the millisecond it sleeps. *)
Lemma sim_polling_total fuel : forall w,
  (timeout <= sim_clock (env w) - t_start + inject_Z (Z.of_nat fuel) * (1 # 1000))%Q ->
  (loop (Datatypes.S fuel) w).1 ≠ OutOfFuel.
Proof.
  induction fuel as [|fuel IH]; intros w Hfuel.
  - rewrite (loop_deadline 0 w _ _ (sim_time_time w)); [done|].
    apply Qltb_false. change (inject_Z (Z.of_nat 0)) with 0%Q in Hfuel. lra.
  - destruct (Qltb (sim_clock (env w) - t_start) timeout) eqn:Hlt.
    + destruct (sample_run (World (env w)
                                  (log w ++ [TimeRead (sim_clock (env w))])))
        as (s & wd & Hs & Hclock).
      rewrite (loop_round _ w _ wd _ s (sim_time_time w) Hlt Hs).
      destruct (accepts s); [done|].
      unfold mbind, M_bind, time_sleep. cbn [Qltb Qle_bool negb].
      change (Qltb (1 # 1000) 0) with false. cbn iota.
      apply IH. cbn [env clock_sleep sim_platform sim_sleep sim_advance sim_clock].
      cbn [env] in Hclock.
      pose proof (Qred_correct (sim_clock (env wd) + (1 # 1000))) as Hred.
      rewrite Nat2Z.inj_succ in Hfuel. unfold Z.succ in Hfuel.
      rewrite inject_Z_plus in Hfuel. change (inject_Z 1) with 1%Q in Hfuel.
      generalize dependent (inject_Z (Z.of_nat fuel)). intros q _ Hfuel. lra.
    + by rewrite (loop_deadline _ w _ _ (sim_time_time w) Hlt).
Qed.

End SimPolling.

(** The burst read on the simulated chip needs no more fuel than the
    milliseconds of its timeout, and one. *)
Lemma sim_get_motion_total self (timeout : Q) (fuel : nat) (w : world (Env := sim)) :
  (timeout <= inject_Z (Z.of_nat fuel) * (1 # 1000))%Q ->
  (get_motion (S fuel) self timeout w).1 ≠ OutOfFuel.
Proof.
  intros Hfuel. unfold get_motion.
  rewrite (bind_ret _ _ _ _ _ (sim_time_time w)).
  apply (sim_polling_total
           (fun fuel => get_motion_loop fuel self (sim_clock (env w)) timeout)
           (burst_transfer self) (fun rx => rx) burst_accepts burst_deltas
           (sim_clock (env w)) timeout
           (fun fuel => get_motion_loop_deadline fuel self _ timeout)
           (fun fuel w wa wd now rx =>
              get_motion_loop_round fuel self _ timeout w wa wd now rx)).
  - intros w0. destruct (burst_transfer_run self w0) as (rx & w' & Hrun & _).
    exists rx, w'. split; [done|].
    pose proof (sim_burst_transfer_clock self w0 rx w' Hrun) as Hclock.
    unfold sim_tick in Hclock. lra.
  - cbn [env]. generalize dependent (inject_Z (Z.of_nat fuel)). intros q Hfuel. lra.
Qed.

(** And so does the slow read. *)
Lemma sim_get_motion_slow_total self (timeout : Q) (fuel : nat)
    (w : world (Env := sim)) :
  (timeout <= inject_Z (Z.of_nat fuel) * (1 # 1000))%Q ->
  (get_motion_slow (S fuel) self timeout w).1 ≠ OutOfFuel.
Proof.
  intros Hfuel. unfold get_motion_slow.
  rewrite (bind_ret _ _ _ _ _ (sim_time_time w)).
  apply (sim_polling_total
           (fun fuel => get_motion_slow_loop fuel self (sim_clock (env w)) timeout)
           (_read self REG_DATA_READY 5)
           (fun rs : list (Z * Z) => PyList rs.*2)
           (fun rs : list (Z * Z) => slow_accepts rs.*2)
           (fun rs : list (Z * Z) => slow_deltas rs.*2)
           (sim_clock (env w)) timeout
           (fun fuel => get_motion_slow_loop_deadline fuel self _ timeout)
           (fun fuel w wa wd now rs =>
              get_motion_slow_loop_round fuel self _ timeout w wa wd now rs)).
  - intros w0. destruct (slow_sample_run self w0) as (rs & w' & Hrun & _).
    exists rs, w'. split; [done|]. by apply sim_read_clock in Hrun.
  - cbn [env]. generalize dependent (inject_Z (Z.of_nat fuel)). intros q Hfuel. lra.
Qed.

(** C3: in a round of the burst read that starts before the deadline, the
    thirteen bytes received are parsed as pad, status, observation, deltaX
    (2 bytes), deltaY (2 bytes), quality, raw sum, raw max, raw min,
    shutter upper, shutter lower, and the round returns the deltas exactly
    when bit 7 of the status byte is set and not (quality < 0x19 and
    shutterUpper = 0x1F); otherwise it sleeps and polls again.  So a sample
    with dataReady set, quality 0x18 and shutterUpper 0x1F is rejected, one
    with quality 0x19 is accepted, and one with dataReady clear is rejected
    whatever its other fields. *)
Theorem C3_burst_validity (Env : Type) (P : Platform Env) fuel self
    (t_start timeout : Q) (w wa wd : world) (now : Q) (rx : list Z) :
  time_time w = (Ret now, wa) ->
  Qltb (now - t_start) timeout = true ->
  burst_transfer self wa = (Ret rx, wd) ->
  exists pad dr obs xl xh yl yh quality raw_sum raw_max raw_min
         shutter_upper shutter_lower,
    rx = [pad; dr; obs; xl; xh; yl; yh; quality; raw_sum; raw_max; raw_min;
          shutter_upper; shutter_lower]
    /\ get_motion_loop (S fuel) self t_start timeout w
       = (if Z.testbit dr 7
             && negb (bool_decide (quality < 0x19)
                      && bool_decide (shutter_upper = 0x1F))
          then (Ret (spec_int16 xl xh, spec_int16 yl yh), wd)
          else (time_sleep (1 # 1000) ;;
                get_motion_loop fuel self t_start timeout) wd)
    /\ (Z.testbit dr 7 = true -> quality = 0x18 -> shutter_upper = 0x1F ->
        get_motion_loop (S fuel) self t_start timeout w
        = (time_sleep (1 # 1000) ;; get_motion_loop fuel self t_start timeout) wd)
    /\ (Z.testbit dr 7 = true -> quality = 0x19 -> shutter_upper = 0x1F ->
        get_motion_loop (S fuel) self t_start timeout w
        = (Ret (spec_int16 xl xh, spec_int16 yl yh), wd))
    /\ (Z.testbit dr 7 = false ->
        get_motion_loop (S fuel) self t_start timeout w
        = (time_sleep (1 # 1000) ;; get_motion_loop fuel self t_start timeout) wd).
Proof.
  intros Ht Hlt Hx.
  pose proof (get_motion_loop_round fuel self t_start timeout w wa wd now rx
                Ht Hlt Hx) as Hround.
  destruct (burst_transfer_run self wa) as (rx' & wd' & Hx' & _ & Hlen & _).
  rewrite Hx in Hx'. injection Hx' as <- <-.
  do 14 (destruct rx as [|? rx]; try discriminate Hlen).
  eexists _, _, _, _, _, _, _, _, _, _, _, _, _. split; [reflexivity|].
  cbn [burst_accepts burst_deltas] in Hround. unfold spec_sample_valid in Hround.
  split; [exact Hround|]. rewrite Hround.
  split; [|split].
  - by intros -> -> ->.
  - by intros -> -> ->.
  - by intros ->.
Qed.

Lemma C3_burst_validity_witness :
  let self := Sensor PMW3901 None in
  let w : world :=
    World (sim_chip [(0x16, 0x80); (0x18, 0xFE); (0x19, 0xFF); (0x1A, 0x05);
                     (0x1C, 0x19); (0x20, 0x1F)] []) [] in
  let wa := (time_time w).2 in
  let wd := (burst_transfer self wa).2 in
  get_motion_loop 1 self 0 5 w = (Ret (-2, 5), wd).
Proof.
  intros self w wa wd.
  destruct (C3_burst_validity sim sim_platform 0 self 0 5 w wa wd 0
              [0; 0x80; 0; 0xFE; 0xFF; 0x05; 0; 0x19; 0; 0; 0; 0x1F; 0]
              ltac:(vm_compute; reflexivity) ltac:(vm_compute; reflexivity)
              ltac:(vm_compute; reflexivity))
    as (pad & dr & obs & xl & xh & yl & yh & quality & raw_sum & raw_max
        & raw_min & shutter_upper & shutter_lower & Hrx & Hloop & _).
  injection Hrx as <- <- <- <- <- <- <- <- <- <- <- <- <-.
  exact Hloop.
Defined.

(** C9: every run of either motion read goes through rounds that each
    start before the deadline, take a whole sample (the thirteen bytes of
    one burst transaction; the five bytes of five transactions at registers
    0x02 to 0x06, one each) and see it rejected, and ends in one of three
    ways: a round before the deadline whose whole sample passes the test of
    that read, the deltas of that first passing sample being returned,
    decoded as little-endian two's complement 16-bit integers; a clock read
    that finds the deadline reached, and then the timeout error is raised;
    or the fuel of the model running out.  The timeout error is raised if
    and only if some clock read of the loop found the deadline reached, which
    happens only while no sample has passed.  The slow read accepts a sample
    exactly when bit 7 of its data-ready byte is set: a round of its loop
    that starts before the deadline and reads the five bytes dr, xl, xh, yl,
    yh returns the two decoded deltas if bit 7 of dr is set, and sleeps a
    millisecond and goes on if it is not.  On the simulated chip, where every
    round takes time, the fuel does not run out once it exceeds the
    milliseconds of the timeout: the read then returns or raises. *)
Theorem C9_motion_reads (Env : Type) (P : Platform Env) fuel self
    (timeout : Q) (w : world) :
  (exists t_start out w' evs,
      get_motion fuel self timeout w = (out, w')
      /\ log w' = log w ++ TimeRead t_start :: evs
      /\ polling_shape (burst_round self)
                       (fun rx => length rx = 13%nat
                                  /\ Forall (fun b => 0 <= b < 256) rx)
                       burst_accepts burst_deltas
                       fuel t_start timeout out evs
      /\ (out = Raise (RuntimeError "Timed out waiting for motion data.")
          <-> Exists (fun now => Qltb (now - t_start) timeout = false)
                     (clock_reads evs)))
  /\ (exists t_start out w' evs,
        get_motion_slow fuel self timeout w = (out, w')
        /\ log w' = log w ++ TimeRead t_start :: evs
        /\ polling_shape (slow_round self)
                         (fun rs : list (Z * Z) =>
                            length rs = 5%nat
                            /\ Forall (fun r => 0 <= r.2 < 256) rs)
                         (fun rs : list (Z * Z) => slow_accepts rs.*2)
                         (fun rs : list (Z * Z) => slow_deltas rs.*2)
                         fuel t_start timeout out evs
        /\ (out = Raise (RuntimeError "Timed out waiting for motion data.")
            <-> Exists (fun now => Qltb (now - t_start) timeout = false)
                       (clock_reads evs)))
  /\ (forall dr xl xh yl yh,
        slow_accepts [dr; xl; xh; yl; yh] = Z.testbit dr 7
        /\ slow_deltas [dr; xl; xh; yl; yh] = (spec_int16 xl xh, spec_int16 yl yh))
  /\ (forall pad dr obs xl xh yl yh q rs rmax rmin su sl,
        burst_deltas [pad; dr; obs; xl; xh; yl; yh; q; rs; rmax; rmin; su; sl]
        = (spec_int16 xl xh, spec_int16 yl yh))
  /\ (forall lo hi, 0 <= lo < 256 -> 0 <= hi < 256 ->
        -32768 <= spec_int16 lo hi < 32768
        /\ (spec_int16 lo hi) `mod` 65536 = lo + 256 * hi)
  /\ (forall n (ws : world (Env := sim)),
        (timeout <= inject_Z (Z.of_nat n) * (1 # 1000))%Q ->
        (get_motion (S n) self timeout ws).1 ≠ OutOfFuel
        /\ (get_motion_slow (S n) self timeout ws).1 ≠ OutOfFuel)
  /\ (forall t_start now (w0 wa wd : world (Env := Env)) dr xl xh yl yh,
        time_time w0 = (Ret now, wa) ->
        Qltb (now - t_start) timeout = true ->
        _read self REG_DATA_READY 5 wa = (Ret (PyList [dr; xl; xh; yl; yh]), wd) ->
        get_motion_slow_loop (S fuel) self t_start timeout w0
        = if Z.testbit dr 7 then (Ret (spec_int16 xl xh, spec_int16 yl yh), wd)
          else (time_sleep (1 # 1000) ;;
                get_motion_slow_loop fuel self t_start timeout) wd).
Proof.
  split; [apply get_motion_shape|]. split; [apply get_motion_slow_shape|].
  split; [done|]. split; [done|]. split; [|split].
  - intros lo hi Hlo Hhi. split; [by apply spec_int16_range|].
    unfold spec_int16. cbv zeta. case_decide.
    + apply Z.mod_small. lia.
    + replace (lo + 256 * hi - 65536) with (lo + 256 * hi + (-1) * 65536) by lia.
      rewrite Z.mod_add by lia. apply Z.mod_small. lia.
  - intros n ws Hfuel.
    split; [by apply sim_get_motion_total|by apply sim_get_motion_slow_total].
  - intros t_start now w0 wa wd dr xl xh yl yh Ht Hlt Hread.
    exact (get_motion_slow_loop_round fuel self t_start timeout w0 wa wd now
             [(0, dr); (0, xl); (0, xh); (0, yl); (0, yh)] Ht Hlt Hread).
Qed.

Lemma C9_motion_reads_witness :
  let w0 : world :=
    World (sim_chip [(0x02, 0x80); (0x03, 0xFE); (0x04, 0xFF); (0x05, 0x05)] [])
          [] in
  let wa := (time_time w0).2 in
  let wd := (_read (Sensor PMW3901 None) REG_DATA_READY 5 wa).2 in
  (-32768 <= spec_int16 0xFE 0xFF < 32768
   /\ (spec_int16 0xFE 0xFF) `mod` 65536 = 0xFE + 256 * 0xFF)
  /\ ((get_motion 4 (Sensor PMW3901 None) (3 # 1000)
         (World (sim_chip [] []) [])).1 ≠ OutOfFuel
      /\ (get_motion_slow 4 (Sensor PMW3901 None) (3 # 1000)
            (World (sim_chip [] []) [])).1 ≠ OutOfFuel)
  /\ get_motion_slow_loop 1 (Sensor PMW3901 None) 0 (3 # 1000) w0
     = (Ret (spec_int16 0xFE 0xFF, spec_int16 0x05 0x00), wd).
Proof.
  intros w0 wa wd.
  pose proof (C9_motion_reads sim sim_platform 0 (Sensor PMW3901 None) (3 # 1000)
                (World (sim_chip [] []) []))
    as (_ & _ & _ & _ & Hint & Htotal & Hround).
  split; [|split].
  - exact (Hint 0xFE 0xFF ltac:(lia) ltac:(lia)).
  - exact (Htotal 3%nat (World (sim_chip [] []) [])
             ltac:(vm_compute; discriminate)).
  - exact (Hround 0%Q 0%Q w0 wa wd 0x80 0xFE 0xFF 0x05 0x00
             eq_refl eq_refl ltac:(vm_compute; reflexivity)).
Defined.

(** The reads do return on the simulated chip: a burst read and a slow
    read whose first sample is valid, a burst read that meets two samples
    of low quality before a good one, and reads that time out. *)
Example get_motion_first_sample :
  (get_motion 1 (Sensor PMW3901 None) 5
     (World (sim_chip [(0x16, 0x80); (0x18, 0xFE); (0x19, 0xFF); (0x1A, 0x05);
                       (0x1C, 0x19); (0x20, 0x1F)] []) [])).1
  = Ret (-2, 5).
Proof. by vm_compute. Qed.

Example get_motion_slow_first_sample :
  (get_motion_slow 1 (Sensor PMW3901 (Some 7)) 5
     (World (sim_chip [(0x02, 0x80); (0x03, 0x00); (0x04, 0x80); (0x05, 0xFF);
                       (0x06, 0x7F)] []) [])).1
  = Ret (-32768, 32767).
Proof. by vm_compute. Qed.

Example get_motion_times_out :
  (get_motion 10 (Sensor PMW3901 None) (3 # 1000)
     (World (sim_chip [(0x16, 0x80); (0x1C, 0x18); (0x20, 0x1F)] []) [])).1
  = Raise (RuntimeError "Timed out waiting for motion data.").
Proof. by vm_compute. Qed.

Example get_motion_slow_times_out :
  (get_motion_slow 10 (Sensor PAA5100 None) (3 # 1000)
     (World (sim_chip [(0x02, 0x7F)] []) [])).1
  = Raise (RuntimeError "Timed out waiting for motion data.").
Proof. by vm_compute. Qed.

(** ** Frame capture *)

Lemma fragment_conditions (data : Z) :
  0 <= data < 256 ->
  (Z.land data 0xC0 =? 0x40) = is_upper_fragment data
  /\ (Z.land data 0xC0 =? 0x80) = is_lower_fragment data.
Proof.
  intros Hd.
  pose (P := fun d => Bool.eqb (Z.land d 0xC0 =? 0x40) (is_upper_fragment d)
                      && Bool.eqb (Z.land d 0xC0 =? 0x80) (is_lower_fragment d)).
  assert (HP : P data = true) by (apply (forallb_range P 256); [by vm_compute|lia]).
  apply andb_prop in HP as [H1 H2]. split; by apply Bool.eqb_prop.
Qed.

Lemma fragment_exclusive (data : Z) :
  is_upper_fragment data = true -> is_lower_fragment data = false.
Proof.
  unfold is_upper_fragment, is_lower_fragment.
  by destruct (Z.testbit data 7), (Z.testbit data 6).
Qed.

Lemma frame_step_length st data : length (frame_step st data).1 = length st.1.
Proof.
  unfold frame_step. cbn [fst]. destruct (st.1 !! st.2); [apply length_insert|done].
Qed.

Lemma frame_step_index st data :
  (frame_step st data).2 = if is_lower_fragment data then S st.2 else st.2.
Proof. done. Qed.

(** The index after a run of bytes: the lower fragments among them, counted. *)
Lemma frame_fold_index bs : forall st,
  (fold_left frame_step bs st).2
  = (st.2 + length (List.filter is_lower_fragment bs))%nat.
Proof.
  induction bs as [|b bs IH]; intros st; cbn [fold_left List.filter].
  - cbn [length]. lia.
  - rewrite IH, frame_step_index. destruct (is_lower_fragment b); cbn [length]; lia.
Qed.

Lemma frame_fold_length bs : forall st,
  length (fold_left frame_step bs st).1 = length st.1.
Proof.
  induction bs as [|b bs IH]; intros st; cbn [fold_left]; [done|].
  by rewrite IH, frame_step_length.
Qed.

Section FrameFacts.
Context {Env : Type} `{Platform Env}.

Local Abbreviation world := (world (Env := Env)).

(** What [grab_fragment] does with a byte, the index being in range. *)
Lemma grab_fragment_run data raw_data x (w : world) :
  0 <= data < 256 -> (x < length raw_data)%nat ->
  grab_fragment data raw_data x w = (Ret (frame_step (raw_data, x) data), w).
Proof.
  intros Hd Hx.
  destruct (lookup_lt_is_Some_2 raw_data x Hx) as [r Hr].
  destruct (fragment_conditions data Hd) as [Hup Hlo].
  unfold grab_fragment, frame_step, pixel_after, update_item, getitem.
  rewrite Hup, Hlo. cbn [fst snd]. rewrite Hr.
  destruct (is_upper_fragment data) eqn:Hu.
  - rewrite (fragment_exclusive data Hu).
    unfold mbind, M_bind, mret, M_ret. cbn beta iota.
    rewrite list_lookup_insert_eq by done. cbn beta iota.
    by rewrite list_insert_insert_eq.
  - destruct (is_lower_fragment data).
    + unfold mbind, M_bind, mret, M_ret. cbn beta iota.
      rewrite Hr. cbn beta iota.
      rewrite list_lookup_insert_eq by done. cbn beta iota.
      by rewrite list_insert_insert_eq.
    + unfold mbind, M_bind, mret, M_ret. cbn beta iota.
      by rewrite list_insert_id.
Qed.

(** The shape of every run of the streaming loop. *)
Lemma grab_loop_shape self t_start timeout fuel : forall raw_data x (w : world),
  length raw_data = RAW_DATA_LEN -> (x < RAW_DATA_LEN)%nat ->
  exists out w' evs,
    grab_loop fuel self t_start timeout raw_data x w = (out, w')
    /\ log w' = log w ++ evs
    /\ stream_shape self fuel t_start timeout raw_data x out evs.
Proof.
  induction fuel as [|fuel IH]; intros raw_data x w Hlen Hx.
  - exists OutOfFuel, w, []. split; [done|]. split; [by rewrite app_nil_r|].
    exists []. cbn. by repeat split.
  - destruct (read_int_total self REG_RAWDATA_GRAB w)
      as (r0 & data & w1 & Hread & Hlog1 & Hdata).
    cbn [grab_loop]. rewrite (bind_ret _ _ _ _ _ Hread).
    assert (Hfrag := grab_fragment_run data raw_data x w1 Hdata
                       ltac:(by rewrite Hlen)).
    rewrite (bind_ret _ _ _ _ _ Hfrag).
    assert (Hlen1 := frame_step_length (raw_data, x) data).
    assert (Hx1 := frame_step_index (raw_data, x) data).
    destruct (frame_step (raw_data, x) data) as [raw1 x1] eqn:Hst.
    cbn [fst snd] in Hlen1, Hx1.
    destruct (Nat.eqb_spec x1 RAW_DATA_LEN) as [Heq|Hne].
    + exists (Ret raw1), w1, (transaction self [REG_RAWDATA_GRAB; 0] [r0; data]).
      split; [done|]. split; [done|].
      exists []. cbn [fmap list_fmap fold_left mbind list_bind app].
      split; [done|]. split; [done|].
      exists r0, data. by rewrite Hst, Heq.
    + assert (Hx1' : (x1 < RAW_DATA_LEN)%nat)
        by (destruct (is_lower_fragment data); lia).
      destruct (time_time_run w1) as (now & w2 & Ht & Hlog2).
      rewrite (bind_ret _ _ _ _ _ Ht).
      destruct (Qltb timeout (now - t_start)) eqn:Hlt.
      * exists (Raise (RuntimeError ("Raw data capture timeout, got "
                                      +:+ pretty x1 +:+ " values"))), w2,
          (grab_turn self (r0, data, now)).
        split; [done|].
        split; [unfold grab_turn; by rewrite Hlog2, Hlog1, <- app_assoc|].
        exists []. cbn [fmap list_fmap fold_left mbind list_bind app].
        split; [done|]. split; [done|].
        exists r0, data, now. by rewrite Hst.
      * destruct (IH raw1 x1 w2 ltac:(by rewrite Hlen1) Hx1')
          as (out & w' & evs & Hrun & Hlog & turns & Hturns & Hidx & Hout).
        exists out, w', (grab_turn self (r0, data, now) ++ evs).
        split; [done|].
        split; [unfold grab_turn; by rewrite Hlog, Hlog2, Hlog1, <- !app_assoc|].
        exists ((r0, data, now) :: turns).
        cbn [fmap list_fmap fold_left mbind list_bind fst snd]. rewrite Hst.
        split; [by constructor|]. split; [done|].
        destruct out as [frame|e|].
        -- destruct Hout as (r0' & data' & ? & ? & ->).
           exists r0', data'. by rewrite <- app_assoc.
        -- destruct Hout as (r0' & data' & now' & ? & ? & ? & ? & ->).
           exists r0', data', now'. by rewrite <- app_assoc.
        -- destruct Hout as (<- & ->). done.
Qed.

(** The shape of every run of the streaming part of [frame_capture]. *)
Lemma frame_capture_stream_shape fuel self timeout (w : world) :
  exists t_start out w' evs,
    frame_capture_stream fuel self timeout w = (out, w')
    /\ log w' = log w ++ TimeRead t_start :: evs
    /\ stream_shape self fuel t_start timeout (replicate RAW_DATA_LEN 0) 0 out evs.
Proof.
  destruct (time_time_run w) as (t_start & w0 & Ht & Hlog0).
  destruct (grab_loop_shape self t_start timeout fuel (replicate RAW_DATA_LEN 0)
              0%nat w0 (length_replicate _ _) ltac:(unfold RAW_DATA_LEN; lia))
    as (out & w' & evs & Hrun & Hlog & Hshape).
  exists t_start, out, w', evs. split; [|split; [|done]].
  - unfold frame_capture_stream. by rewrite (bind_ret _ _ _ _ _ Ht).
  - by rewrite Hlog, Hlog0, <- app_assoc.
Qed.

End FrameFacts.

(** ** Frame capture: the claims *)

Lemma fragment_pair_values (r : Z) :
  0 <= r < 256 ->
  pixel_after 0x83 (pixel_after 0x7F r) = Z.lor (Z.shiftl 0x3F 2) 0
  /\ pixel_after 0x8C (pixel_after 0x7F r) = Z.lor (Z.shiftl 0x3F 2) 3.
Proof.
  intros Hr.
  pose (P := fun r => (pixel_after 0x83 (pixel_after 0x7F r) =? 0xFC)
                      && (pixel_after 0x8C (pixel_after 0x7F r) =? 0xFF)).
  assert (HP : P r = true) by (apply (forallb_range P 256); [by vm_compute|lia]).
  apply andb_prop in HP as [H1 H2]. split; by apply Z.eqb_eq.
Qed.

(** C4, as stated, fails: the lower fragment 0b10000011 has its bits 3:2
    clear, and those are the two bits the code takes, so the pixel comes out
    as 0xFC, not 0xFF.  Shown on the two calls of [grab_fragment] and on a
    whole capture whose first pixel is sent as that pair. *)
Lemma C4_fragment_pair_counterexample :
  (grab_fragment 0x7F [0] 0 ≫= (fun '(raw, x) => grab_fragment 0x83 raw x))
    (World (sim_chip [] []) [])
  = (Ret ([0xFC], 1%nat), World (sim_chip [] []) [])
  /\ 0xFC <> Z.lor (Z.shiftl 0x3F 2) 3
  /\ (frame_capture 2450 (Sensor PMW3901 None) 10
        (World (sim_chip [(REG_RAWDATA_GRAB_STATUS, 0xC0)]
                         ([0x7F; 0x83] ++ mjoin (replicate 1224 [0x7F; 0x8C])))
               [])).1
     = Ret (0xFC :: replicate 1224 0xFF).
Proof. split; [by vm_compute|]. split; [by vm_compute|]. by vm_compute. Qed.

(** C4, amended: receiving 0b01111111 (upper fragment) and then 0b10000011
    (lower fragment) for the same pixel index yields the pixel value
    (0x3F<<2)|0b00, i.e. 0xFC, and moves on to the next index: the two low
    bits of a pixel are bits 3:2 of the lower fragment.  The pair
    0b01111111, 0b10001100 is the one that yields (0x3F<<2)|0b11 = 0xFF. *)
Theorem C4_fragment_pair (Env : Type) (P : Platform Env)
    (raw_data : list Z) (x : nat) (r : Z) (w : world) :
  raw_data !! x = Some r -> 0 <= r < 256 ->
  (grab_fragment (Env := Env) 0x7F raw_data x
     ≫= (fun '(raw, x') => grab_fragment 0x83 raw x')) w
  = (Ret (<[x := Z.lor (Z.shiftl 0x3F 2) 0]> raw_data, S x), w)
  /\ (grab_fragment (Env := Env) 0x7F raw_data x
        ≫= (fun '(raw, x') => grab_fragment 0x8C raw x')) w
     = (Ret (<[x := Z.lor (Z.shiftl 0x3F 2) 3]> raw_data, S x), w)
  /\ Z.lor (Z.shiftl 0x3F 2) 0 = 0xFC
  /\ Z.lor (Z.shiftl 0x3F 2) 3 = 0xFF.
Proof.
  intros Hr Hbyte.
  assert (Hx : (x < length raw_data)%nat) by (apply lookup_lt_is_Some; eauto).
  destruct (fragment_pair_values r Hbyte) as [H83 H8C].
  assert (Hup : grab_fragment 0x7F raw_data x w
                = (Ret (<[x := pixel_after 0x7F r]> raw_data, x), w)).
  { rewrite grab_fragment_run by (done || lia).
    unfold frame_step. cbn [fst snd]. by rewrite Hr. }
  assert (Hlo : forall l, 0 <= l < 256 -> is_lower_fragment l = true ->
            grab_fragment l (<[x := pixel_after 0x7F r]> raw_data) x w
            = (Ret (<[x := pixel_after l (pixel_after 0x7F r)]> raw_data, S x), w)).
  { intros l Hl Hlow. rewrite grab_fragment_run by (by rewrite ?length_insert).
    unfold frame_step. cbn [fst snd].
    by rewrite list_lookup_insert_eq, list_insert_insert_eq, Hlow. }
  split; [|split; [|by split]].
  - rewrite (bind_ret _ _ _ _ _ Hup). cbn beta iota.
    by rewrite Hlo, H83.
  - rewrite (bind_ret _ _ _ _ _ Hup). cbn beta iota.
    by rewrite Hlo, H8C.
Qed.

Lemma C4_fragment_pair_witness :
  (grab_fragment 0x7F [0; 0] 1 ≫= (fun '(raw, x') => grab_fragment 0x83 raw x'))
    (World (sim_chip [] []) [])
  = (Ret ([0; 0xFC], 2%nat), World (sim_chip [] []) []).
Proof.
  exact (proj1 (C4_fragment_pair sim sim_platform [0; 0] 1 0
                  (World (sim_chip [] []) []) eq_refl ltac:(lia))).
Defined.

(** The streaming loop on the simulated chip: every turn takes the time of
    its transaction, so the clock passes any timeout. *)
Lemma sim_grab_loop_total self (t_start timeout : Q) fuel :
  forall raw_data x (w : world (Env := sim)),
    length raw_data = RAW_DATA_LEN -> (x < RAW_DATA_LEN)%nat ->
    (timeout < sim_clock (env w) - t_start
               + inject_Z (Z.of_nat (S fuel)) * sim_tick)%Q ->
    (grab_loop (S fuel) self t_start timeout raw_data x w).1 ≠ OutOfFuel.
Proof.
  induction fuel as [|fuel IH]; intros raw_data x w Hlen Hx Hfuel.
  all: destruct (read_int_total self REG_RAWDATA_GRAB w)
         as (r0 & data & w1 & Hri & _ & Hdata).
  all: pose proof (sim_read_one_world self w REG_RAWDATA_GRAB) as Hread;
    cbv zeta in Hread.
  all: pose proof Hri as Hw1;
    rewrite (read_int_run _ _ _ _ _ Hread) in Hw1;
    apply (f_equal snd) in Hw1; cbn [snd] in Hw1.
  all: assert (Hclock : (sim_clock (env w1) == sim_clock (env w) + sim_tick)%Q)
         by (rewrite <- Hw1; cbn [env]; rewrite sim_xfer2_clock; apply Qred_correct).
  all: cbn [grab_loop]; rewrite (bind_ret _ _ _ _ _ Hri).
  all: rewrite (bind_ret _ _ _ _ _
                  (grab_fragment_run data raw_data x w1 Hdata ltac:(by rewrite Hlen))).
  all: pose proof (frame_step_length (raw_data, x) data) as Hlen1;
    pose proof (frame_step_index (raw_data, x) data) as Hx1.
  all: destruct (frame_step (raw_data, x) data) as [raw1 x1]; cbn [fst snd] in Hlen1, Hx1.
  all: destruct (Nat.eqb_spec x1 RAW_DATA_LEN) as [Heq|Hne]; [done|].
  all: rewrite (bind_ret _ _ _ _ _ (sim_time_time w1)).
  all: destruct (Qltb timeout (sim_clock (env w1) - t_start)) eqn:Hlt; [done|].
  all: apply Qltb_false in Hlt.
  - exfalso. change (inject_Z (Z.of_nat 1)) with 1%Q in Hfuel.
    unfold sim_tick in *. lra.
  - apply IH; [by rewrite Hlen1|destruct (is_lower_fragment data); lia|].
    cbn [env].
    rewrite Nat2Z.inj_succ in Hfuel. unfold Z.succ in Hfuel.
    rewrite inject_Z_plus in Hfuel. change (inject_Z 1) with 1%Q in Hfuel.
    generalize dependent (inject_Z (Z.of_nat (S fuel))). intros q Hfuel.
    unfold sim_tick in *. lra.
Qed.

Lemma sim_frame_capture_stream_total self (timeout : Q) (fuel : nat)
    (w : world (Env := sim)) :
  (timeout < inject_Z (Z.of_nat (S fuel)) * sim_tick)%Q ->
  (frame_capture_stream (S fuel) self timeout w).1 ≠ OutOfFuel.
Proof.
  intros Hfuel. unfold frame_capture_stream.
  rewrite (bind_ret _ _ _ _ _ (sim_time_time w)).
  apply sim_grab_loop_total; [apply length_replicate|unfold RAW_DATA_LEN; lia|].
  cbn [env]. generalize dependent (inject_Z (Z.of_nat (S fuel))). intros q Hfuel.
  lra.
Qed.

(** C5: while the stream is read, [grab_fragment] moves the pixel index
    forward by one exactly on a byte whose top two bits are 10, and leaves it
    where it is on an upper fragment and on any other byte, so that after any
    run of bytes the index is the number of lower fragments among them.
    Every run of the streaming loop goes through turns that leave the index
    below 1225 and the clock within the timeout, and ends either on the byte
    that takes the index to 1225, returning the frame, which has 1225
    elements; or on a clock read past the timeout with the index still below
    1225, raising the error that reports that index; or with the fuel of the
    model spent.  On the simulated chip, where every turn takes time, the fuel
    is not spent once it covers the timeout: the capture then returns the
    frame or raises. *)
Theorem C5_frame_stream (Env : Type) (P : Platform Env) fuel self
    (timeout : Q) (w : world) :
  (exists t_start out w' evs,
      frame_capture_stream fuel self timeout w = (out, w')
      /\ log w' = log w ++ TimeRead t_start :: evs
      /\ stream_shape self fuel t_start timeout (replicate RAW_DATA_LEN 0) 0
                      out evs
      /\ (forall frame, out = Ret frame -> length frame = 1225%nat))
  /\ (forall data raw_data x (w0 : world (Env := Env)),
        0 <= data < 256 -> (x < length raw_data)%nat ->
        exists raw',
          grab_fragment data raw_data x w0
          = (Ret (raw', if is_lower_fragment data then S x else x), w0)
          /\ length raw' = length raw_data)
  /\ (forall data, is_upper_fragment data = true -> is_lower_fragment data = false)
  /\ (forall bs st,
        (fold_left frame_step bs st).2
        = (st.2 + length (List.filter is_lower_fragment bs))%nat)
  /\ (forall w0 : world (Env := Env),
        frame_capture fuel self timeout w0
        = (frame_capture_init fuel self timeout ;;
           frame_capture_stream fuel self timeout) w0)
  /\ (forall n (ws : world (Env := sim)),
        (timeout < inject_Z (Z.of_nat (S n)) * sim_tick)%Q ->
        (frame_capture_stream (S n) self timeout ws).1 ≠ OutOfFuel).
Proof.
  split; [|split; [|split; [|split; [|split]]]];
    [| | | | |by apply sim_frame_capture_stream_total].
  - destruct (frame_capture_stream_shape fuel self timeout w)
      as (t_start & out & w' & evs & Hrun & Hlog & Hshape).
    exists t_start, out, w', evs. split; [done|]. split; [done|]. split; [done|].
    intros frame ->. destruct Hshape as (turns & _ & _ & r0 & data & _ & Hst & _).
    pose proof (frame_step_length
                  (fold_left frame_step ((fun t => t.1.2) <$> turns)
                             (replicate RAW_DATA_LEN 0, 0%nat)) data) as Hlen.
    rewrite Hst, frame_fold_length in Hlen. cbn [fst] in Hlen.
    by rewrite Hlen, length_replicate.
  - intros data raw_data x w0 Hd Hx. eexists. split.
    + by rewrite grab_fragment_run.
    + apply (frame_step_length (raw_data, x) data).
  - apply fragment_exclusive.
  - intros bs st. apply frame_fold_index.
  - done.
Qed.

Lemma C5_frame_stream_witness :
  (exists raw',
      grab_fragment 0x83 [0; 0] 0 (World (sim_chip [] []) [])
      = (Ret (raw', 1%nat), World (sim_chip [] []) [])
      /\ length raw' = 2%nat)
  /\ (frame_capture_stream 21 (Sensor PMW3901 None) (1 # 1000)
        (World (sim_chip [] []) [])).1 ≠ OutOfFuel.
Proof.
  pose proof (C5_frame_stream sim sim_platform 0 (Sensor PMW3901 None) (1 # 1000)
                (World (sim_chip [] []) [])) as (_ & Hstep & _ & _ & _ & Htotal).
  split.
  - exact (Hstep 0x83 [0; 0] 0%nat (World (sim_chip [] []) []) ltac:(lia)
             ltac:(simpl; lia)).
  - exact (Htotal 20%nat (World (sim_chip [] []) [])
             ltac:(vm_compute; reflexivity)).
Defined.

(** A capture that times out on the simulated chip reports how far it got:
    two pixels were complete when the stream dried up. *)
Example frame_capture_times_out :
  (frame_capture 100 (Sensor PAA5100 (Some 7)) (1 # 1000)
     (World (sim_chip [(REG_RAWDATA_GRAB_STATUS, 0x40)]
                      [0x7F; 0x83; 0x41; 0x00; 0x8C])
            [])).1
  = Raise (RuntimeError "Raw data capture timeout, got 2 values").
Proof. by vm_compute. Qed.

(** ** Bring-up *)

Section BringUpFacts.
Context {Env : Type} `{Platform Env}.

Local Abbreviation M := (M (Env := Env)).
Local Abbreviation world := (world (Env := Env)).

Lemma bind_emit {B : Type} ev (k : M B) (w : world) :
  (emit ev ;; k) w = k (World (env w) (log w ++ [ev])).
Proof. done. Qed.

Lemma set_pin_run pin state (w : world) :
  exists w', set_pin pin state w = (Ret tt, w').
Proof. by eexists. Qed.

(** The five reads that flush the chip after the reset. *)
Lemma flush_run self (offsets : list Z) : forall w : world,
  exists w',
    for_each offsets (fun offset => _read self (REG_DATA_READY + offset) 1 ;; mret tt) w
    = (Ret tt, w').
Proof.
  induction offsets as [|offset offsets IH]; intros w; [by exists w|].
  destruct (_read_one_run self (REG_DATA_READY + offset) w) as (? & ? & w1 & Hr & _).
  destruct (IH w1) as (w' & Hrest).
  exists w'. cbn [for_each].
  rewrite (bind_assoc _ _ _ w), (bind_ret _ _ _ _ _ Hr). exact Hrest.
Qed.

(** Reset, flush and calibration always run to their end, whatever the
    chip answers. *)
Lemma bring_up_total c spi_port spi_cs spi_cs_gpio (w : world) :
  exists w', bring_up c spi_port spi_cs spi_cs_gpio w = (Ret (Sensor c spi_cs_gpio), w').
Proof.
  unfold bring_up.
  assert (Hrest : forall (self : sensor) (w0 : world),
            exists w',
              (_write self REG_POWER_UP_RESET 0x5A ;;
               time_sleep (2 # 100) ;;
               for_each (range 5)
                 (fun offset => _read self (REG_DATA_READY + offset) 1 ;; mret tt) ;;
               _secret_sauce self ;;
               mret self) w0 = (Ret self, w')).
  { intros self w0.
    destruct (_write_run self REG_POWER_UP_RESET 0x5A w0) as (? & w1 & H1 & _).
    destruct (time_sleep_run (2 # 100) w1 eq_refl) as (w2 & H2 & _).
    destruct (flush_run self (range 5) w2) as (w3 & H3).
    destruct (_secret_sauce_total self w3) as (w4 & H4).
    exists w4.
    by rewrite (bind_ret _ _ _ _ _ H1), (bind_ret _ _ _ _ _ H2),
      (bind_ret _ _ _ _ _ H3), (bind_ret _ _ _ _ _ H4). }
  destruct spi_cs_gpio as [gpio|].
  - rewrite (bind_assoc _ _ _ w), bind_emit.
    unfold mbind at 1, M_bind at 1, mret at 1, M_ret at 1. cbn beta iota zeta.
    rewrite !bind_emit. cbn [_spi_cs_gpio].
    rewrite (bind_assoc _ _ _ _).
    match goal with
    | |- context [(set_pin gpio 0 ≫= _) ?w0] =>
        destruct (set_pin_run gpio 0 w0) as (wa & Ha)
    end.
    rewrite (bind_ret _ _ _ _ _ Ha).
    rewrite (bind_assoc _ _ _ _).
    destruct (time_sleep_run (5 # 100) wa eq_refl) as (wb & Hb & _).
    rewrite (bind_ret _ _ _ _ _ Hb).
    destruct (set_pin_run gpio 1 wb) as (wc & Hc).
    rewrite (bind_ret _ _ _ _ _ Hc).
    apply Hrest.
  - unfold mbind at 1, M_bind at 1, mret at 1, M_ret at 1. cbn beta iota zeta.
    rewrite !bind_emit. cbn [_spi_cs_gpio].
    unfold mbind at 1, M_bind at 1, mret at 1, M_ret at 1. cbn beta iota zeta.
    unfold mbind at 1, M_bind at 1, mret at 1, M_ret at 1. cbn beta iota zeta.
    apply Hrest.
Qed.

(** [get_id]: two transactions, at the identity register and the next. *)
Lemma get_id_run self (w : world) :
  exists r0 product_id r1 revision w',
    get_id self w = (Ret (PyList [product_id; revision]), w')
    /\ log w' = log w ++ transaction self [REG_ID; 0] [r0; product_id]
                      ++ transaction self [REG_ID + 1; 0] [r1; revision].
Proof.
  destruct (_read_many_run self REG_ID 2 w) as (rs & w' & Hrun & Hlog & Hlen & _);
    [done|].
  destruct rs as [|[r0 p] [|[r1 r] [|? ?]]]; try discriminate Hlen.
  exists r0, p, r1, r, w'. split; [done|].
  rewrite Hlog. unfold read_events. change (range 2) with [0; 1].
  cbn [zip_with mjoin list_join fst snd]. by rewrite Z.add_0_r, app_nil_r.
Qed.

End BringUpFacts.

(** ** Bring-up: the claim *)

Lemma identity_check_spec (product_id revision : Z) :
  negb (product_id =? 0x49) || negb ((revision =? 0x00) || (revision =? 0x01))
  = negb (spec_identity_ok product_id revision).
Proof.
  unfold spec_identity_ok.
  destruct (bool_decide_reflect
              (product_id = 0x49 /\ (revision = 0x00 \/ revision = 0x01)))
    as [Hd|Hd];
    destruct (Z.eqb_spec product_id 0x49), (Z.eqb_spec revision 0x00),
      (Z.eqb_spec revision 0x01); cbn; first [reflexivity | exfalso; lia].
Qed.

(** C8: reset, flush and calibration having run, [__init__] reads two
    bytes, at the identity register 0x00 and at 0x01, as product id and
    revision, and returns the sensor exactly when the product id is 0x49 and
    the revision 0x00 or 0x01; otherwise it raises the identity error, a
    [RuntimeError] naming both values.  On a chip that answers (0x49, 0x01)
    it succeeds; on chips that answer (0x50, 0x01) or (0x49, 0x02) it
    raises. *)
Theorem C8_identity_check :
  (forall (Env : Type) (P : Platform Env) c spi_port spi_cs spi_cs_gpio (w : world),
      exists w1 w2 r0 product_id r1 revision,
        bring_up c spi_port spi_cs spi_cs_gpio w = (Ret (Sensor c spi_cs_gpio), w1)
        /\ get_id (Sensor c spi_cs_gpio) w1
           = (Ret (PyList [product_id; revision]), w2)
        /\ xfers (log w2)
           = xfers (log w1) ++ [([0x00; 0x00], [r0; product_id]);
                                ([0x01; 0x00], [r1; revision])]
        /\ __init__ c spi_port spi_cs spi_cs_gpio w
           = (if bool_decide (product_id = 0x49
                              /\ (revision = 0x00 \/ revision = 0x01))
              then Ret (Sensor c spi_cs_gpio)
              else Raise (RuntimeError
                            ("Invalid Product ID or Revision for PMW3901: 0x"
                             +:+ format_02x product_id +:+ "/0x"
                             +:+ format_02x revision)),
              w2))
  /\ (forall c gpio,
        (__init__ c 0 1 gpio (World (sim_chip [(0x00, 0x49); (0x01, 0x01)] []) [])).1
        = Ret (Sensor c gpio))
  /\ (forall c gpio,
        (__init__ c 0 1 gpio (World (sim_chip [(0x00, 0x50); (0x01, 0x01)] []) [])).1
        = Raise (RuntimeError "Invalid Product ID or Revision for PMW3901: 0x50/0x01"))
  /\ (forall c gpio,
        (__init__ c 0 1 gpio (World (sim_chip [(0x00, 0x49); (0x01, 0x02)] []) [])).1
        = Raise (RuntimeError "Invalid Product ID or Revision for PMW3901: 0x49/0x02")).
Proof.
  split; [|split; [|split]].
  - intros Env P c spi_port spi_cs spi_cs_gpio w.
    destruct (bring_up_total c spi_port spi_cs spi_cs_gpio w) as (w1 & Hup).
    destruct (get_id_run (Sensor c spi_cs_gpio) w1)
      as (r0 & product_id & r1 & revision & w2 & Hid & Hlog).
    exists w1, w2, r0, product_id, r1, revision.
    split; [done|]. split; [done|]. split.
    + by rewrite Hlog, !xfers_app, !xfers_transaction.
    + unfold __init__. rewrite (bind_ret _ _ _ _ _ Hup).
      rewrite (bind_ret _ _ _ _ _ (bind_ret _ unpack_pair _ _ _ Hid)).
      rewrite identity_check_spec. unfold spec_identity_ok.
      by case_bool_decide.
  - intros c gpio. destruct c, gpio as [gpio|]; by vm_compute.
  - intros c gpio. destruct c, gpio as [gpio|]; by vm_compute.
  - intros c gpio. destruct c, gpio as [gpio|]; by vm_compute.
Qed.

(** * Further properties of the driver *)

(** ** Orientation *)

(** X1: [set_orientation] performs exactly one write, to the orientation
    register 0x5B, of a byte that holds the three flags and nothing else:
    bit 7 is [swap_xy], bit 6 is [invert_y], bit 5 is [invert_x] and the five
    low bits are clear.  So different settings never write the same byte. *)
Theorem set_orientation_frame (Env : Type) (P : Platform Env) self
    (invert_x invert_y swap_xy : bool) (w : world) :
  exists value rx w',
    set_orientation self invert_x invert_y swap_xy w = (Ret tt, w')
    /\ log w' = log w ++ transaction self [0xDB; value] rx
    /\ Z.testbit value 7 = swap_xy
    /\ Z.testbit value 6 = invert_y
    /\ Z.testbit value 5 = invert_x
    /\ Z.land value 0x1F = 0
    /\ 0 <= value < 256.
Proof.
  unfold set_orientation. cbv zeta.
  destruct (_write_run self REG_ORIENTATION
              (let value := 0 in
               let value := if swap_xy then Z.lor value 0x80 else value in
               let value := if invert_y then Z.lor value 0x40 else value in
               if invert_x then Z.lor value 0x20 else value) w)
    as (rx & w' & Hrun & Hlog).
  eexists _, rx, w'. split; [exact Hrun|]. split; [exact Hlog|].
  destruct swap_xy, invert_y, invert_x; vm_compute; repeat split; congruence.
Qed.

(** X2: for each of the four angles it accepts, [set_rotation] performs
    exactly one write to the orientation register: 0xE0 for 0 degrees, 0x40
    for 90, 0x80 for 180 and 0x20 for 270.  Turning the sensor by a further
    180 degrees flips exactly the two inversion bits and keeps the swap bit. *)
Theorem set_rotation_frames (Env : Type) (P : Platform Env) self
    (degrees : Z) (w : world) :
  degrees = 0 \/ degrees = 90 \/ degrees = 180 \/ degrees = 270 ->
  exists value value' rx rx' w1 w2,
    set_rotation self degrees w = (Ret tt, w1)
    /\ log w1 = log w ++ transaction self [0xDB; value] rx
    /\ value = (if decide (degrees = 0) then 0xE0
                else if decide (degrees = 90) then 0x40
                else if decide (degrees = 180) then 0x80 else 0x20)
    /\ set_rotation self ((degrees + 180) `mod` 360) w = (Ret tt, w2)
    /\ log w2 = log w ++ transaction self [0xDB; value'] rx'
    /\ Z.lxor value value' = 0x60.
Proof.
  intros [-> | [-> | [-> | ->]]].
  - destruct (_write_run self REG_ORIENTATION 0xE0 w) as (rx & w1 & H1 & Hl1).
    destruct (_write_run self REG_ORIENTATION 0x80 w) as (rx' & w2 & H2 & Hl2).
    by exists 0xE0, 0x80, rx, rx', w1, w2.
  - destruct (_write_run self REG_ORIENTATION 0x40 w) as (rx & w1 & H1 & Hl1).
    destruct (_write_run self REG_ORIENTATION 0x20 w) as (rx' & w2 & H2 & Hl2).
    by exists 0x40, 0x20, rx, rx', w1, w2.
  - destruct (_write_run self REG_ORIENTATION 0x80 w) as (rx & w1 & H1 & Hl1).
    destruct (_write_run self REG_ORIENTATION 0xE0 w) as (rx' & w2 & H2 & Hl2).
    by exists 0x80, 0xE0, rx, rx', w1, w2.
  - destruct (_write_run self REG_ORIENTATION 0x20 w) as (rx & w1 & H1 & Hl1).
    destruct (_write_run self REG_ORIENTATION 0x40 w) as (rx' & w2 & H2 & Hl2).
    by exists 0x20, 0x40, rx, rx', w1, w2.
Qed.

Lemma set_rotation_frames_witness :
  exists value value' rx rx' w1 w2,
    set_rotation (Sensor PMW3901 (Some 7)) 90 (World (sim_chip [] []) [])
    = (Ret tt, w1)
    /\ log w1 = [] ++ transaction (Sensor PMW3901 (Some 7)) [0xDB; value] rx
    /\ value = 0x40
    /\ set_rotation (Sensor PMW3901 (Some 7)) 270 (World (sim_chip [] []) [])
       = (Ret tt, w2)
    /\ log w2 = [] ++ transaction (Sensor PMW3901 (Some 7)) [0xDB; value'] rx'
    /\ Z.lxor value value' = 0x60.
Proof.
  exact (set_rotation_frames sim sim_platform (Sensor PMW3901 (Some 7)) 90
           (World (sim_chip [] []) []) ltac:(lia)).
Defined.

(** X3: for any other angle [set_rotation] raises its [TypeError] and
    does nothing: no transfer, no event, the world is as it was. *)
Theorem set_rotation_rejects (Env : Type) (P : Platform Env) self
    (degrees : Z) (w : world) :
  degrees <> 0 /\ degrees <> 90 /\ degrees <> 180 /\ degrees <> 270 ->
  set_rotation self degrees w
  = (Raise (TypeError "Degrees must be one of 0, 90, 180 or 270"), w).
Proof.
  intros (H0 & H90 & H180 & H270). unfold set_rotation.
  by destruct (Z.eqb_spec degrees 0), (Z.eqb_spec degrees 90),
    (Z.eqb_spec degrees 180), (Z.eqb_spec degrees 270).
Qed.

Lemma set_rotation_rejects_witness :
  set_rotation (Sensor PAA5100 None) 45 (World (sim_chip [] []) [])
  = (Raise (TypeError "Degrees must be one of 0, 90, 180 or 270"),
     World (sim_chip [] []) []).
Proof.
  apply (set_rotation_rejects sim sim_platform (Sensor PAA5100 None) 45). lia.
Defined.

(** ** Register reads: edges and composition *)

Section ReadFacts.
Context {Env : Type} `{Platform Env}.

Local Abbreviation M := (M (Env := Env)).
Local Abbreviation world := (world (Env := Env)).

(** The loop of [_read] over two stretches of offsets is the loop over
    the first followed by the loop over the second. *)
Lemma _read_loop_app self register xs ys : forall result (w : world),
  _read_loop self register (xs ++ ys) result w
  = (result' ← _read_loop self register xs result;
     _read_loop self register ys result') w.
Proof.
  induction xs as [|x xs IH]; intros result w; [done|].
  cbn [app _read_loop]. unfold mbind, M_bind in IH |- *.
  destruct (cs_pin self 0 w) as [[[]|e|] w1]; [|done|done].
  destruct (xfer2 [register + x; 0] w1) as [[value|e|] w2]; [|done|done].
  destruct (cs_pin self 1 w2) as [[[]|e|] w3]; [|done|done].
  destruct (getitem value 1 w3) as [[v|e|] w4]; [|done|done].
  apply IH.
Qed.

(** Offsets shifted by [m] from [register] are offsets from [register + m]. *)
Lemma _read_loop_shift self register m ys : forall result (w : world),
  _read_loop self register ((fun y => m + y) <$> ys) result w
  = _read_loop self (register + m) ys result w.
Proof.
  induction ys as [|y ys IH]; intros result w; [done|].
  cbn [fmap list_fmap _read_loop]. rewrite Z.add_assoc.
  unfold mbind, M_bind.
  destruct (cs_pin self 0 w) as [[[]|e|] w1]; [|done|done].
  destruct (xfer2 [register + m + y; 0] w1) as [[value|e|] w2]; [|done|done].
  destruct (cs_pin self 1 w2) as [[[]|e|] w3]; [|done|done].
  destruct (getitem value 1 w3) as [[v|e|] w4]; [|done|done].
  apply IH.
Qed.

(** What the loop had collected before it starts is kept in front. *)
Lemma _read_loop_prefix self register xs : forall pre result (w : world),
  _read_loop self register xs (pre ++ result) w
  = (l ← _read_loop self register xs result; mret (pre ++ l)) w.
Proof.
  induction xs as [|x xs IH]; intros pre result w; [done|].
  cbn [_read_loop]. unfold mbind, M_bind in IH |- *.
  destruct (cs_pin self 0 w) as [[[]|e|] w1]; [|done|done].
  destruct (xfer2 [register + x; 0] w1) as [[value|e|] w2]; [|done|done].
  destruct (cs_pin self 1 w2) as [[[]|e|] w3]; [|done|done].
  destruct (getitem value 1 w3) as [[v|e|] w4]; [|done|done].
  rewrite <- app_assoc. apply IH.
Qed.

Lemma range_add (m n : Z) :
  0 <= m -> 0 <= n -> range (m + n) = range m ++ ((fun y => m + y) <$> range n).
Proof.
  intros Hm Hn. unfold range.
  rewrite Z2Nat.inj_add by done. rewrite seq_app, fmap_app. f_equal.
  cbn [Nat.add].
  assert (seq (Z.to_nat m) (Z.to_nat n)
          = Nat.add (Z.to_nat m) <$> seq 0 (Z.to_nat n)) as ->
    by (rewrite fmap_add_seq; f_equal; lia).
  rewrite <- !list_fmap_compose.
  apply list_fmap_ext. intros _ i _. simpl. lia.
Qed.

Lemma range_nonpos (n : Z) : n <= 0 -> range n = [].
Proof. intros Hn. unfold range. by replace (Z.to_nat n) with 0%nat by lia. Qed.

(** What [_read] returns is a list unless the length is 1. *)
Lemma _read_list_inv self register length (w w' : world) l :
  _read self register length w = (Ret (PyList l), w') ->
  length ≠ 1 /\ _read_loop self register (range length) [] w = (Ret l, w').
Proof.
  intros Hrun. destruct (decide (length = 1)) as [->|Hne].
  - destruct (_read_one_run self register w) as (? & ? & ? & Hone & _).
    congruence.
  - split; [done|].
    destruct (_read_loop_run self register (range length) [] w)
      as (rs & w1 & Hloop & _).
    unfold _read in Hrun. rewrite (bind_ret _ _ _ _ _ Hloop) in Hrun.
    destruct (Z.eqb_spec length 1); [done|].
    unfold mret, M_ret in Hrun. congruence.
Qed.

End ReadFacts.

(** X4: [_read] with a length of zero, or a negative one, touches nothing
    and returns the empty list. *)
Theorem _read_nothing (Env : Type) (P : Platform Env) self (register length : Z)
    (w : world) :
  length <= 0 -> _read self register length w = (Ret (PyList []), w).
Proof.
  intros Hlen. unfold _read. rewrite range_nonpos by done.
  cbn [_read_loop]. unfold mbind, M_bind, mret, M_ret.
  by destruct (Z.eqb_spec length 1); [lia|].
Qed.

Lemma _read_nothing_witness :
  _read (Sensor PMW3901 (Some 7)) REG_DATA_READY 0 (World (sim_chip [] []) [])
  = (Ret (PyList []), World (sim_chip [] []) []).
Proof.
  apply (_read_nothing sim sim_platform (Sensor PMW3901 (Some 7)) REG_DATA_READY 0).
  lia.
Defined.

(** X5: reading a block of registers in one call is reading its two
    parts one after the other: if [_read] of [m] registers at [register]
    returns the list [a], and [_read] of [n] registers at [register + m]
    then returns the list [b], the single [_read] of [m + n] registers at
    [register] returns [a ++ b] and leaves the same world behind, log
    included. *)
Theorem _read_split (Env : Type) (P : Platform Env) self (register m n : Z)
    (w w1 w2 : world) (a b : list Z) :
  0 <= m -> 0 <= n ->
  _read self register m w = (Ret (PyList a), w1) ->
  _read self (register + m) n w1 = (Ret (PyList b), w2) ->
  _read self register (m + n) w = (Ret (PyList (a ++ b)), w2).
Proof.
  intros Hm Hn Ha Hb.
  apply _read_list_inv in Ha as [Hm1 Ha]. apply _read_list_inv in Hb as [Hn1 Hb].
  unfold _read. rewrite range_add by done.
  assert (Hloop : _read_loop self register
                    (range m ++ ((fun y => m + y) <$> range n)) [] w
                  = (Ret (a ++ b), w2)).
  { rewrite _read_loop_app, (bind_ret _ _ _ _ _ Ha), _read_loop_shift.
    rewrite <- (app_nil_r a), _read_loop_prefix, (bind_ret _ _ _ _ _ Hb).
    by rewrite app_nil_r. }
  rewrite (bind_ret _ _ _ _ _ Hloop).
  by destruct (Z.eqb_spec (m + n) 1); [lia|].
Qed.

Lemma _read_split_witness :
  exists w2,
    _read (Sensor PMW3901 None) 0x02 5
      (World (sim_chip [(2, 0x80); (3, 1); (4, 2); (5, 3); (6, 4)] []) [])
    = (Ret (PyList ([0x80; 1] ++ [2; 3; 4])), w2).
Proof.
  pose (w := World (sim_chip [(2, 0x80); (3, 1); (4, 2); (5, 3); (6, 4)] []) []
             : world (Env := sim)).
  pose (w1 := (_read (Sensor PMW3901 None) 0x02 2 w).2).
  exists (_read (Sensor PMW3901 None) (0x02 + 2) 3 w1).2.
  apply (_read_split sim sim_platform (Sensor PMW3901 None) 0x02 2 3 w w1);
    [lia|lia|vm_compute; reflexivity|vm_compute; reflexivity].
Defined.

Lemma high_address_bits (a : Z) : 0 <= a <= 0x7F -> Z.lor a 0x80 = a + 0x80.
Proof.
  intros Ha.
  pose (P := fun a => Z.lor a 0x80 =? a + 0x80).
  assert (HP : P a = true) by (apply (forallb_range P 0x80); [by vm_compute|lia]).
  by apply Z.eqb_eq.
Qed.

(** X6: [_read] does not mask the address it is given.  Asked to read
    the register [a + 0x80], it clocks out the very frame by which [_write]
    writes zero to the register [a], and leaves the same world behind: on
    the wire the two calls cannot be told apart.  On the simulated chip
    the register [a] is zero afterwards, whatever had been written to it. *)
Theorem _read_high_address (Env : Type) (P : Platform Env) self (a : Z)
    (w : world) :
  0 <= a <= 0x7F ->
  (_read self (a + 0x80) 1 w).2 = (_write self a 0 w).2
  /\ (exists rx, log (_read self (a + 0x80) 1 w).2
                 = log w ++ transaction self [Z.lor a 0x80; 0] rx)
  /\ (forall self' (s : sim) evs value,
        sim_fifo s = [] ->
        exists w1 w2 w3,
          _write self' a value (World s evs) = (Ret tt, w1)
          /\ _read self' (a + 0x80) 1 w1 = (Ret (PyInt 0), w2)
          /\ _read self' a 1 w2 = (Ret (PyInt 0), w3)).
Proof.
  intros Ha.
  assert (Hsame : (_read self (a + 0x80) 1 w).2 = (_write self a 0 w).2).
  { destruct (cs_pin_run self 0 w) as (w1 & H1 & _).
    destruct (xfer2_run [a + 0x80; 0] w1) as (rx & w2 & H2 & _ & Hlen & _).
    destruct (cs_pin_run self 1 w2) as (w3 & H3 & _).
    destruct rx as [|r0 [|v [|? ?]]]; try discriminate Hlen.
    assert (Hw : _write self a 0 w = (Ret tt, w3)).
    { unfold _write. rewrite (high_address_bits a Ha).
      by rewrite (bind_ret _ _ _ _ _ H1), (bind_ret _ _ _ _ _ H2). }
    assert (Hr : _read self (a + 0x80) 1 w = (Ret (PyInt v), w3)).
    { unfold _read. change (range 1) with [0]. cbn [_read_loop].
      rewrite Z.add_0_r.
      rewrite (bind_ret _ _ w [v] w3); [reflexivity|].
      by rewrite (bind_ret _ _ _ _ _ H1), (bind_ret _ _ _ _ _ H2),
        (bind_ret _ _ _ _ _ H3). }
    by rewrite Hw, Hr. }
  split; [exact Hsame|]. split.
  - rewrite Hsame. destruct (_write_run self a 0 w) as (rx & w' & Hrun & Hlog).
    exists rx. by rewrite Hrun.
  - intros self' s evs value Hfifo.
    eexists _, _, _. split; [apply sim_write_world|].
    rewrite !sim_read_one_world. cbn [env log].
    rewrite (sim_xfer2_write s a value Ha). cbn [fst snd].
    rewrite <- (high_address_bits a Ha), sim_xfer2_write by done.
    cbn [fst snd lookup list_lookup default].
    split; [reflexivity|]. cbn [env log].
    rewrite sim_xfer2_read by done. cbn [fst snd lookup list_lookup default].
    unfold sim_reg. cbn [sim_regs]. rewrite lookup_insert_eq.
    reflexivity.
Qed.

Lemma _read_high_address_witness :
  (_read (Sensor PMW3901 None) (0x22 + 0x80) 1 (World (sim_chip [] []) [])).2
  = (_write (Sensor PMW3901 None) 0x22 0 (World (sim_chip [] []) [])).2.
Proof.
  exact (proj1 (_read_high_address sim sim_platform (Sensor PMW3901 None) 0x22
                  (World (sim_chip [] []) []) ltac:(lia))).
Defined.

(** ** The sequence player: composition and errors *)

Lemma flatten_pairs_of (a : list Z) :
  (Nat.even (length a) = true -> flatten_pairs (pairs_of a) = a)
  /\ (forall x, Nat.even (length (x :: a)) = true ->
                flatten_pairs (pairs_of (x :: a)) = x :: a).
Proof.
  induction a as [|y a [IH1 IH2]]; [by split|].
  split; [apply IH2|].
  intros x Heven. cbn [pairs_of]. change (flatten_pairs ((x, y) :: pairs_of a))
    with (x :: y :: flatten_pairs (pairs_of a)).
  by rewrite IH1.
Qed.

Section BulkFacts.
Context {Env : Type} `{Platform Env}.

Local Abbreviation world := (world (Env := Env)).

(** The player run on a list that starts with whole pairs: the pairs are
    played first, then what follows them, if the pairs went through. *)
Lemma _bulk_write_flatten_app self (ps : list (Z * Z)) (b : list Z) :
  forall w : world,
    _bulk_write self (flatten_pairs ps ++ b) w
    = (_bulk_write self (flatten_pairs ps) ;; _bulk_write self b) w.
Proof.
  induction ps as [|p ps IH]; intros w; [done|].
  change (flatten_pairs (p :: ps)) with (p.1 :: p.2 :: flatten_pairs ps).
  cbn [app]. unfold mbind, M_bind. rewrite !_bulk_write_cons2.
  unfold mbind, M_bind in IH |- *.
  destruct ((if p.1 =? WAIT then time_sleep (inject_Z p.2 / 1000)
             else _write self p.1 p.2) w) as [[[]|e|] w1]; [|done|done].
  apply IH.
Qed.

Lemma Qltb_ms_neg (v : Z) : v < 0 -> Qltb (inject_Z v / 1000) 0 = true.
Proof. intros Hv. apply Qltb_true. unfold Qlt. simpl. lia. Qed.

End BulkFacts.

(** X7: playing two lists one after the other is playing them joined,
    provided the first has an even number of elements: the player then
    takes the same pairs from the joined list. *)
Theorem _bulk_write_app (Env : Type) (P : Platform Env) self (a b : list Z)
    (w : world) :
  Nat.even (length a) = true ->
  _bulk_write self (a ++ b) w = (_bulk_write self a ;; _bulk_write self b) w.
Proof.
  intros Heven. rewrite <- (proj1 (flatten_pairs_of a) Heven).
  apply _bulk_write_flatten_app.
Qed.

Lemma _bulk_write_app_witness :
  _bulk_write (Sensor PMW3901 None) ([0x7F; 0x00] ++ [WAIT; 0x0A; 0x58; 0xFF])
              (World (sim_chip [] []) [])
  = (_bulk_write (Sensor PMW3901 None) [0x7F; 0x00] ;;
     _bulk_write (Sensor PMW3901 None) [WAIT; 0x0A; 0x58; 0xFF])
      (World (sim_chip [] []) []).
Proof.
  exact (_bulk_write_app sim sim_platform (Sensor PMW3901 None) [0x7F; 0x00]
           [WAIT; 0x0A; 0x58; 0xFF] (World (sim_chip [] []) []) eq_refl).
Defined.

(** X8: a list with an odd number of elements is played up to its last
    whole pair, and then the unpacking of the one element left raises a
    [ValueError]: every pair before it has had its effect by then. *)
Theorem _bulk_write_odd (Env : Type) (P : Platform Env) self
    (ps : list (Z * Z)) (r : Z) (w : world) :
  Forall (fun p => p.1 = WAIT -> 0 <= p.2) ps ->
  exists msg w',
    _bulk_write self (flatten_pairs ps ++ [r]) w = (Raise (ValueError msg), w')
    /\ actions (log w') = actions (log w) ++ (step_action <$> ps).
Proof.
  intros Hps.
  destruct (_bulk_write_pairs_run self ps w Hps) as (w' & Hrun & Hlog).
  exists "not enough values to unpack (expected 2, got 1)", w'. split; [|done].
  by rewrite _bulk_write_flatten_app, (bind_ret _ _ _ _ _ Hrun).
Qed.

Lemma _bulk_write_odd_witness :
  exists msg w',
    _bulk_write (Sensor PMW3901 None) [0x7F; 0x00; WAIT; 0x0A; 0x58]
                (World (sim_chip [] []) [])
    = (Raise (ValueError msg), w')
    /\ actions (log w') = [Transmit [0xFF; 0x00]; Pause (10 # 1000)].
Proof.
  assert (Hps : Forall (fun p : Z * Z => p.1 = WAIT -> 0 <= p.2)
                       [(0x7F, 0x00); (WAIT, 0x0A)])
    by (repeat constructor; simpl; lia).
  exact (_bulk_write_odd sim sim_platform (Sensor PMW3901 None)
           [(0x7F, 0x00); (WAIT, 0x0A)] 0x58 (World (sim_chip [] []) []) Hps).
Defined.

(** X9: a WAIT pair with a negative duration stops the player: the pairs
    before it have had their effect, [time.sleep] refuses the negative
    duration with a [ValueError], and nothing of what follows is played. *)
Theorem _bulk_write_negative_wait (Env : Type) (P : Platform Env) self
    (ps : list (Z * Z)) (v : Z) (rest : list Z) (w : world) :
  Forall (fun p => p.1 = WAIT -> 0 <= p.2) ps -> v < 0 ->
  exists w',
    _bulk_write self (flatten_pairs ps ++ WAIT :: v :: rest) w
    = (Raise (ValueError "sleep length must be non-negative"), w')
    /\ actions (log w') = actions (log w) ++ (step_action <$> ps).
Proof.
  intros Hps Hv.
  destruct (_bulk_write_pairs_run self ps w Hps) as (w' & Hrun & Hlog).
  exists w'. split; [|done].
  rewrite _bulk_write_flatten_app, (bind_ret _ _ _ _ _ Hrun), _bulk_write_cons2.
  change (WAIT =? WAIT) with true. cbv iota.
  unfold mbind, M_bind, time_sleep. by rewrite Qltb_ms_neg.
Qed.

Lemma _bulk_write_negative_wait_witness :
  exists w',
    _bulk_write (Sensor PMW3901 None) [0x7F; 0x00; WAIT; -5; 0x58; 0xFF]
                (World (sim_chip [] []) [])
    = (Raise (ValueError "sleep length must be non-negative"), w')
    /\ actions (log w') = [Transmit [0xFF; 0x00]].
Proof.
  assert (Hps : Forall (fun p : Z * Z => p.1 = WAIT -> 0 <= p.2) [(0x7F, 0x00)])
    by (repeat constructor; simpl; lia).
  exact (_bulk_write_negative_wait sim sim_platform (Sensor PMW3901 None)
           [(0x7F, 0x00)] (-5) [0x58; 0xFF] (World (sim_chip [] []) []) Hps
           ltac:(lia)).
Defined.

(** ** Calibration: the other branches *)

(** X10: the first part of the calibration, the same in both classes,
    reads register 0x67 after its first table and then writes register 0x48
    once: 0x04 if bit 7 of the byte read is set, 0x02 if not.  The second
    table follows, and then the calibration branch and the tail table of the
    class. *)
Theorem sauce_begin_branch (Env : Type) (P : Platform Env) self
    (w w1 w2 : world) (diag : Z) :
  _bulk_write self sauce_prologue w = (Ret tt, w1) ->
  _read self 0x67 1 w1 = (Ret (PyInt diag), w2) ->
  exists w',
    sauce_begin self w = (Ret tt, w')
    /\ actions (log w2)
       = actions (log w)
         ++ [Transmit [0xFF; 0x00]; Transmit [0xD5; 0x01]; Transmit [0xD0; 0x07];
             Transmit [0xFF; 0x0E]; Transmit [0xC3; 0x10]; Transmit [0x67; 0x00]]
    /\ actions (log w')
       = actions (log w2)
         ++ [Transmit [0xC8; if Z.testbit diag 7 then 0x04 else 0x02];
             Transmit [0xFF; 0x00]; Transmit [0xD1; 0x7B]; Transmit [0xD0; 0x00];
             Transmit [0xD5; 0x00]; Transmit [0xFF; 0x0E]]
    /\ _secret_sauce self w
       = (sauce_calibrate self ;; _bulk_write self (sauce_tail (cls self))) w'.
Proof.
  intros Hpro Hread.
  destruct (_bulk_write_table_run self sauce_prologue w eq_refl)
    as (w1' & Hpro' & Hlog1).
  rewrite Hpro in Hpro'. injection Hpro' as <-.
  destruct (_read_one_run self 0x67 w1) as (r0 & v & w2' & Hread' & Hlog2 & Hv).
  rewrite Hread in Hread'. injection Hread' as <- <-.
  assert (Hwr : exists rx w3,
             (if negb (Z.land diag 0x80 =? 0) then _write self 0x48 0x04
              else _write self 0x48 0x02) w2 = (Ret tt, w3)
             /\ log w3 = log w2
                         ++ transaction self
                              [0xC8; if Z.testbit diag 7 then 0x04 else 0x02] rx).
  { rewrite (byte_top_bit diag Hv). destruct (Z.testbit diag 7).
    - destruct (_write_run self 0x48 0x04 w2) as (rx & w3 & Hw & Hl).
      by exists rx, w3.
    - destruct (_write_run self 0x48 0x02 w2) as (rx & w3 & Hw & Hl).
      by exists rx, w3. }
  destruct Hwr as (rx & w3 & Hwr & Hlog3).
  destruct (_bulk_write_table_run self sauce_middle w3 eq_refl)
    as (w4 & Hmid & Hlog4).
  assert (Hbegin : sauce_begin self w = (Ret tt, w4)).
  { unfold sauce_begin.
    by rewrite (bind_ret _ _ _ _ _ Hpro),
      (bind_ret _ _ _ _ _ (read_int_run _ _ _ _ _ Hread)),
      (bind_ret _ _ _ _ _ Hwr). }
  exists w4. split; [exact Hbegin|]. split; [|split].
  - rewrite Hlog2, actions_app, actions_transaction, Hlog1, <- app_assoc.
    reflexivity.
  - rewrite Hlog4, Hlog3, actions_app, actions_transaction, <- app_assoc.
    reflexivity.
  - by rewrite _secret_sauce_unfold, (bind_ret _ _ _ _ _ Hbegin).
Qed.

Lemma sauce_begin_branch_witness :
  let self := Sensor PAA5100 None in
  let w : world := World (sim_chip [(0x67, 0x80)] []) [] in
  let w1 := (_bulk_write self sauce_prologue w).2 in
  let w2 := (_read self 0x67 1 w1).2 in
  exists w',
    sauce_begin self w = (Ret tt, w')
    /\ actions (log w')
       = actions (log w2)
         ++ [Transmit [0xC8; 0x04];
             Transmit [0xFF; 0x00]; Transmit [0xD1; 0x7B]; Transmit [0xD0; 0x00];
             Transmit [0xD5; 0x00]; Transmit [0xFF; 0x0E]].
Proof.
  intros self w w1 w2.
  destruct (sauce_begin_branch sim sim_platform self w w1 w2 0x80
              ltac:(vm_compute; reflexivity) ltac:(vm_compute; reflexivity))
    as (w' & Hrun & _ & Hlog & _).
  exists w'. split; [exact Hrun|exact Hlog].
Defined.

(** X11: when register 0x73 reads anything but zero the calibration
    branch is that one read and nothing else: registers 0x70 and 0x71 are
    neither read nor written. *)
Theorem sauce_calibrate_skipped (Env : Type) (P : Platform Env) self
    (w w1 : world) (status : Z) :
  _read self 0x73 1 w = (Ret (PyInt status), w1) -> status <> 0x00 ->
  sauce_calibrate self w = (Ret tt, w1)
  /\ actions (log w1) = actions (log w) ++ [Transmit [0x73; 0x00]].
Proof.
  intros Hread Hne. split; [by apply sauce_calibrate_skip with status|].
  destruct (_read_one_run self 0x73 w) as (r0 & v & w1' & Hread' & Hlog & _).
  rewrite Hread in Hread'. injection Hread' as _ <-.
  by rewrite Hlog, actions_app, actions_transaction.
Qed.

Lemma sauce_calibrate_skipped_witness :
  let self := Sensor PMW3901 None in
  let w : world := World (sim_chip [(0x73, 0x01); (0x70, 0x10)] []) [] in
  let w1 := (_read self 0x73 1 w).2 in
  sauce_calibrate self w = (Ret tt, w1)
  /\ actions (log w1) = [] ++ [Transmit [0x73; 0x00]].
Proof.
  intros self w w1.
  exact (sauce_calibrate_skipped sim sim_platform self w w1 0x01
           ltac:(vm_compute; reflexivity) ltac:(lia)).
Defined.

(** X12: what the calibration writes back always fits its register.
    For a byte read from 0x70 the adjusted value lies in [14, 63] and never
    in [29, 39], and it is the ceiling 63 exactly from 52 on; for a byte
    read from 0x71 it is the value scaled by 45/100, rounded down, so at
    most 114. *)
Theorem calibrate_range (c1 c2 : Z) :
  0 <= c1 < 256 -> 0 <= c2 < 256 ->
  (14 <= calibrate_c1 c1 <= 0x3F /\ ~ (29 <= calibrate_c1 c1 <= 39))
  /\ (calibrate_c1 c1 = 0x3F <-> 52 <= c1)
  /\ 0 <= calibrate_c2 c2 <= 114
  /\ 100 * calibrate_c2 c2 <= 45 * c2 < 100 * calibrate_c2 c2 + 100.
Proof.
  intros Hc1 Hc2. split; [|split].
  - unfold calibrate_c1. cbv zeta. rewrite !Z.gtb_ltb.
    destruct (Z.leb_spec c1 28);
      repeat match goal with
             | |- context [Z.ltb ?a ?b] => destruct (Z.ltb_spec a b)
             end; lia.
  - unfold calibrate_c1. cbv zeta. rewrite !Z.gtb_ltb.
    destruct (Z.leb_spec c1 28);
      repeat match goal with
             | |- context [Z.ltb ?a ?b] => destruct (Z.ltb_spec a b)
             end; lia.
  - unfold calibrate_c2.
    pose proof (Z.div_mod (c2 * 45) 100 ltac:(lia)) as Hdiv.
    pose proof (Z.mod_pos_bound (c2 * 45) 100 ltac:(lia)) as Hmod.
    lia.
Qed.

Lemma calibrate_range_witness :
  (14 <= calibrate_c1 28 <= 0x3F /\ ~ (29 <= calibrate_c1 28 <= 39))
  /\ (calibrate_c1 28 = 0x3F <-> 52 <= 28)
  /\ 0 <= calibrate_c2 255 <= 114
  /\ 100 * calibrate_c2 255 <= 45 * 255 < 100 * calibrate_c2 255 + 100.
Proof. exact (calibrate_range 28 255 ltac:(lia) ltac:(lia)). Defined.

(** ** Frame capture: pixels *)

Lemma forallb_range2 (P : Z -> Z -> bool) (n m : Z) :
  forallb (fun a => forallb (P a) (range m)) (range n) = true ->
  forall a b, 0 <= a < n -> 0 <= b < m -> P a b = true.
Proof.
  intros Hall a b Ha Hb.
  apply (forallb_range (P a) m); [|done].
  by apply (forallb_range (fun a => forallb (P a) (range m)) n).
Qed.

(** A pixel under assembly stays a byte. *)
Lemma pixel_after_byte (data r : Z) :
  0 <= data < 256 -> 0 <= r < 256 -> 0 <= pixel_after data r < 256.
Proof.
  intros Hd Hr.
  pose (P := fun d r => (0 <=? pixel_after d r) && (pixel_after d r <? 256)).
  assert (HP : P data r = true)
    by (apply (forallb_range2 P 256 256); [by vm_compute|lia|lia]).
  apply andb_prop in HP as [H1 H2]. lia.
Qed.

(** An upper fragment sets bits 7:2 and keeps bits 1:0; a lower fragment
    sets bits 1:0 and keeps bits 7:2. *)
Lemma pixel_after_upper (up r : Z) :
  0 <= up < 256 -> 0 <= r < 256 -> is_upper_fragment up = true ->
  pixel_after up r = Z.lor (Z.shiftl (Z.land up 0x3F) 2) (Z.land r 0x03).
Proof.
  intros Hu Hr Hup.
  pose (P := fun u r =>
               implb (is_upper_fragment u)
                     (pixel_after u r
                      =? Z.lor (Z.shiftl (Z.land u 0x3F) 2) (Z.land r 0x03))).
  assert (HP : P up r = true)
    by (apply (forallb_range2 P 256 256); [by vm_compute|lia|lia]).
  unfold P in HP. rewrite Hup in HP. by apply Z.eqb_eq.
Qed.

Lemma pixel_after_lower (lo r : Z) :
  0 <= lo < 256 -> 0 <= r < 256 -> is_lower_fragment lo = true ->
  pixel_after lo r = Z.lor (Z.land r 0xFC) (Z.land (Z.shiftr lo 2) 0x03).
Proof.
  intros Hl Hr Hlo.
  pose (P := fun l r =>
               implb (is_lower_fragment l)
                     (pixel_after l r
                      =? Z.lor (Z.land r 0xFC) (Z.land (Z.shiftr l 2) 0x03))).
  assert (HP : P lo r = true)
    by (apply (forallb_range2 P 256 256); [by vm_compute|lia|lia]).
  unfold P in HP. rewrite Hlo in HP. by apply Z.eqb_eq.
Qed.

Lemma upper_bits_kept (up r : Z) :
  0 <= up < 256 -> 0 <= r < 256 ->
  Z.land (Z.lor (Z.shiftl (Z.land up 0x3F) 2) (Z.land r 0x03)) 0xFC
  = Z.shiftl (Z.land up 0x3F) 2.
Proof.
  intros Hu Hr.
  pose (P := fun u r =>
               Z.land (Z.lor (Z.shiftl (Z.land u 0x3F) 2) (Z.land r 0x03)) 0xFC
               =? Z.shiftl (Z.land u 0x3F) 2).
  assert (HP : P up r = true)
    by (apply (forallb_range2 P 256 256); [by vm_compute|lia|lia]).
  by apply Z.eqb_eq.
Qed.

(** What [encode_pixel] sends is an upper and a lower fragment that
    carry the pixel. *)
Lemma encode_pixel_spec (p : Z) :
  0 <= p < 256 ->
  let up := Z.lor 0x40 (Z.shiftr p 2) in
  let lo := Z.lor 0x80 (Z.shiftl (Z.land p 0x03) 2) in
  (0 <= up < 256 /\ Z.land up 0xC0 = 0x40)
  /\ (0 <= lo < 256 /\ Z.land lo 0xC0 = 0x80)
  /\ Z.lor (Z.shiftl (Z.land up 0x3F) 2) (Z.land (Z.shiftr lo 2) 0x03) = p.
Proof.
  intros Hp.
  pose (P := fun p =>
               let up := Z.lor 0x40 (Z.shiftr p 2) in
               let lo := Z.lor 0x80 (Z.shiftl (Z.land p 0x03) 2) in
               (0 <=? up) && (up <? 256) && (Z.land up 0xC0 =? 0x40)
               && (0 <=? lo) && (lo <? 256) && (Z.land lo 0xC0 =? 0x80)
               && (Z.lor (Z.shiftl (Z.land up 0x3F) 2) (Z.land (Z.shiftr lo 2) 0x03)
                   =? p)).
  assert (HP : P p = true) by (apply (forallb_range P 256); [by vm_compute|lia]).
  unfold P in HP. cbv zeta in HP |- *.
  repeat (apply andb_prop in HP as [HP ?]).
  repeat split; try lia; by apply Z.eqb_eq.
Qed.

Lemma frame_step_bytes st data :
  0 <= data < 256 -> Forall (fun p => 0 <= p < 256) st.1 ->
  Forall (fun p => 0 <= p < 256) (frame_step st data).1.
Proof.
  intros Hd Hst. unfold frame_step. cbn [fst].
  destruct (st.1 !! st.2) as [r|] eqn:Hr; [|done].
  apply Forall_insert; [done|].
  apply pixel_after_byte; [done|].
  by apply (Forall_lookup_1 _ _ _ _ Hst Hr).
Qed.

Lemma frame_fold_bytes bs : forall st,
  Forall (fun b => 0 <= b < 256) bs -> Forall (fun p => 0 <= p < 256) st.1 ->
  Forall (fun p => 0 <= p < 256) (fold_left frame_step bs st).1.
Proof.
  induction bs as [|b bs IH]; intros st Hbs Hst; cbn [fold_left]; [done|].
  inversion Hbs; subst. apply IH; [done|]. by apply frame_step_bytes.
Qed.

(** X13: an upper fragment followed by a lower fragment makes one pixel
    at the current index, whatever the frame held there: bits 7:2 are bits
    5:0 of the upper fragment, bits 1:0 are bits 3:2 of the lower one, and
    the index moves on by one.  The other bits of the two bytes play no
    part.  In particular the two bytes by which a chip sends a pixel, as
    the driver's comments describe them, give back that pixel. *)
Theorem fragment_pair_reassembles (Env : Type) (P : Platform Env)
    (raw_data : list Z) (x : nat) (r : Z) (w : world) :
  raw_data !! x = Some r -> 0 <= r < 256 ->
  (forall up lo,
      0 <= up < 256 -> Z.land up 0xC0 = 0x40 ->
      0 <= lo < 256 -> Z.land lo 0xC0 = 0x80 ->
      (grab_fragment (Env := Env) up raw_data x
         ≫= (fun '(raw, x') => grab_fragment lo raw x')) w
      = (Ret (<[x := Z.lor (Z.shiftl (Z.land up 0x3F) 2)
                           (Z.land (Z.shiftr lo 2) 0x03)]> raw_data, S x), w))
  /\ (forall p up lo,
        0 <= p < 256 -> encode_pixel p = [up; lo] ->
        (grab_fragment (Env := Env) up raw_data x
           ≫= (fun '(raw, x') => grab_fragment lo raw x')) w
        = (Ret (<[x := p]> raw_data, S x), w)).
Proof.
  intros Hr Hbyte.
  assert (Hx : (x < length raw_data)%nat) by (apply lookup_lt_is_Some; eauto).
  assert (Hpair : forall up lo,
            0 <= up < 256 -> Z.land up 0xC0 = 0x40 ->
            0 <= lo < 256 -> Z.land lo 0xC0 = 0x80 ->
            (grab_fragment (Env := Env) up raw_data x
               ≫= (fun '(raw, x') => grab_fragment lo raw x')) w
            = (Ret (<[x := Z.lor (Z.shiftl (Z.land up 0x3F) 2)
                                 (Z.land (Z.shiftr lo 2) 0x03)]> raw_data, S x), w)).
  { intros up lo Hu Hup Hl Hlo.
    destruct (fragment_conditions up Hu) as [Hup' _].
    destruct (fragment_conditions lo Hl) as [_ Hlo'].
    rewrite Hup in Hup'. rewrite Hlo in Hlo'.
    change (0x40 =? 0x40) with true in Hup'.
    change (0x80 =? 0x80) with true in Hlo'.
    symmetry in Hup', Hlo'.
    pose proof (pixel_after_byte up r Hu Hbyte) as Hmid.
    rewrite (bind_ret _ _ _ (frame_step (raw_data, x) up) w)
      by (by apply grab_fragment_run).
    unfold frame_step at 1. cbn [fst snd].
    rewrite Hr, (fragment_exclusive up Hup').
    rewrite grab_fragment_run by (by rewrite ?length_insert).
    unfold frame_step. cbn [fst snd].
    rewrite list_lookup_insert_eq by done.
    rewrite list_insert_insert_eq, Hlo'.
    rewrite (pixel_after_lower lo _ Hl Hmid Hlo').
    rewrite (pixel_after_upper up r Hu Hbyte Hup').
    by rewrite upper_bits_kept. }
  split; [exact Hpair|].
  intros p up lo Hp [= <- <-].
  destruct (encode_pixel_spec p Hp) as ((Hu & Hup) & (Hl & Hlo) & Hback).
  cbv zeta in Hu, Hup, Hl, Hlo, Hback.
  by rewrite Hpair, Hback.
Qed.

Lemma fragment_pair_reassembles_witness :
  (grab_fragment 0x6A [0; 0x55] 1 ≫= (fun '(raw, x') => grab_fragment 0x84 raw x'))
    (World (sim_chip [] []) [])
  = (Ret ([0; 0xA9], 2%nat), World (sim_chip [] []) []).
Proof.
  exact (proj2 (fragment_pair_reassembles sim sim_platform [0; 0x55] 1 0x55
                  (World (sim_chip [] []) []) eq_refl ltac:(lia))
           0xA9 0x6A 0x84 ltac:(lia) eq_refl).
Defined.

(** X14: a frame that [frame_capture] returns has 1225 pixels and every
    one of them is a byte, whatever the chip sent.  The same holds of the
    streaming loop entered at any index with any frame of 1225 bytes. *)
Theorem frame_capture_bytes (Env : Type) (P : Platform Env) fuel self
    (timeout : Q) :
  (forall t_start raw_data x (w w' : world) frame,
      length raw_data = RAW_DATA_LEN -> (x < RAW_DATA_LEN)%nat ->
      Forall (fun p => 0 <= p < 256) raw_data ->
      grab_loop fuel self t_start timeout raw_data x w = (Ret frame, w') ->
      length frame = 1225%nat /\ Forall (fun p => 0 <= p < 256) frame)
  /\ (forall (w w' : world) frame,
        frame_capture fuel self timeout w = (Ret frame, w') ->
        length frame = 1225%nat /\ Forall (fun p => 0 <= p < 256) frame).
Proof.
  assert (Hloop : forall t_start raw_data x (w w' : world) frame,
            length raw_data = RAW_DATA_LEN -> (x < RAW_DATA_LEN)%nat ->
            Forall (fun p => 0 <= p < 256) raw_data ->
            grab_loop fuel self t_start timeout raw_data x w = (Ret frame, w') ->
            length frame = 1225%nat /\ Forall (fun p => 0 <= p < 256) frame).
  { intros t_start raw_data x w w' frame Hlen Hx Hraw Hrun.
    destruct (grab_loop_shape self t_start timeout fuel raw_data x w Hlen Hx)
      as (out & w1 & evs & Hstream & _ & turns & Hturns & _ & Hout).
    rewrite Hrun in Hstream. injection Hstream as <- <-.
    destruct Hout as (r0 & data & Hdata & Hstep & _).
    assert (Hbs : Forall (fun b => 0 <= b < 256)
                         ((fun t : Z * Z * Q => t.1.2) <$> turns)).
    { apply Forall_fmap. eapply Forall_impl; [exact Hturns|]. by intros t [_ Ht]. }
    pose proof (frame_step_length
                  (fold_left frame_step ((fun t : Z * Z * Q => t.1.2) <$> turns)
                             (raw_data, x)) data) as Hlen1.
    pose proof (frame_step_bytes
                  (fold_left frame_step ((fun t : Z * Z * Q => t.1.2) <$> turns)
                             (raw_data, x)) data Hdata) as Hbytes.
    rewrite Hstep in Hlen1, Hbytes. cbn [fst] in Hlen1, Hbytes.
    split.
    - rewrite Hlen1, frame_fold_length. cbn [fst]. exact Hlen.
    - by apply Hbytes, frame_fold_bytes. }
  split; [exact Hloop|].
  intros w w' frame Hrun. unfold frame_capture, mbind, M_bind in Hrun.
  destruct (frame_capture_init fuel self timeout w) as [[[]|e|] w0];
    [|discriminate Hrun|discriminate Hrun].
  unfold frame_capture_stream, mbind, M_bind in Hrun.
  destruct (time_time w0) as [[t_start|e|] w1];
    [|discriminate Hrun|discriminate Hrun].
  apply (Hloop t_start (replicate RAW_DATA_LEN 0) 0%nat w1 w' frame);
    [apply length_replicate|unfold RAW_DATA_LEN; lia| |exact Hrun].
  apply Forall_forall. intros p Hp. apply elem_of_replicate in Hp as [-> _]. lia.
Qed.

Lemma frame_capture_bytes_witness :
  length (replicate 1224 0 ++ [3]) = 1225%nat
  /\ Forall (fun p => 0 <= p < 256) (replicate 1224 0 ++ [3]).
Proof.
  pose (w := World (sim_chip [] [0x8C]) [] : world (Env := sim)).
  pose (w' := (grab_loop 1 (Sensor PMW3901 None) 0 10 (replicate 1225 0) 1224 w).2).
  exact (proj1 (frame_capture_bytes sim sim_platform 1 (Sensor PMW3901 None) 10)
           0%Q (replicate 1225 0) 1224%nat w w' (replicate 1224 0 ++ [3])
           ltac:(vm_compute; reflexivity) ltac:(unfold RAW_DATA_LEN; lia)
           ltac:(apply Forall_forall; intros p Hp;
                 apply elem_of_replicate in Hp as [-> _]; lia)
           ltac:(vm_compute; reflexivity)).
Defined.

Lemma lower_bits_kept (up r : Z) :
  0 <= up < 256 -> 0 <= r < 256 ->
  Z.land (Z.lor (Z.shiftl (Z.land up 0x3F) 2) (Z.land r 0x03)) 0x03
  = Z.land r 0x03.
Proof.
  intros Hu Hr.
  pose (P := fun u r =>
               Z.land (Z.lor (Z.shiftl (Z.land u 0x3F) 2) (Z.land r 0x03)) 0x03
               =? Z.land r 0x03).
  assert (HP : P up r = true)
    by (apply (forallb_range2 P 256 256); [by vm_compute|lia|lia]).
  by apply Z.eqb_eq.
Qed.

(** X23: what the stream may contain besides well-formed pairs.  A byte
    whose top two bits are 00 or 11 changes neither the frame nor the index.
    Of two upper fragments in a row only the second counts.  A lower
    fragment that no upper fragment came before keeps bits 7:2 of what the
    frame held at that index, sets bits 1:0 and moves on. *)
Theorem fragment_stream_tolerance (Env : Type) (P : Platform Env)
    (raw_data : list Z) (x : nat) (r : Z) (w : world) :
  raw_data !! x = Some r -> 0 <= r < 256 ->
  (forall data,
      0 <= data < 256 -> Z.land data 0xC0 = 0x00 \/ Z.land data 0xC0 = 0xC0 ->
      grab_fragment (Env := Env) data raw_data x w = (Ret (raw_data, x), w))
  /\ (forall up1 up2,
        0 <= up1 < 256 -> Z.land up1 0xC0 = 0x40 ->
        0 <= up2 < 256 -> Z.land up2 0xC0 = 0x40 ->
        (grab_fragment (Env := Env) up1 raw_data x
           ≫= (fun '(raw, x') => grab_fragment up2 raw x')) w
        = grab_fragment up2 raw_data x w)
  /\ (forall lo,
        0 <= lo < 256 -> Z.land lo 0xC0 = 0x80 ->
        grab_fragment (Env := Env) lo raw_data x w
        = (Ret (<[x := Z.lor (Z.land r 0xFC) (Z.land (Z.shiftr lo 2) 0x03)]> raw_data,
                S x), w)).
Proof.
  intros Hr Hbyte.
  assert (Hx : (x < length raw_data)%nat) by (apply lookup_lt_is_Some; eauto).
  split; [|split].
  - intros data Hd Htag. rewrite grab_fragment_run by done.
    destruct (fragment_conditions data Hd) as [Hup Hlo].
    assert (Hnu : is_upper_fragment data = false)
      by (rewrite <- Hup; destruct Htag as [-> | ->]; reflexivity).
    assert (Hnl : is_lower_fragment data = false)
      by (rewrite <- Hlo; destruct Htag as [-> | ->]; reflexivity).
    unfold frame_step, pixel_after. cbn [fst snd].
    by rewrite Hr, Hnu, Hnl, list_insert_id.
  - intros up1 up2 H1 Ht1 H2 Ht2.
    destruct (fragment_conditions up1 H1) as [Hup1 _].
    destruct (fragment_conditions up2 H2) as [Hup2 _].
    rewrite Ht1 in Hup1. rewrite Ht2 in Hup2.
    change (0x40 =? 0x40) with true in Hup1, Hup2. symmetry in Hup1, Hup2.
    rewrite (bind_ret _ _ _ (frame_step (raw_data, x) up1) w)
      by (by apply grab_fragment_run).
    unfold frame_step at 1. cbn [fst snd].
    rewrite Hr, (fragment_exclusive up1 Hup1).
    rewrite !grab_fragment_run by (by rewrite ?length_insert).
    unfold frame_step. cbn [fst snd].
    rewrite list_lookup_insert_eq by done. rewrite Hr, list_insert_insert_eq.
    rewrite (pixel_after_upper up2 _ H2 (pixel_after_byte up1 r H1 Hbyte) Hup2).
    rewrite (pixel_after_upper up1 r H1 Hbyte Hup1), lower_bits_kept by done.
    by rewrite (pixel_after_upper up2 r H2 Hbyte Hup2).
  - intros lo Hl Ht.
    destruct (fragment_conditions lo Hl) as [_ Hlo].
    rewrite Ht in Hlo. change (0x80 =? 0x80) with true in Hlo. symmetry in Hlo.
    rewrite grab_fragment_run by done.
    unfold frame_step. cbn [fst snd].
    by rewrite Hr, Hlo, (pixel_after_lower lo r Hl Hbyte Hlo).
Qed.

Lemma fragment_stream_tolerance_witness :
  grab_fragment 0x3F [0x55] 0 (World (sim_chip [] []) [])
  = (Ret ([0x55], 0%nat), World (sim_chip [] []) []).
Proof.
  exact (proj1 (fragment_stream_tolerance sim sim_platform [0x55] 0 0x55
                  (World (sim_chip [] []) []) eq_refl ltac:(lia))
           0x3F ltac:(lia) ltac:(left; reflexivity)).
Defined.

(** ** Frame capture: the wait for the grab status *)

Section InitFacts.
Context {Env : Type} `{Platform Env}.

Local Abbreviation world := (world (Env := Env)).

Lemma grab_status_loop_shape self t_start timeout fuel : forall w : world,
  exists out w' evs,
    grab_status_loop fuel self t_start timeout w = (out, w')
    /\ log w' = log w ++ evs
    /\ status_shape self fuel t_start timeout out evs.
Proof.
  induction fuel as [|fuel IH]; intros w.
  - exists OutOfFuel, w, []. split; [done|]. split; [by rewrite app_nil_r|].
    exists []. by split.
  - destruct (read_int_total self REG_RAWDATA_GRAB_STATUS w)
      as (r0 & status & w1 & Hread & Hlog1 & Hstatus).
    cbn [grab_status_loop]. rewrite (bind_ret _ _ _ _ _ Hread).
    destruct (Z.eqb_spec (Z.land status 0xC0) 0) as [Hz|Hnz]; cbn [negb].
    + destruct (time_time_run w1) as (now & w2 & Ht & Hlog2).
      rewrite (bind_ret _ _ _ _ _ Ht).
      destruct (Qltb timeout (now - t_start)) eqn:Hlt.
      * exists (Raise (RuntimeError "Frame capture init timed out")), w2,
          (status_turn self (r0, status, now)).
        split; [done|].
        split; [unfold status_turn; by rewrite Hlog2, Hlog1, <- app_assoc|].
        exists []. split; [done|]. by exists r0, status, now.
      * destruct (IH w2) as (out & w' & evs & Hrun & Hlog & turns & Hturns & Hout).
        exists out, w', (status_turn self (r0, status, now) ++ evs).
        split; [done|].
        split; [unfold status_turn; by rewrite Hlog, Hlog2, Hlog1, <- !app_assoc|].
        exists ((r0, status, now) :: turns).
        split; [by constructor|].
        cbn [mbind list_bind].
        destruct out as [[]|e|].
        -- destruct Hout as (r0' & status' & ? & ? & ->).
           exists r0', status'. by rewrite <- app_assoc.
        -- destruct Hout as (r0' & status' & now' & ? & ? & ? & ->).
           exists r0', status', now'. by rewrite <- app_assoc.
        -- destruct Hout as (<- & ->). done.
    + exists (Ret tt), w1,
        (transaction self [REG_RAWDATA_GRAB_STATUS; 0] [r0; status]).
      split; [done|]. split; [done|].
      exists []. split; [done|]. by exists r0, status.
Qed.

End InitFacts.

(** X15: the first part of [frame_capture] plays its setup table, reads
    the clock and then polls the grab status register 0x59.  Every run of it
    goes through turns whose status has bits 7 and 6 clear and whose clock
    read is not past the timeout, and ends in one of three ways: on a status
    with bit 7 or bit 6 set, and only then is the grab register 0x58 written
    zero; or on a clock read past the timeout, with the error raised and the
    grab register left alone; or with the fuel of the model spent.  The
    status is read before the clock is, so one status read always happens. *)
Theorem frame_capture_init_shape (Env : Type) (P : Platform Env) fuel self
    (timeout : Q) (w : world) :
  exists w0 t_start out w1 evs,
    _bulk_write self frame_capture_setup w = (Ret tt, w0)
    /\ actions (log w0)
       = actions (log w)
         ++ [Transmit [0xFF; 0x07]; Transmit [0xCC; 0x00]; Transmit [0xFF; 0x08];
             Transmit [0xEA; 0x38]; Transmit [0xFF; 0x00]; Transmit [0xD5; 0x04];
             Transmit [0xC0; 0x80]; Transmit [0xCD; 0x11]; Pause (10 # 1000);
             Transmit [0xFF; 0x00]; Transmit [0xD8; 0xFF]]
    /\ log w1 = log w0 ++ TimeRead t_start :: evs
    /\ status_shape self fuel t_start timeout out evs
    /\ match out with
       | Ret _ =>
           exists rx w2,
             frame_capture_init fuel self timeout w = (Ret tt, w2)
             /\ log w2 = log w1 ++ transaction self [0xD8; 0x00] rx
       | _ => frame_capture_init fuel self timeout w = (out, w1)
       end.
Proof.
  destruct (_bulk_write_table_run self frame_capture_setup w eq_refl)
    as (w0 & Hsetup & Hlog0).
  destruct (time_time_run w0) as (t_start & wt & Ht & Hlogt).
  destruct (grab_status_loop_shape self t_start timeout fuel wt)
    as (out & w1 & evs & Hloop & Hlog1 & Hshape).
  exists w0, t_start, out, w1, evs.
  split; [done|]. split; [exact Hlog0|].
  split; [by rewrite Hlog1, Hlogt, <- app_assoc|]. split; [done|].
  unfold frame_capture_init.
  rewrite (bind_ret _ _ _ _ _ Hsetup), (bind_ret _ _ _ _ _ Ht).
  destruct out as [[]|e|].
  - destruct (_write_run self REG_RAWDATA_GRAB 0x00 w1) as (rx & w2 & Hw & Hlog2).
    exists rx, w2. by rewrite (bind_ret _ _ _ _ _ Hloop).
  - by rewrite (bind_raise _ _ _ _ _ Hloop).
  - by rewrite (bind_out_of_fuel _ _ _ _ Hloop).
Qed.

(** X16: the streaming loop of [frame_capture] reads the grab register
    before it looks at the clock, so one byte is always read, whatever the
    timeout.  If the clock read that follows this first byte is already past
    the timeout, the capture raises there, reporting one value if the byte
    was a lower fragment and none if it was not. *)
Theorem frame_capture_stream_first_read (Env : Type) (P : Platform Env) fuel
    self (timeout : Q) (w : world) :
  exists t_start r0 data evs,
    0 <= data < 256
    /\ log (frame_capture_stream (S fuel) self timeout w).2
       = log w ++ TimeRead t_start
               :: transaction self [REG_RAWDATA_GRAB; 0] [r0; data] ++ evs
    /\ (forall now,
          head evs = Some (TimeRead now) ->
          Qltb timeout (now - t_start) = true ->
          (frame_capture_stream (S fuel) self timeout w).1
          = Raise (RuntimeError
                     ("Raw data capture timeout, got "
                      +:+ (if is_lower_fragment data then "1" else "0")
                      +:+ " values"))
          /\ evs = [TimeRead now]).
Proof.
  destruct (frame_capture_stream_shape (S fuel) self timeout w)
    as (t_start & out & w' & evs & Hrun & Hlog & turns & Hturns & Hidx & Hout).
  rewrite Hrun. cbn [fst snd]. cbv zeta in Hidx, Hout.
  destruct turns as [|[[r0 data] t] turns].
  - cbn [fmap list_fmap fold_left mbind list_bind app] in Hidx, Hout.
    destruct out as [frame|e|].
    + destruct Hout as (r0 & data & Hdata & Hstep & ->).
      exists t_start, r0, data, []. split; [done|].
      split; [by rewrite Hlog, app_nil_r|]. intros now Hhd. discriminate Hhd.
    + destruct Hout as (r0 & data & now & Hdata & _ & Hlt & -> & ->).
      exists t_start, r0, data, [TimeRead now]. split; [done|].
      split; [done|]. intros now' [= <-] _. split; [|done].
      unfold frame_step. cbn [fst snd].
      by destruct (is_lower_fragment data).
    + destruct Hout as [Hlen _]. discriminate Hlen.
  - inversion Hturns as [|? ? [Hnot Hdata] Hturns']; subst. cbn [fst snd] in Hnot, Hdata.
    assert (Hevs : exists evs', evs = transaction self [REG_RAWDATA_GRAB; 0] [r0; data]
                                      ++ TimeRead t :: evs').
    { destruct out as [frame|e|]; cbn [mbind list_bind] in Hout.
      - destruct Hout as (? & ? & _ & _ & ->).
        eexists. unfold grab_turn at 1. cbn [fst snd].
        rewrite <- !app_assoc. reflexivity.
      - destruct Hout as (? & ? & ? & _ & _ & _ & _ & ->).
        eexists. unfold grab_turn at 1. cbn [fst snd].
        rewrite <- !app_assoc. reflexivity.
      - destruct Hout as (_ & ->).
        eexists. unfold grab_turn at 1. cbn [fst snd].
        rewrite <- !app_assoc. reflexivity. }
    destruct Hevs as (evs' & ->).
    exists t_start, r0, data, (TimeRead t :: evs'). split; [done|].
    split; [done|]. intros now [= <-] Hlt. congruence.
Qed.

Lemma frame_capture_stream_first_read_witness :
  (frame_capture_stream 1 (Sensor PMW3901 None) (-1)
     (World (sim_chip [] [0x8C]) [])).1
  = Raise (RuntimeError "Raw data capture timeout, got 1 values").
Proof.
  destruct (frame_capture_stream_first_read sim sim_platform 0
              (Sensor PMW3901 None) (-1) (World (sim_chip [] [0x8C]) []))
    as (t_start & r0 & data & evs & _ & Hlog & Hraise).
  vm_compute in Hlog. injection Hlog as <- <- <- <-.
  exact (proj1 (Hraise sim_tick eq_refl eq_refl)).
Defined.

(** ** Frame capture: a whole frame on the simulated chip *)

Lemma pixel_after_encode (p r : Z) :
  0 <= p < 256 -> 0 <= r < 256 ->
  let up := Z.lor 0x40 (Z.shiftr p 2) in
  let lo := Z.lor 0x80 (Z.shiftl (Z.land p 0x03) 2) in
  (0 <= up < 256 /\ is_upper_fragment up = true /\ is_lower_fragment up = false)
  /\ (0 <= lo < 256 /\ is_lower_fragment lo = true)
  /\ pixel_after lo (pixel_after up r) = p.
Proof.
  intros Hp Hr up lo.
  destruct (encode_pixel_spec p Hp) as ((Hu & Hup) & (Hl & Hlo) & Hback).
  fold up in Hu, Hup, Hback. fold lo in Hl, Hlo, Hback.
  destruct (fragment_conditions up Hu) as [Hup' _].
  destruct (fragment_conditions lo Hl) as [_ Hlo'].
  rewrite Hup in Hup'. rewrite Hlo in Hlo'.
  change (0x40 =? 0x40) with true in Hup'.
  change (0x80 =? 0x80) with true in Hlo'.
  symmetry in Hup', Hlo'.
  split; [by split; [|split; [|apply fragment_exclusive]]|]. split; [done|].
  rewrite (pixel_after_lower lo _ Hl (pixel_after_byte up r Hu Hr) Hlo').
  by rewrite (pixel_after_upper up r Hu Hr Hup'), upper_bits_kept.
Qed.

(** One turn of the streaming loop on the simulated chip, a byte being
    queued on the grab register. *)
Lemma sim_grab_turn self (t_start timeout : Q) fuel raw_data x (w : world (Env := sim))
    b fifo :
  sim_fifo (env w) = b :: fifo -> 0 <= b < 256 -> (x < length raw_data)%nat ->
  let clock := Qred (sim_clock (env w) + sim_tick) in
  let e1 := Sim (sim_regs (env w)) fifo clock in
  let log1 := log w ++ transaction self [REG_RAWDATA_GRAB; 0] [0; b] in
  grab_loop (S fuel) self t_start timeout raw_data x w
  = if ((frame_step (raw_data, x) b).2 =? RAW_DATA_LEN)%nat
    then (Ret (frame_step (raw_data, x) b).1, World e1 log1)
    else if Qltb timeout (clock - t_start)
         then (Raise (RuntimeError ("Raw data capture timeout, got "
                                    +:+ pretty (frame_step (raw_data, x) b).2
                                    +:+ " values")),
               World e1 (log1 ++ [TimeRead clock]))
         else grab_loop fuel self t_start timeout (frame_step (raw_data, x) b).1
                        (frame_step (raw_data, x) b).2
                        (World e1 (log1 ++ [TimeRead clock])).
Proof.
  intros Hfifo Hb Hx clock e1 log1.
  assert (Hread : (_read self REG_RAWDATA_GRAB 1 ≫= as_int) w
                  = (Ret b, World e1 log1)).
  { apply read_int_run. rewrite sim_read_one_world.
    unfold sim_xfer2. rewrite Hfifo.
    cbn. rewrite Z.mod_small by done. reflexivity. }
  cbn [grab_loop]. rewrite (bind_ret _ _ _ _ _ Hread).
  rewrite (bind_ret _ _ _ _ _ (grab_fragment_run b raw_data x _ Hb Hx)).
  destruct (frame_step (raw_data, x) b) as [raw1 x1]. cbn [fst snd].
  destruct (x1 =? RAW_DATA_LEN)%nat; [done|].
  rewrite (bind_ret _ _ _ _ _ (sim_time_time _)). cbn [env log].
  subst e1. cbn [sim_clock]. by destruct (Qltb timeout (clock - t_start)).
Qed.

Lemma insert_middle {A : Type} (pre : list A) (r v : A) (junk : list A) :
  <[length pre := v]> (pre ++ r :: junk) = pre ++ v :: junk.
Proof. rewrite insert_app_r_alt by lia. by rewrite Nat.sub_diag. Qed.

Lemma sim_grab_loop_decodes self (t_start timeout : Q) :
  forall img pre junk fuel (w : world (Env := sim)) tail,
    Forall (fun p => 0 <= p < 256) img ->
    Forall (fun p => 0 <= p < 256) junk ->
    length junk = length img ->
    (length pre + length img = RAW_DATA_LEN)%nat ->
    img ≠ [] ->
    sim_fifo (env w) = encode_frame img ++ tail ->
    (sim_clock (env w) - t_start
     + inject_Z (Z.of_nat (2 * length img)) * sim_tick <= timeout)%Q ->
    (grab_loop (2 * length img + fuel) self t_start timeout (pre ++ junk)
               (length pre) w).1
    = Ret (pre ++ img).
Proof.
  induction img as [|p img IH];
    intros pre junk fuel w tail Himg Hjunk Hlen Htotal Hne Hfifo Htime; [done|].
  destruct junk as [|r junk]; [discriminate Hlen|].
  inversion Himg as [|? ? Hp Himg']; subst.
  inversion Hjunk as [|? ? Hr Hjunk']; subst.
  cbn [length] in Hlen, Htotal, Htime |- *.
  destruct (pixel_after_encode p r Hp Hr) as ((Hu & Hup & Hupl) & (Hl & Hlo) & Hpix).
  cbv zeta in Hu, Hup, Hupl, Hl, Hlo, Hpix.
  change (encode_frame (p :: img))
    with (Z.lor 0x40 (Z.shiftr p 2)
          :: Z.lor 0x80 (Z.shiftl (Z.land p 0x03) 2) :: encode_frame img) in Hfifo.
  cbn [app] in Hfifo.
  replace (2 * S (length img) + fuel)%nat
    with (S (S (2 * length img + fuel))) by lia.
  assert (Hq : exists q z : Q,
             (0 <= q)%Q
             /\ z = inject_Z (Z.of_nat (2 * length img))
             /\ (z == 2 * q)%Q
             /\ (sim_clock (env w) - t_start + (2 * q + 2) * sim_tick
                 <= timeout)%Q).
  { exists (inject_Z (Z.of_nat (length img))), (inject_Z (Z.of_nat (2 * length img))).
    split; [change 0%Q with (inject_Z 0); rewrite <- Zle_Qle; lia|].
    split; [done|].
    split.
    { replace (Z.of_nat (2 * length img)) with (2 * Z.of_nat (length img))%Z by lia.
      by rewrite inject_Z_mult. }
    replace (Z.of_nat (2 * S (length img)))
      with (2 * Z.of_nat (length img) + 2)%Z in Htime by lia.
    rewrite inject_Z_plus, inject_Z_mult in Htime.
    change (inject_Z 2) with 2%Q in Htime.
    generalize dependent (inject_Z (Z.of_nat (length img))). intros q Htime.
    unfold sim_tick in *. lra. }
  destruct Hq as (q & z & Hq0 & Hz & Hzq & Htime'). clear Htime.
  assert (Hx : (length pre < length (pre ++ r :: junk))%nat)
    by (rewrite length_app; cbn [length]; lia).
  (* the upper fragment *)
  rewrite (sim_grab_turn self t_start timeout _ _ _ w _ _ Hfifo Hu Hx).
  unfold frame_step at 1 2 3 4 5. cbn [fst snd].
  rewrite list_lookup_middle by done. rewrite Hupl.
  rewrite !insert_middle.
  destruct (Nat.eqb_spec (length pre) RAW_DATA_LEN) as [Heq|_]; [lia|].
  pose proof (Qred_correct (sim_clock (env w) + sim_tick)) as Hc1.
  set (c1 := Qred (sim_clock (env w) + sim_tick)) in *.
  assert (Hlt1 : Qltb timeout (c1 - t_start) = false).
  { apply Qltb_false. unfold sim_tick in *. lra. }
  rewrite Hlt1.
  (* the lower fragment *)
  assert (Hx2 : (length pre < length (pre ++ pixel_after (Z.lor 0x40 (Z.shiftr p 2)) r :: junk))%nat)
    by (rewrite length_app; cbn [length]; lia).
  match goal with
  | |- context [grab_loop _ _ _ _ _ _ ?w1] =>
      rewrite (sim_grab_turn self t_start timeout _ _ _ w1 _ _ eq_refl Hl Hx2)
  end.
  cbn [env log sim_regs sim_clock].
  unfold frame_step at 1 2 3 4 5. cbn [fst snd].
  rewrite list_lookup_middle by done. rewrite Hlo, Hpix.
  rewrite !insert_middle.
  destruct (Nat.eqb_spec (S (length pre)) RAW_DATA_LEN) as [Heq|Hneq].
  - destruct img as [|? ?]; [|cbn [length] in Htotal; lia].
    by destruct junk.
  - pose proof (Qred_correct (c1 + sim_tick)) as Hc2.
    set (c2 := Qred (c1 + sim_tick)) in *.
    assert (Himg0 : img ≠ []) by (intros ->; cbn [length] in Htotal; lia).
    assert (Hlt2 : Qltb timeout (c2 - t_start) = false).
    { apply Qltb_false. unfold sim_tick in *. lra. }
    rewrite Hlt2.
    replace (pre ++ p :: junk) with ((pre ++ [p]) ++ junk)
      by (by rewrite <- app_assoc).
    replace (pre ++ p :: img) with ((pre ++ [p]) ++ img)
      by (by rewrite <- app_assoc).
    replace (S (length pre)) with (length (pre ++ [p]))
      by (rewrite length_app; cbn [length]; lia).
    apply (IH (pre ++ [p]) junk fuel _ tail); try done.
    + by injection Hlen.
    + rewrite length_app. cbn [length]. lia.
    + cbn [env sim_clock]. rewrite <- Hz. unfold sim_tick in *. lra.
Qed.

Lemma forallb_bytes (l : list Z) :
  forallb is_byte l = true -> Forall (fun b => 0 <= b < 256) l.
Proof.
  intros Hl. apply Forall_forall. intros b Hb.
  rewrite forallb_forall in Hl. apply list_elem_of_In, Hl in Hb.
  unfold is_byte in Hb. apply andb_prop in Hb as [H1 H2]. lia.
Qed.

(** A register read on the simulated chip away from the grab register. *)
Lemma sim_xfer2_read_register (s : sim) addr :
  0 <= addr <= 0x7F -> addr <> REG_RAWDATA_GRAB ->
  sim_xfer2 s [addr; 0] = ([0; sim_reg s addr], sim_advance s sim_tick).
Proof.
  intros Ha Hne. destruct (register_address_bits addr Ha) as (_ & _ & Hb3).
  unfold sim_xfer2. rewrite Hb3. cbn [Z.eqb negb length seq fmap list_fmap].
  rewrite Z.add_0_r. destruct (decide (addr = REG_RAWDATA_GRAB)); [done|].
  by destruct (sim_fifo s).
Qed.

(** A write on the simulated chip leaves the queue and every other
    register as they were. *)
Lemma sim_write_keeps self (w : world (Env := sim)) r v k :
  0 <= r <= 0x7F -> r <> k ->
  exists w',
    _write self r v w = (Ret tt, w')
    /\ sim_fifo (env w') = sim_fifo (env w)
    /\ sim_regs (env w') !! k = sim_regs (env w) !! k.
Proof.
  intros Hr Hne. eexists. split; [apply sim_write_world|].
  cbn [env]. rewrite (sim_xfer2_write _ r v Hr). cbn [snd sim_fifo sim_regs].
  split; [done|]. by rewrite lookup_insert_ne.
Qed.

Lemma sim_bulk_write_keeps self (k : Z) (ps : list (Z * Z)) :
  forallb (step_keeps k) ps = true ->
  forall w : world (Env := sim),
    exists w',
      _bulk_write self (flatten_pairs ps) w = (Ret tt, w')
      /\ sim_fifo (env w') = sim_fifo (env w)
      /\ sim_regs (env w') !! k = sim_regs (env w) !! k.
Proof.
  induction ps as [|p ps IH]; intros Hps w; [by exists w|].
  cbn [forallb] in Hps. apply andb_prop in Hps as [Hp Hps].
  change (flatten_pairs (p :: ps)) with (p.1 :: p.2 :: flatten_pairs ps).
  rewrite _bulk_write_cons2.
  assert (Hstep : exists w1,
             (if p.1 =? WAIT then time_sleep (inject_Z p.2 / 1000)
              else _write self p.1 p.2) w = (Ret tt, w1)
             /\ sim_fifo (env w1) = sim_fifo (env w)
             /\ sim_regs (env w1) !! k = sim_regs (env w) !! k).
  { unfold step_keeps in Hp. destruct (Z.eqb_spec p.1 WAIT) as [Hw|Hw].
    - cbn [andb orb] in Hp. apply orb_prop in Hp as [Hp|Hp].
      + unfold time_sleep. rewrite Qltb_ms_nonneg by lia. by eexists.
      + rewrite Hw in Hp. discriminate Hp.
    - cbn [andb orb] in Hp.
      apply andb_prop in Hp as [Hp Hk]. apply andb_prop in Hp as [H0 H1].
      apply sim_write_keeps; [lia|].
      apply negb_true_iff, Z.eqb_neq in Hk. done. }
  destruct Hstep as (w1 & Hstep & Hf1 & Hr1).
  destruct (IH Hps w1) as (w' & Hrun & Hf & Hr).
  exists w'. rewrite (bind_ret _ _ _ _ _ Hstep).
  split; [done|]. split; congruence.
Qed.

(** The first part of [frame_capture] on a simulated chip whose grab
    status is ready: it returns, and the queue is as it was. *)
Lemma sim_frame_capture_init self (timeout : Q) fuel (w : world (Env := sim)) :
  Z.land (sim_reg (env w) REG_RAWDATA_GRAB_STATUS) 0xC0 <> 0 ->
  exists w',
    frame_capture_init (S fuel) self timeout w = (Ret tt, w')
    /\ sim_fifo (env w') = sim_fifo (env w).
Proof.
  intros Hstatus.
  destruct (sim_bulk_write_keeps self REG_RAWDATA_GRAB_STATUS
              (pairs_of frame_capture_setup) eq_refl w)
    as (w0 & Hsetup & Hf0 & Hr0).
  change (flatten_pairs (pairs_of frame_capture_setup))
    with frame_capture_setup in Hsetup.
  pose proof (sim_read_one_world self
                (World (env w0) (log w0 ++ [TimeRead (sim_clock (env w0))]))
                REG_RAWDATA_GRAB_STATUS) as Hread.
  cbv zeta in Hread. cbn [env log] in Hread.
  rewrite sim_xfer2_read_register in Hread by done.
  cbn [fst snd lookup list_lookup default] in Hread. unfold id in Hread.
  assert (Hreg : sim_reg (env w0) REG_RAWDATA_GRAB_STATUS
                 = sim_reg (env w) REG_RAWDATA_GRAB_STATUS)
    by (unfold sim_reg; by rewrite Hr0).
  match type of Hread with
  | _ = (_, ?w1) =>
      destruct (sim_write_keeps self w1 REG_RAWDATA_GRAB 0x00 0 ltac:(done) ltac:(done))
        as (w2 & Hwrite & Hf2 & _)
  end.
  exists w2. split.
  - unfold frame_capture_init.
    rewrite (bind_ret _ _ _ _ _ Hsetup), (bind_ret _ _ _ _ _ (sim_time_time w0)).
    match type of Hread with
    | _ = (_, ?w1) =>
        assert (Hloop : grab_status_loop (S fuel) self (sim_clock (env w0)) timeout
                          (World (env w0) (log w0 ++ [TimeRead (sim_clock (env w0))]))
                        = (Ret tt, w1))
    end.
    { cbn [grab_status_loop].
      rewrite (bind_ret _ _ _ _ _ (read_int_run _ _ _ _ _ Hread)), Hreg.
      by destruct (Z.eqb_spec (Z.land (sim_reg (env w) REG_RAWDATA_GRAB_STATUS) 0xC0) 0). }
    rewrite (bind_ret _ _ _ _ _ Hloop). exact Hwrite.
  - rewrite Hf2. cbn [env sim_advance sim_fifo]. exact Hf0.
Qed.

(** X17: a whole frame comes back as it was sent.  On the simulated
    chip, whose grab status is ready and which queues the 1225 pixels of an
    image on its grab register, each as the upper and the lower fragment the
    driver's comments describe, [frame_capture] returns exactly that image:
    2450 turns of the loop are enough, and so is any timeout that covers the
    time the 2450 transactions take. *)
Theorem frame_capture_round_trip self (img tail : list Z) (timeout : Q)
    (fuel : nat) (s : sim) (evs : list event) :
  length img = 1225%nat -> forallb is_byte img = true ->
  sim_fifo s = encode_frame img ++ tail ->
  Z.land (sim_reg s REG_RAWDATA_GRAB_STATUS) 0xC0 <> 0 ->
  (2450 * sim_tick <= timeout)%Q ->
  (frame_capture (2450 + fuel) self timeout (World s evs)).1 = Ret img.
Proof.
  intros Hlen Hbytes Hfifo Hstatus Htime.
  destruct (sim_frame_capture_init self timeout (2449 + fuel) (World s evs) Hstatus)
    as (w1 & Hinit & Hf1).
  unfold frame_capture.
  change (2450 + fuel)%nat with (S (2449 + fuel)).
  rewrite (bind_ret _ _ _ _ _ Hinit).
  unfold frame_capture_stream.
  rewrite (bind_ret _ _ _ _ _ (sim_time_time w1)).
  pose proof (sim_grab_loop_decodes self (sim_clock (env w1)) timeout img []
                (replicate RAW_DATA_LEN 0) fuel
                (World (env w1) (log w1 ++ [TimeRead (sim_clock (env w1))]))
                tail) as Hdec.
  rewrite Hlen in Hdec. apply Hdec; clear Hdec.
  - by apply forallb_bytes.
  - apply Forall_forall. intros p Hp. apply elem_of_replicate in Hp as [-> _]. lia.
  - by rewrite length_replicate.
  - done.
  - intros ->. discriminate Hlen.
  - cbn [env]. by rewrite Hf1.
  - cbn [env]. change (inject_Z (Z.of_nat (2 * 1225))) with 2450%Q.
    lra.
Qed.

Lemma frame_capture_round_trip_witness :
  (frame_capture 2450 (Sensor PAA5100 (Some 7)) 10
     (World (sim_chip [(REG_RAWDATA_GRAB_STATUS, 0x40)]
                      (encode_frame (replicate 1225 0xA9))) [])).1
  = Ret (replicate 1225 0xA9).
Proof.
  exact (frame_capture_round_trip (Sensor PAA5100 (Some 7)) (replicate 1225 0xA9)
           [] 10 0 (sim_chip [(REG_RAWDATA_GRAB_STATUS, 0x40)]
                             (encode_frame (replicate 1225 0xA9))) []
           ltac:(vm_compute; reflexivity) ltac:(vm_compute; reflexivity)
           ltac:(vm_compute; reflexivity) ltac:(vm_compute; discriminate)
           ltac:(vm_compute; discriminate)).
Defined.

(** ** The chip-select discipline *)


Section Discipline.
Context {Env : Type} `{Platform Env}.
Variable self : sensor.

Local Abbreviation M := (M (Env := Env)).



























End Discipline.



(** ** Motion reads: an expired deadline, and the values the chip holds *)

(** X18: when the first clock read of the loop already finds the timeout
    used up (as with a timeout of zero, or a negative one, on a clock that
    does not run backwards), both motion reads raise the timeout error at
    once: the two clock reads are all that happened, and no transfer was
    made. *)
Theorem motion_reads_expired (Env : Type) (P : Platform Env) fuel self
    (timeout : Q) (w : world) (t_start now : Q) (e1 e2 : Env) :
  clock_time (env w) = (t_start, e1) ->
  clock_time e1 = (now, e2) ->
  (timeout <= now - t_start)%Q ->
  get_motion (S fuel) self timeout w
  = (Raise (RuntimeError "Timed out waiting for motion data."),
     World e2 (log w ++ [TimeRead t_start; TimeRead now]))
  /\ get_motion_slow (S fuel) self timeout w
     = (Raise (RuntimeError "Timed out waiting for motion data."),
        World e2 (log w ++ [TimeRead t_start; TimeRead now])).
Proof.
  intros H0 H1 Hlate.
  assert (Ht0 : time_time w = (Ret t_start, World e1 (log w ++ [TimeRead t_start])))
    by (unfold time_time; by rewrite H0).
  assert (Ht1 : time_time (World e1 (log w ++ [TimeRead t_start]))
                = (Ret now, World e2 (log w ++ [TimeRead t_start; TimeRead now]))).
  { unfold time_time. cbn [env log]. rewrite H1. cbn [fst snd].
    by rewrite <- app_assoc. }
  assert (Hlt : Qltb (now - t_start) timeout = false) by (by apply Qltb_false).
  split.
  - unfold get_motion. rewrite (bind_ret _ _ _ _ _ Ht0).
    by apply get_motion_loop_deadline with now.
  - unfold get_motion_slow. rewrite (bind_ret _ _ _ _ _ Ht0).
    by apply get_motion_slow_loop_deadline with now.
Qed.

Lemma motion_reads_expired_witness :
  get_motion 1 (Sensor PMW3901 None) 0
    (World (sim_chip [(0x16, 0x80)] []) [])
  = (Raise (RuntimeError "Timed out waiting for motion data."),
     World (sim_chip [(0x16, 0x80)] []) [TimeRead 0; TimeRead 0]).
Proof.
  exact (proj1 (motion_reads_expired sim sim_platform 0 (Sensor PMW3901 None) 0
                  (World (sim_chip [(0x16, 0x80)] []) []) 0 0
                  (sim_chip [(0x16, 0x80)] []) (sim_chip [(0x16, 0x80)] [])
                  eq_refl eq_refl ltac:(vm_compute; discriminate))).
Defined.

Lemma int16_bytes_back (v : Z) :
  -32768 <= v < 32768 ->
  (0 <= v `mod` 256 < 256 /\ 0 <= (v / 256) `mod` 256 < 256)
  /\ spec_int16 (v `mod` 256) ((v / 256) `mod` 256) = v.
Proof.
  intros Hv. split; [split; apply Z.mod_pos_bound; lia|].
  pose proof (Z.div_mod v 256 ltac:(lia)) as Hdiv.
  pose proof (Z.mod_pos_bound v 256 ltac:(lia)) as Hlo.
  assert (Hhi : (v / 256) `mod` 256
                = if decide (0 <= v / 256) then v / 256 else v / 256 + 256).
  { case_decide.
    - apply Z.mod_small. lia.
    - rewrite <- (Z_mod_plus_full (v / 256) 1 256).
      rewrite Z.mul_1_l. apply Z.mod_small. lia. }
  rewrite Hhi. unfold spec_int16. cbv zeta. repeat case_decide; lia.
Qed.

(** Reading registers of the simulated chip, the grab register apart. *)
Lemma sim_read_loop_registers self register xs :
  forall result (w : world (Env := sim)),
    Forall (fun x => 0 <= register + x <= 0x7F /\ register + x <> REG_RAWDATA_GRAB)
           xs ->
    exists w',
      _read_loop self register xs result w
      = (Ret (result ++ ((fun x => sim_reg (env w) (register + x)) <$> xs)), w')
      /\ sim_regs (env w') = sim_regs (env w).
Proof.
  induction xs as [|x xs IH]; intros result w Hxs.
  - exists w. cbn. by rewrite app_nil_r.
  - inversion Hxs as [|? ? [Hx Hne] Hxs']; subst.
    cbn [_read_loop]. rewrite sim_bracketed.
    rewrite sim_xfer2_read_register by done.
    cbn [fst snd getitem lookup list_lookup].
    unfold mbind at 1, M_bind at 1, mret at 1, M_ret at 1. cbn beta iota.
    destruct (IH (result ++ [sim_reg (env w) (register + x)])
                 (World (sim_advance (env w) sim_tick)
                        (log w ++ transaction self [register + x; 0]
                                      [0; sim_reg (env w) (register + x)])) Hxs')
      as (w' & Hrun & Hregs).
    exists w'. split.
    + rewrite Hrun. cbn [env fmap list_fmap]. rewrite <- app_assoc.
      unfold sim_reg. by cbn [sim_advance sim_regs].
    + by rewrite Hregs.
Qed.

(** X19: the slow read reports the deltas the chip holds.  On the
    simulated chip, with bit 7 of the data-ready register 0x02 set and the
    registers 0x03 to 0x06 holding two signed 16-bit values, low byte first,
    [get_motion_slow] returns exactly those two values, for any timeout
    above zero. *)
Theorem get_motion_slow_round_trip self (x y : Z) (timeout : Q) (fuel : nat)
    (s : sim) (evs : list event) :
  -32768 <= x < 32768 -> -32768 <= y < 32768 -> (0 < timeout)%Q ->
  Z.testbit (sim_reg s 0x02) 7 = true ->
  [sim_reg s 0x03; sim_reg s 0x04; sim_reg s 0x05; sim_reg s 0x06]
  = int16_bytes x ++ int16_bytes y ->
  (get_motion_slow (S fuel) self timeout (World s evs)).1 = Ret (x, y).
Proof.
  intros Hx Hy Htimeout Hdr [= H3 H4 H5 H6].
  destruct (int16_bytes_back x Hx) as [_ Hxb].
  destruct (int16_bytes_back y Hy) as [_ Hyb].
  set (wa := World s (evs ++ [TimeRead (sim_clock s)]) : world (Env := sim)).
  set (w1 := World s (log wa ++ [TimeRead (sim_clock s)]) : world (Env := sim)).
  destruct (sim_read_loop_registers self REG_DATA_READY (range 5) [] w1)
    as (wd & Hloop & _).
  { change (range 5) with [0; 1; 2; 3; 4].
    repeat (constructor; [by vm_compute|]). constructor. }
  change (range 5) with [0; 1; 2; 3; 4] in Hloop.
  cbn [fmap list_fmap app env] in Hloop. subst w1. cbn [env] in Hloop.
  change (REG_DATA_READY + 0) with 0x02 in Hloop.
  change (REG_DATA_READY + 1) with 0x03 in Hloop.
  change (REG_DATA_READY + 2) with 0x04 in Hloop.
  change (REG_DATA_READY + 3) with 0x05 in Hloop.
  change (REG_DATA_READY + 4) with 0x06 in Hloop.
  rewrite H3, H4, H5, H6 in Hloop.
  assert (Hread : _read self REG_DATA_READY 5
                    (World s (log wa ++ [TimeRead (sim_clock s)]))
                  = (Ret (PyList [(0, sim_reg s 0x02); (0, x `mod` 256);
                                  (0, (x / 256) `mod` 256); (0, y `mod` 256);
                                  (0, (y / 256) `mod` 256)].*2), wd)).
  { unfold _read. change (range 5) with [0; 1; 2; 3; 4].
    by rewrite (bind_ret _ _ _ _ _ Hloop). }
  unfold get_motion_slow.
  rewrite (bind_ret _ _ _ _ _ (sim_time_time (World s evs))).
  cbn [env log]. fold wa.
  rewrite (get_motion_slow_loop_round fuel self (sim_clock s) timeout wa _ wd
             (sim_clock s) _ (sim_time_time wa)
             ltac:(apply Qltb_true; lra) Hread).
  cbn [fmap list_fmap snd slow_accepts slow_deltas]. rewrite Hdr.
  by rewrite Hxb, Hyb.
Qed.

Lemma get_motion_slow_round_trip_witness :
  (get_motion_slow 1 (Sensor PMW3901 None) 5
     (World (sim_chip [(0x02, 0x80); (0x03, 0xFE); (0x04, 0xFF); (0x05, 0x39);
                       (0x06, 0x30)] []) [])).1
  = Ret (-2, 12345).
Proof.
  exact (get_motion_slow_round_trip (Sensor PMW3901 None) (-2) 12345 5 0
           (sim_chip [(0x02, 0x80); (0x03, 0xFE); (0x04, 0xFF); (0x05, 0x39);
                      (0x06, 0x30)] []) []
           ltac:(lia) ltac:(lia) ltac:(vm_compute; reflexivity)
           ltac:(vm_compute; reflexivity) ltac:(vm_compute; reflexivity)).
Defined.

(** X20: the burst read reports the deltas the chip sent.  If a round of
    the loop starts before the deadline and the thirteen bytes that come
    back carry, in bytes 3 to 6, two signed 16-bit values low byte first,
    with bit 7 of byte 1 set and the quality filter not tripping, then
    [get_motion] returns exactly those two values. *)
Theorem get_motion_round_trip (Env : Type) (P : Platform Env) fuel self
    (timeout : Q) (w w0 wa wd : world) (t_start now : Q)
    (pad dr obs quality raw_sum raw_max raw_min shutter_upper shutter_lower : Z)
    (x y : Z) :
  time_time w = (Ret t_start, w0) ->
  time_time w0 = (Ret now, wa) ->
  Qltb (now - t_start) timeout = true ->
  burst_transfer self wa
  = (Ret ([pad; dr; obs] ++ int16_bytes x ++ int16_bytes y
          ++ [quality; raw_sum; raw_max; raw_min; shutter_upper; shutter_lower]),
     wd) ->
  -32768 <= x < 32768 -> -32768 <= y < 32768 ->
  Z.testbit dr 7 = true -> ~ (quality < 0x19 /\ shutter_upper = 0x1F) ->
  get_motion (S fuel) self timeout w = (Ret (x, y), wd).
Proof.
  intros Ht0 Ht1 Hlt Hburst Hx Hy Hdr Hfilter.
  destruct (int16_bytes_back x Hx) as [_ Hxb].
  destruct (int16_bytes_back y Hy) as [_ Hyb].
  unfold get_motion. rewrite (bind_ret _ _ _ _ _ Ht0).
  rewrite (get_motion_loop_round fuel self t_start timeout w0 wa wd now _
             Ht1 Hlt Hburst).
  cbn [app int16_bytes burst_accepts burst_deltas].
  unfold spec_sample_valid. rewrite Hdr, Hxb, Hyb.
  destruct (bool_decide_reflect (quality < 0x19)),
    (bool_decide_reflect (shutter_upper = 0x1F)); cbn; tauto.
Qed.

Lemma get_motion_round_trip_witness :
  let w : world :=
    World (sim_chip [(0x16, 0x80); (0x18, 0xFE); (0x19, 0xFF); (0x1A, 0x39);
                     (0x1B, 0x30); (0x1C, 0x19); (0x20, 0x1F)] []) [] in
  (get_motion 1 (Sensor PMW3901 None) 5 w).1 = Ret (-2, 12345).
Proof.
  intros w.
  pose (w0 := (time_time w).2). pose (wa := (time_time w0).2).
  pose (wd := (burst_transfer (Sensor PMW3901 None) wa).2).
  rewrite (get_motion_round_trip sim sim_platform 0 (Sensor PMW3901 None) 5
             w w0 wa wd 0 0 0 0x80 0 0x19 0 0 0 0x1F 0 (-2) 12345
             eq_refl eq_refl eq_refl ltac:(vm_compute; reflexivity)
             ltac:(lia) ltac:(lia) eq_refl ltac:(lia)).
  reflexivity.
Defined.

(** ** Bring-up: what the constructor does first *)

Section BringUpTrace.
Context {Env : Type} `{Platform Env}.

Local Abbreviation world := (world (Env := Env)).

(** The flush after the reset, with what it logs. *)
Lemma flush_run_log self (offsets : list Z) : forall w : world,
  exists (rs : list (Z * Z)) w',
    for_each offsets (fun offset => _read self (REG_DATA_READY + offset) 1 ;; mret tt) w
    = (Ret tt, w')
    /\ log w' = log w ++ read_events self REG_DATA_READY offsets rs
    /\ length rs = length offsets.
Proof.
  induction offsets as [|offset offsets IH]; intros w.
  - exists [], w. split; [done|]. split; [by rewrite app_nil_r|done].
  - destruct (_read_one_run self (REG_DATA_READY + offset) w)
      as (r0 & v & w1 & Hr & Hlog1 & _).
    destruct (IH w1) as (rs & w' & Hrest & Hlog & Hlen).
    exists ((r0, v) :: rs), w'. split; [|split].
    + cbn [for_each]. by rewrite (bind_assoc _ _ _ w), (bind_ret _ _ _ _ _ Hr).
    + rewrite Hlog, Hlog1. unfold read_events. cbn [zip_with mjoin list_join fst snd].
      by rewrite <- !app_assoc.
    + cbn [length]. by rewrite Hlen.
Qed.

End BringUpTrace.

(** X22: what the constructor does before the calibration.  With a GPIO
    chip select it claims that line under the name of the class followed by
    [_cs], opens the SPI device on chip select 0 whatever [spi_cs] it was
    given, sets the bus speed to 400 kHz, asks for no hardware chip select
    and pulses the line low for 50 ms; without one it opens the device on
    [spi_cs] and sets the speed.  Then, in both cases, it writes 0x5A to the
    reset register 0x3A, sleeps 20 ms and reads the five registers 0x02 to
    0x06 once each, in order, before the calibration runs. *)
Theorem bring_up_trace (Env : Type) (P : Platform Env) (c : variant)
    (spi_port spi_cs : Z) (spi_cs_gpio : option Z) (w : world) :
  let self := Sensor c spi_cs_gpio in
  exists rx (rs : list (Z * Z)) w1 w',
    bring_up c spi_port spi_cs spi_cs_gpio w = (Ret self, w')
    /\ log w1
       = log w
         ++ match spi_cs_gpio with
            | Some gpio =>
                [GetPin gpio (_device_name c +:+ "_cs"); SpiOpen spi_port 0;
                 SpiMaxSpeedHz 400000; SpiNoCs;
                 SetValue gpio INACTIVE; Sleep (5 # 100); SetValue gpio ACTIVE]
            | None => [SpiOpen spi_port spi_cs; SpiMaxSpeedHz 400000]
            end
         ++ transaction self [0xBA; 0x5A] rx
         ++ [Sleep (2 # 100)]
         ++ read_events self REG_DATA_READY [0; 1; 2; 3; 4] rs
    /\ length rs = 5%nat
    /\ _secret_sauce self w1 = (Ret tt, w').
Proof.
  intros self.
  assert (Hrest : forall w0 : world,
            exists rx (rs : list (Z * Z)) w1 w',
              (_write self REG_POWER_UP_RESET 0x5A ;;
               time_sleep (2 # 100) ;;
               for_each (range 5)
                 (fun offset => _read self (REG_DATA_READY + offset) 1 ;; mret tt) ;;
               _secret_sauce self ;;
               mret self) w0 = (Ret self, w')
              /\ log w1 = log w0 ++ transaction self [0xBA; 0x5A] rx
                          ++ [Sleep (2 # 100)]
                          ++ read_events self REG_DATA_READY [0; 1; 2; 3; 4] rs
              /\ length rs = 5%nat
              /\ _secret_sauce self w1 = (Ret tt, w')).
  { intros w0.
    destruct (_write_run self REG_POWER_UP_RESET 0x5A w0) as (rx & wa & H1 & Hl1).
    destruct (time_sleep_run (2 # 100) wa eq_refl) as (wb & H2 & Hl2).
    destruct (flush_run_log self (range 5) wb) as (rs & w1 & H3 & Hl3 & Hlen).
    destruct (_secret_sauce_total self w1) as (w' & H4).
    exists rx, rs, w1, w'. split; [|split; [|split; [done|done]]].
    - by rewrite (bind_ret _ _ _ _ _ H1), (bind_ret _ _ _ _ _ H2),
        (bind_ret _ _ _ _ _ H3), (bind_ret _ _ _ _ _ H4).
    - rewrite Hl3, Hl2, Hl1. change (range 5) with [0; 1; 2; 3; 4].
      by rewrite <- !app_assoc. }
  unfold bring_up. destruct spi_cs_gpio as [gpio|].
  - rewrite (bind_assoc _ _ _ w), bind_emit.
    unfold mbind at 1, M_bind at 1, mret at 1, M_ret at 1. cbn beta iota zeta.
    rewrite !bind_emit. cbn [_spi_cs_gpio env log].
    rewrite (bind_assoc _ _ _ _).
    match goal with
    | |- context [(set_pin gpio 0 ≫= _) ?w0] =>
        pose proof (eq_refl : set_pin gpio 0 w0
                              = (Ret tt, World (line_set_value (env w0) gpio INACTIVE)
                                               (log w0 ++ [SetValue gpio INACTIVE])))
          as Ha
    end.
    rewrite (bind_ret _ _ _ _ _ Ha). clear Ha.
    rewrite (bind_assoc _ _ _ _).
    match goal with
    | |- context [(time_sleep (5 # 100) ≫= _) ?wa] =>
        destruct (time_sleep_run (5 # 100) wa eq_refl) as (wb & Hb & Hlogb)
    end.
    rewrite (bind_ret _ _ _ _ _ Hb).
    pose proof (eq_refl : set_pin gpio 1 wb
                          = (Ret tt, World (line_set_value (env wb) gpio ACTIVE)
                                           (log wb ++ [SetValue gpio ACTIVE])))
      as Hc.
    rewrite (bind_ret _ _ _ _ _ Hc). clear Hc.
    match goal with
    | |- context [(_write _ _ _ ≫= _) ?w0] =>
        destruct (Hrest w0) as (rx & rs & w1 & w' & Hrun & Hlog & Hlen & Hsauce)
    end.
    exists rx, rs, w1, w'. split; [exact Hrun|]. split; [|done].
    rewrite Hlog. cbn [log]. rewrite Hlogb. cbn [log]. by rewrite <- !app_assoc.
  - unfold mbind at 1, M_bind at 1, mret at 1, M_ret at 1. cbn beta iota zeta.
    rewrite !bind_emit. cbn [_spi_cs_gpio env log].
    unfold mbind at 1, M_bind at 1, mret at 1, M_ret at 1. cbn beta iota zeta.
    unfold mbind at 1, M_bind at 1, mret at 1, M_ret at 1. cbn beta iota zeta.
    match goal with
    | |- context [(_write _ _ _ ≫= _) ?w0] =>
        destruct (Hrest w0) as (rx & rs & w1 & w' & Hrun & Hlog & Hlen & Hsauce)
    end.
    exists rx, rs, w1, w'. split; [exact Hrun|]. split; [|done].
    rewrite Hlog. cbn [log]. by rewrite <- !app_assoc.
Qed.
